(** * Camera stream acquisition and lifecycle: [backend/core/camera_manager.py]

    A shallow embedding of [CameraStream] (one capture worker per camera) and
    [CameraManager] (the registry of workers), and of the endpoints of
    [backend/api/video.py] that call the registry, followed by the
    properties of the lifecycle operations.

    Modelling conventions.
    - Python floats holding wall-clock seconds are rationals ([Q]); the
      rounding error of a double is not modelled.
    - A method that mutates [self] is a computation in the monad [M St]:
      it threads the object, may raise, and appends to a trace of the
      externally visible events it issues (lock traffic, thread spawn and
      join, sleeps, captures, log records).
    - The capture thread runs concurrently with the callers.  Its code is
      cut at its blocking calls into atomic transitions (opening the
      device; a pass of the loop up to the read; the return of the read;
      teardown up to the call that releases the device; the return of that
      call); what the environment does at each transition (which thread
      moves, the clock, the device's answer) is a [Tick].  A caller yields
      to the capture threads where it blocks: [time.sleep] and
      [Thread.join] take the list of ticks that happen meanwhile.  The
      workers share no state: a method that concerns one camera follows
      the threads of that camera only, the methods that go through all the
      cameras let the threads of every camera run where they block.
    - The configuration source is pulled afresh on each use; the outcome of
      one pull is a [DbResult].
    - Left out, as they change nothing the objects hold: the text of log
      records, the two [cap.set] calls that configure an opened device, a
      [cap.release] that raises (it is logged and the handle is cleared
      all the same), the short sleeps of the capture loop, and the lengths
      of the timeouts (a join or a sleep ends after any number of ticks). *)

From Stdlib Require Import List ZArith QArith Qround String Bool Arith Lia.
Import ListNotations.

Close Scope Q_scope.
Set Implicit Arguments.

(** ** Values *)

Definition Time := Q.

(** A frame is the pixel buffer of an [np.ndarray]. *)
Definition Frame := list Z.

Inductive Exn : Type :=
| KeyError
| ZeroDivisionError
| AttributeError
| DeviceError
| DatabaseError.

Inductive Result (A : Type) : Type :=
| Ok (a : A)
| Raise (e : Exn).
Arguments Ok {A} a.
Arguments Raise {A} e.

Inductive Lock : Type :=
| manager_lock
| frame_lock (camera_id : Z).

Inductive LogLevel : Type := INFO | WARNING | ERROR.

Inductive Event : Type :=
| EvAcquire (l : Lock)
| EvRelease (l : Lock)
| EvSpawn (camera_id : Z)
| EvJoin (camera_id : Z)
| EvSleep
| EvCapture (camera_id : Z) (f : Frame)
| EvDeviceRelease (camera_id : Z)
| EvLog (lvl : LogLevel).

Definition Trace := list Event.

(** ** The monad of methods: state, exceptions, trace *)

Definition M (St A : Type) : Type := St -> Result A * St * Trace.

Definition ret {St A} (a : A) : M St A := fun s => (Ok a, s, []).

Definition bind {St A B} (m : M St A) (f : A -> M St B) : M St B :=
  fun s =>
    match m s with
    | (Ok a, s1, t1) =>
        match f a s1 with
        | (r, s2, t2) => (r, s2, t1 ++ t2)
        end
    | (Raise e, s1, t1) => (Raise e, s1, t1)
    end.

Declare Scope method_scope.
Delimit Scope method_scope with method.
Notation "x <- c1 ;; c2" := (bind c1 (fun x => c2))
  (at level 61, c1 at next level, right associativity) : method_scope.
Notation "c1 ;; c2" := (bind c1 (fun _ => c2))
  (at level 61, right associativity) : method_scope.
Local Open Scope method_scope.

Definition get {St} : M St St := fun s => (Ok s, s, []).
Definition modify {St} (f : St -> St) : M St unit := fun s => (Ok tt, f s, []).
Definition emit {St} (e : Event) : M St unit := fun s => (Ok tt, s, [e]).
Definition raise {St A} (e : Exn) : M St A := fun s => (Raise e, s, []).

(** [try: body / except Exception: handler]. Mutations made before the raise stay. *)
Definition try_except {St A} (body : M St A) (handler : Exn -> M St A) : M St A :=
  fun s =>
    match body s with
    | (Ok a, s1, t1) => (Ok a, s1, t1)
    | (Raise e, s1, t1) =>
        match handler e s1 with
        | (r, s2, t2) => (r, s2, t1 ++ t2)
        end
    end.

(** [with lock: body]: the lock is released on every way out of the block. *)
Definition with_lock {St A} (l : Lock) (body : M St A) : M St A :=
  fun s =>
    match body s with
    | (r, s1, t1) => (r, s1, EvAcquire l :: t1 ++ [EvRelease l])
    end.

(** [logger.info / warning / error]. *)
Definition log {St} (lvl : LogLevel) : M St unit := emit (EvLog lvl).

(** ** Python arithmetic on floats *)

Definition Qlt_bool (a b : Q) : bool := negb (Qle_bool b a).

(** [a / b]: raises [ZeroDivisionError] when the divisor is zero. *)
Definition py_truediv (a b : Q) : Result Q :=
  if Qeq_bool b 0 then Raise ZeroDivisionError else Ok (a / b)%Q.

(** [round(x, 2)] of the exact quotient: to the nearest hundredth, ties to
    the even one. *)
Definition py_round2 (x : Q) : Q :=
  let y := (x * 100)%Q in
  let lo := Qfloor y in
  let frac := (y - inject_Z lo)%Q in
  let n :=
    if Qlt_bool frac (1 # 2) then lo
    else if Qlt_bool (1 # 2) frac then (lo + 1)%Z
    else if Z.even lo then lo else (lo + 1)%Z in
  (inject_Z n / 100)%Q.

(** ** Configuration records *)

(** One row of [db_utils.get_camera_configs()], restricted to the keys the
    subsystem reads. [cfg_fps = None] is a record without the ['fps'] key;
    a rate, when there is one, is an integer (a row whose [fps] column is
    NULL is not represented). *)
Record CameraConfig : Type := {
  cfg_id : Z;
  cfg_camera_name : string;
  cfg_stream_url : string;
  cfg_fps : option Z
}.

(** The outcome of one call of [db_utils.get_camera_configs()]. *)
Inductive DbResult : Type :=
| DbRows (rows : list CameraConfig)
| DbFails.

(** ** [class CameraStream] *)

(** The handle returned by [cv2.VideoCapture(source)]. *)
Record VideoCapture : Type := { isOpened : bool }.

(** Where a capture thread stands in [_stream_worker]. The thread is cut at
    its blocking calls: it has been launched and is opening the device
    ([Starting]); it is at the head of the [while] loop, between two passes
    ([Looping]); it is inside [cap.read()] ([Reading]); it is inside the
    [cap.release()] of [_cleanup] ([Releasing]); it is past the [finally]
    block ([Finished]). [frame_interval] and [current_time] are its local
    variables. *)
Inductive ThreadState : Type :=
| Starting
| Looping (frame_interval : Q)
| Reading (frame_interval : Q) (current_time : Time)
| Releasing
| Finished.

(** The attributes of a [CameraStream] object, in the order of [__init__].
    [threads] holds every thread launched on this object, newest first:
    [self.thread] is its head, the older ones are no longer referenced by
    the object but may still run and still share its attributes. *)
Record CameraStream : Type := {
  config : CameraConfig;
  camera_id : Z;
  camera_name : string;
  stream_url : string;
  fps : Z;
  is_running : bool;
  cap : option VideoCapture;
  threads : list ThreadState;
  shutdown_event : bool;
  latest_frame : option Frame;
  frame_timestamp : Time;
  frames_captured : nat;
  start_time : option Time;
  last_frame_time : Time
}.

Definition set_is_running (v : bool) (s : CameraStream) : CameraStream :=
  {| config := config s; camera_id := camera_id s; camera_name := camera_name s;
     stream_url := stream_url s; fps := fps s; is_running := v; cap := cap s;
     threads := threads s; shutdown_event := shutdown_event s;
     latest_frame := latest_frame s; frame_timestamp := frame_timestamp s;
     frames_captured := frames_captured s; start_time := start_time s;
     last_frame_time := last_frame_time s |}.

Definition set_cap (v : option VideoCapture) (s : CameraStream) : CameraStream :=
  {| config := config s; camera_id := camera_id s; camera_name := camera_name s;
     stream_url := stream_url s; fps := fps s; is_running := is_running s; cap := v;
     threads := threads s; shutdown_event := shutdown_event s;
     latest_frame := latest_frame s; frame_timestamp := frame_timestamp s;
     frames_captured := frames_captured s; start_time := start_time s;
     last_frame_time := last_frame_time s |}.

Definition set_threads (v : list ThreadState) (s : CameraStream) : CameraStream :=
  {| config := config s; camera_id := camera_id s; camera_name := camera_name s;
     stream_url := stream_url s; fps := fps s; is_running := is_running s; cap := cap s;
     threads := v; shutdown_event := shutdown_event s;
     latest_frame := latest_frame s; frame_timestamp := frame_timestamp s;
     frames_captured := frames_captured s; start_time := start_time s;
     last_frame_time := last_frame_time s |}.

Definition set_shutdown_event (v : bool) (s : CameraStream) : CameraStream :=
  {| config := config s; camera_id := camera_id s; camera_name := camera_name s;
     stream_url := stream_url s; fps := fps s; is_running := is_running s; cap := cap s;
     threads := threads s; shutdown_event := v;
     latest_frame := latest_frame s; frame_timestamp := frame_timestamp s;
     frames_captured := frames_captured s; start_time := start_time s;
     last_frame_time := last_frame_time s |}.

Definition set_latest_frame (v : option Frame) (s : CameraStream) : CameraStream :=
  {| config := config s; camera_id := camera_id s; camera_name := camera_name s;
     stream_url := stream_url s; fps := fps s; is_running := is_running s; cap := cap s;
     threads := threads s; shutdown_event := shutdown_event s;
     latest_frame := v; frame_timestamp := frame_timestamp s;
     frames_captured := frames_captured s; start_time := start_time s;
     last_frame_time := last_frame_time s |}.

Definition set_frame_timestamp (v : Time) (s : CameraStream) : CameraStream :=
  {| config := config s; camera_id := camera_id s; camera_name := camera_name s;
     stream_url := stream_url s; fps := fps s; is_running := is_running s; cap := cap s;
     threads := threads s; shutdown_event := shutdown_event s;
     latest_frame := latest_frame s; frame_timestamp := v;
     frames_captured := frames_captured s; start_time := start_time s;
     last_frame_time := last_frame_time s |}.

Definition set_frames_captured (v : nat) (s : CameraStream) : CameraStream :=
  {| config := config s; camera_id := camera_id s; camera_name := camera_name s;
     stream_url := stream_url s; fps := fps s; is_running := is_running s; cap := cap s;
     threads := threads s; shutdown_event := shutdown_event s;
     latest_frame := latest_frame s; frame_timestamp := frame_timestamp s;
     frames_captured := v; start_time := start_time s;
     last_frame_time := last_frame_time s |}.

Definition set_start_time (v : option Time) (s : CameraStream) : CameraStream :=
  {| config := config s; camera_id := camera_id s; camera_name := camera_name s;
     stream_url := stream_url s; fps := fps s; is_running := is_running s; cap := cap s;
     threads := threads s; shutdown_event := shutdown_event s;
     latest_frame := latest_frame s; frame_timestamp := frame_timestamp s;
     frames_captured := frames_captured s; start_time := v;
     last_frame_time := last_frame_time s |}.

Definition set_last_frame_time (v : Time) (s : CameraStream) : CameraStream :=
  {| config := config s; camera_id := camera_id s; camera_name := camera_name s;
     stream_url := stream_url s; fps := fps s; is_running := is_running s; cap := cap s;
     threads := threads s; shutdown_event := shutdown_event s;
     latest_frame := latest_frame s; frame_timestamp := frame_timestamp s;
     frames_captured := frames_captured s; start_time := start_time s;
     last_frame_time := v |}.

(** [CameraStream.__init__(camera_config)]. *)
Definition CameraStream_init (camera_config : CameraConfig) : CameraStream :=
  {| config := camera_config;
     camera_id := cfg_id camera_config;
     camera_name := cfg_camera_name camera_config;
     stream_url := cfg_stream_url camera_config;
     fps := match cfg_fps camera_config with Some f => f | None => 30%Z end;
     is_running := false;
     cap := None;
     threads := [];
     shutdown_event := false;
     latest_frame := None;
     frame_timestamp := 0%Q;
     frames_captured := 0;
     start_time := None;
     last_frame_time := 0%Q |}.

(** *** The capture thread *)

(** What [cap.read()] does at one call. *)
Inductive ReadResult : Type :=
| ReadOk (frame : Frame)
| ReadFail
| ReadRaises.

(** One scheduling decision of the environment: the thread of this object
    that moves (an index into [threads]), the clock it reads, whether the
    device opens if it is about to open it, what a read gives if it reads. *)
Record Tick : Type := {
  tk_thread : nat;
  tk_now : Time;
  tk_open : bool;
  tk_read : ReadResult
}.

Definition Schedule := list Tick.

Fixpoint set_nth {A} (i : nat) (v : A) (l : list A) : list A :=
  match l, i with
  | [], _ => []
  | _ :: l', O => v :: l'
  | x :: l', S i' => x :: set_nth i' v l'
  end.

Definition set_thread (i : nat) (st : ThreadState) (s : CameraStream) : CameraStream :=
  set_threads (set_nth i st (threads s)) s.

(** [_cleanup], lines 158-164: the flag is cleared and, when the object
    holds a handle, [release] is called on it, where the thread blocks.
    Gives the state the thread is left in. *)
Definition _cleanup : M CameraStream ThreadState :=
  modify (set_is_running false) ;;
  s <- get ;;
  match cap s with
  | Some _ => emit (EvDeviceRelease (camera_id s)) ;; ret Releasing
  | None => log INFO ;; ret Finished
  end.

(** [_cleanup], lines 165-170: [release] has come back; the attribute is
    cleared, whatever it holds by now. *)
Definition _cleanup_released : M CameraStream unit :=
  modify (set_cap None) ;;
  log INFO.

(** Lines 97-122 of [_stream_worker]: open and configure the device. Gives
    [Some frame_interval] when the loop is to be entered and [None] on the
    early [return]. *)
Definition worker_open (tk : Tick) : M CameraStream (option Q) :=
  modify (set_cap (Some {| isOpened := tk_open tk |})) ;;
  if negb (tk_open tk) then
    log ERROR ;; ret None
  else
    modify (set_is_running true) ;;
    modify (set_start_time (Some (tk_now tk))) ;;
    s <- get ;;
    match py_truediv 1 (inject_Z (fps s)) with
    | Raise e => raise e
    | Ok frame_interval => log INFO ;; ret (Some frame_interval)
    end.

(** Lines 126-133: the rate limiter and the call of [self.cap.read], up to
    where the read blocks. Gives the state the thread is left in. *)
Definition worker_loop_head (frame_interval : Q) (tk : Tick)
  : M CameraStream ThreadState :=
  let current_time := tk_now tk in
  s <- get ;;
  if Qlt_bool (current_time - last_frame_time s) frame_interval then
    ret (Looping frame_interval)
  else
    match cap s with
    | None => raise AttributeError
    | Some _ => ret (Reading frame_interval current_time)
    end.

(** Lines 133-146: [cap.read()] comes back and the frame is stored. *)
Definition worker_loop_read (current_time : Time) (tk : Tick) : M CameraStream unit :=
  s <- get ;;
  match tk_read tk with
  | ReadRaises => raise DeviceError
  | ReadFail => log WARNING
  | ReadOk frame =>
      emit (EvCapture (camera_id s) frame) ;;
      with_lock (frame_lock (camera_id s))
        (modify (set_latest_frame (Some frame)) ;;
         modify (set_frame_timestamp current_time)) ;;
      modify (fun s' => set_frames_captured (S (frames_captured s')) s') ;;
      modify (set_last_frame_time current_time)
  end.

(** The handler of the inner [try], lines 148-151. *)
Definition worker_loop_except : M CameraStream unit :=
  s <- get ;;
  if negb (shutdown_event s) then log ERROR else ret tt.

(** [_stream_worker], lines 94-156: one transition of the thread
    [tk_thread tk]. The outer [try] spans the opening and the loop, its
    [finally] runs [_cleanup], in two transitions; the loop test of line
    124 is made at each pass. A tick addressed to a thread that does not
    exist or has finished does nothing. *)
Definition _stream_worker (tk : Tick) : M CameraStream unit :=
  s <- get ;;
  let i := tk_thread tk in
  match nth_error (threads s) i with
  | None | Some Finished => ret tt
  | Some Starting =>
      r <- try_except (worker_open tk) (fun _ => log ERROR ;; ret None) ;;
      match r with
      | Some frame_interval => modify (set_thread i (Looping frame_interval))
      | None => next <- _cleanup ;; modify (set_thread i next)
      end
  | Some (Looping frame_interval) =>
      if shutdown_event s then
        next <- _cleanup ;; modify (set_thread i next)
      else
        next <- try_except (worker_loop_head frame_interval tk)
                  (fun _ => worker_loop_except ;; ret (Looping frame_interval)) ;;
        modify (set_thread i next)
  | Some (Reading frame_interval current_time) =>
      try_except (worker_loop_read current_time tk) (fun _ => worker_loop_except) ;;
      modify (set_thread i (Looping frame_interval))
  | Some Releasing =>
      _cleanup_released ;; modify (set_thread i Finished)
  end.

(** The capture threads run while the caller is blocked. *)
Fixpoint run_threads (sched : Schedule) : M CameraStream unit :=
  match sched with
  | [] => ret tt
  | tk :: rest => _stream_worker tk ;; run_threads rest
  end.

(** *** The methods called from other threads *)

(** [time.sleep(seconds)] in a caller. *)
Definition sleep (sched : Schedule) : M CameraStream unit :=
  emit EvSleep ;; run_threads sched.

(** [self.thread.join(timeout)]. *)
Definition join (sched : Schedule) : M CameraStream unit :=
  s <- get ;;
  emit (EvJoin (camera_id s)) ;; run_threads sched.

(** [self.thread and self.thread.is_alive()]. *)
Definition thread_is_alive (s : CameraStream) : bool :=
  match threads s with
  | [] => false
  | Finished :: _ => false
  | _ :: _ => true
  end.

(** [start]: lines 39-53. *)
Definition start (sched : Schedule) : M CameraStream bool :=
  s <- get ;;
  if is_running s then
    log WARNING ;; ret false
  else
    log INFO ;;
    modify (set_shutdown_event false) ;;
    modify (fun s' => set_threads (Starting :: threads s') s') ;;
    emit (EvSpawn (camera_id s)) ;;
    sleep sched ;;
    s' <- get ;;
    ret (is_running s').

(** [stop]: lines 55-69. *)
Definition stop (sched : Schedule) : M CameraStream bool :=
  s <- get ;;
  if negb (is_running s) then
    log WARNING ;; ret false
  else
    log INFO ;;
    modify (set_shutdown_event true) ;;
    (if thread_is_alive s then join sched else ret tt) ;;
    modify (set_is_running false) ;;
    ret true.

(** [get_latest_frame]: lines 71-76. The copy of an array is the same value. *)
Definition get_latest_frame : M CameraStream (option Frame) :=
  s <- get ;;
  with_lock (frame_lock (camera_id s))
    (s' <- get ;;
     match latest_frame s' with
     | Some frame => ret (Some frame)
     | None => ret None
     end).

(** The dictionary built by [get_stream_info]. *)
Record StatusSnapshot : Type := {
  st_camera_id : Z;
  st_camera_name : string;
  st_is_running : bool;
  st_frames_captured : nat;
  st_uptime_seconds : Q;
  st_actual_fps : Q;
  st_configured_fps : Z;
  st_last_frame_age : option Q
}.

(** [get_stream_info]: lines 78-92. [now1] and [now2] are its two readings
    of [time.time()]. A start time counts as set when it is neither [None]
    nor zero (Python truth value). *)
Definition get_stream_info (now1 now2 : Time) : M CameraStream StatusSnapshot :=
  s <- get ;;
  let uptime :=
    match start_time s with
    | Some t0 => if Qeq_bool t0 0 then 0%Q else (now1 - t0)%Q
    | None => 0%Q
    end in
  actual_fps <-
    (if Qlt_bool 0 uptime then
       match py_truediv (inject_Z (Z.of_nat (frames_captured s))) uptime with
       | Ok q => ret q
       | Raise e => raise e
       end
     else ret 0%Q) ;;
  ret {| st_camera_id := camera_id s;
         st_camera_name := camera_name s;
         st_is_running := is_running s;
         st_frames_captured := frames_captured s;
         st_uptime_seconds := uptime;
         st_actual_fps := py_round2 actual_fps;
         st_configured_fps := fps s;
         st_last_frame_age :=
           if Qlt_bool 0 (last_frame_time s) then Some (now2 - last_frame_time s)%Q
           else None |}.

(** ** [class CameraManager] *)

(** A Python [dict] keyed by camera id: entries in insertion order, a key
    at most once. *)
Definition Dict (V : Type) : Type := list (Z * V).

Fixpoint dict_get {V} (k : Z) (d : Dict V) : option V :=
  match d with
  | [] => None
  | (k', v) :: d' => if Z.eqb k k' then Some v else dict_get k d'
  end.

(** [k in d]. *)
Definition dict_contains {V} (k : Z) (d : Dict V) : bool :=
  match dict_get k d with Some _ => true | None => false end.

(** [d[k] = v]: replaces the value of a present key where it stands,
    appends a new key at the end. *)
Fixpoint dict_set {V} (k : Z) (v : V) (d : Dict V) : Dict V :=
  match d with
  | [] => [(k, v)]
  | (k', v') :: d' =>
      if Z.eqb k k' then (k', v) :: d' else (k', v') :: dict_set k v d'
  end.

Definition dict_keys {V} (d : Dict V) : list Z := map fst d.

Record CameraManager : Type := { streams : Dict CameraStream }.

(** [CameraManager.__init__]. *)
Definition CameraManager_init : CameraManager := {| streams := [] |}.

(** [self.streams[camera_id].method(...)]: the subscript raises [KeyError]
    on an absent key; the method mutates the object the dictionary holds. *)
Definition on_stream {A} (camera_id : Z) (method : M CameraStream A)
  : M CameraManager A :=
  fun m =>
    match dict_get camera_id (streams m) with
    | None => (Raise KeyError, m, [])
    | Some s =>
        match method s with
        | (r, s', t) => (r, {| streams := dict_set camera_id s' (streams m) |}, t)
        end
    end.

(** [for x in l: body(x)], collecting what the bodies return. *)
Fixpoint for_each {St A B} (l : list A) (body : A -> M St B) : M St (list B) :=
  match l with
  | [] => ret []
  | x :: l' => b <- body x ;; bs <- for_each l' body ;; ret (b :: bs)
  end.

(** [db_utils.get_camera_configs()]: a failure is logged where it arises
    (by the connection pool or by [get_db_connection]), logged again by
    [get_camera_configs], and re-raised. *)
Definition get_camera_configs (pull : DbResult) : M CameraManager (list CameraConfig) :=
  match pull with
  | DbRows rows => ret rows
  | DbFails => log ERROR ;; log ERROR ;; raise DatabaseError
  end.

(** [load_camera_configs]: lines 181-187. *)
Definition load_camera_configs (pull : DbResult) : M CameraManager (list CameraConfig) :=
  try_except (get_camera_configs pull) (fun _ => log ERROR ;; ret []).

(** Lines 199-203: the body of the [for] loop of [initialize_cameras]. *)
Definition initialize_one (config : CameraConfig) : M CameraManager unit :=
  let camera_id := cfg_id config in
  m <- get ;;
  if negb (dict_contains camera_id (streams m)) then
    modify (fun m' =>
      {| streams := dict_set camera_id (CameraStream_init config) (streams m') |}) ;;
    log INFO
  else ret tt.

(** [initialize_cameras]: lines 189-210. *)
Definition initialize_cameras (pull : DbResult) : M CameraManager bool :=
  with_lock manager_lock
    (try_except
       (camera_configs <- load_camera_configs pull ;;
        match camera_configs with
        | [] => log WARNING ;; ret false
        | _ :: _ =>
            for_each camera_configs initialize_one ;;
            log INFO ;;
            ret true
        end)
       (fun _ => log ERROR ;; ret false)).

(** [next((c for c in camera_configs if c['id'] == camera_id), None)]. *)
Definition find_config (camera_id : Z) (camera_configs : list CameraConfig)
  : option CameraConfig :=
  find (fun c => Z.eqb (cfg_id c) camera_id) camera_configs.

(** [start_camera]: lines 212-226. [pull] is what the configuration
    source answers if it is asked, [sched] what the capture threads do
    during the grace period. *)
Definition start_camera (pull : DbResult) (sched : Schedule) (camera_id : Z)
  : M CameraManager bool :=
  with_lock manager_lock
    (m <- get ;;
     if negb (dict_contains camera_id (streams m)) then
       camera_configs <- load_camera_configs pull ;;
       match find_config camera_id camera_configs with
       | None => log ERROR ;; ret false
       | Some config =>
           modify (fun m' =>
             {| streams := dict_set camera_id (CameraStream_init config) (streams m') |}) ;;
           on_stream camera_id (start sched)
       end
     else
       on_stream camera_id (start sched)).

(** [stop_camera]: lines 228-235. *)
Definition stop_camera (sched : Schedule) (camera_id : Z) : M CameraManager bool :=
  with_lock manager_lock
    (m <- get ;;
     if negb (dict_contains camera_id (streams m)) then
       log WARNING ;; ret false
     else
       on_stream camera_id (stop sched)).

(** The capture threads of every camera run while a method of the registry
    is blocked or busy: [scheds] says what those of each camera do. *)
Definition run_all (scheds : Z -> Schedule) : M CameraManager unit :=
  m <- get ;;
  for_each (dict_keys (streams m)) (fun camera_id =>
    on_stream camera_id (run_threads (scheds camera_id))) ;;
  ret tt.

(** [stop_all_cameras]: lines 251-259. [scheds camera_id] is what the
    capture threads of a camera do while its own [stop] joins them;
    [meanwhile camera_id] is what the threads of every camera have done by
    the time the loop leaves that camera.  The threads of the other cameras
    share nothing with the worker being stopped, so what they do during
    its join is placed after it. *)
Definition stop_all_cameras (scheds : Z -> Schedule) (meanwhile : Z -> Z -> Schedule)
  : M CameraManager (Dict bool) :=
  with_lock manager_lock
    (m <- get ;;
     results <- for_each (dict_keys (streams m)) (fun camera_id =>
                  r <- on_stream camera_id (stop (scheds camera_id)) ;;
                  run_all (meanwhile camera_id) ;;
                  ret (camera_id, r)) ;;
     log INFO ;;
     ret results).

(** [get_camera_frame]: lines 261-266. *)
Definition get_camera_frame (camera_id : Z) : M CameraManager (option Frame) :=
  with_lock manager_lock
    (m <- get ;;
     if negb (dict_contains camera_id (streams m)) then ret None
     else on_stream camera_id get_latest_frame).

(** [get_camera_status]: lines 268-273. *)
Definition get_camera_status (now1 now2 : Time) (camera_id : Z)
  : M CameraManager (option StatusSnapshot) :=
  with_lock manager_lock
    (m <- get ;;
     if negb (dict_contains camera_id (streams m)) then ret None
     else
       info <- on_stream camera_id (get_stream_info now1 now2) ;;
       ret (Some info)).

(** [is_camera_running]: lines 283-288. *)
Definition is_camera_running (camera_id : Z) : M CameraManager bool :=
  with_lock manager_lock
    (m <- get ;;
     if negb (dict_contains camera_id (streams m)) then ret false
     else on_stream camera_id (s <- get ;; ret (is_running s))).

(** [refresh_camera_configs]: lines 298-313. *)
Definition refresh_camera_configs (pull : DbResult) (scheds : Z -> Schedule)
           (meanwhile : Z -> Z -> Schedule) : M CameraManager bool :=
  with_lock manager_lock
    (try_except
       (stop_all_cameras scheds meanwhile ;;
        modify (fun _ => {| streams := [] |}) ;;
        initialize_cameras pull)
       (fun _ => log ERROR ;; ret false)).

(** The registry's known ids. *)
Definition known_ids (m : CameraManager) : list Z := dict_keys (streams m).

(** ** Reading traces *)

(** Whether every [Thread.join] of the trace is issued while the registry
    lock is not held; [depth] is how many times the re-entrant lock is held
    where the trace begins. *)
Fixpoint joins_outside_manager_lock (depth : nat) (t : Trace) : bool :=
  match t with
  | [] => true
  | EvAcquire manager_lock :: t' => joins_outside_manager_lock (S depth) t'
  | EvRelease manager_lock :: t' => joins_outside_manager_lock (pred depth) t'
  | EvJoin _ :: t' => Nat.eqb depth 0 && joins_outside_manager_lock depth t'
  | _ :: t' => joins_outside_manager_lock depth t'
  end.

(** Whether every [Thread.join] of the trace is issued while the registry
    lock is held. *)
Fixpoint joins_inside_manager_lock (depth : nat) (t : Trace) : bool :=
  match t with
  | [] => true
  | EvAcquire manager_lock :: t' => joins_inside_manager_lock (S depth) t'
  | EvRelease manager_lock :: t' => joins_inside_manager_lock (pred depth) t'
  | EvJoin _ :: t' => negb (Nat.eqb depth 0) && joins_inside_manager_lock depth t'
  | _ :: t' => joins_inside_manager_lock depth t'
  end.

Definition is_join (e : Event) : bool :=
  match e with EvJoin _ => true | _ => false end.

Definition is_spawn (e : Event) : bool :=
  match e with EvSpawn _ => true | _ => false end.

Definition is_manager_lock_event (e : Event) : bool :=
  match e with
  | EvAcquire manager_lock | EvRelease manager_lock => true
  | _ => false
  end.

(** The frame the device delivered last: the last capture of camera [cid]
    in the trace, or [before] when the trace has none. *)
Fixpoint last_capture (cid : Z) (t : Trace) (before : option Frame) : option Frame :=
  match t with
  | [] => before
  | EvCapture c f :: t' =>
      last_capture cid t' (if Z.eqb c cid then Some f else before)
  | _ :: t' => last_capture cid t' before
  end.

(** How many frames the device delivered to camera [cid] in the trace. *)
Fixpoint count_captures (cid : Z) (t : Trace) : nat :=
  match t with
  | [] => 0
  | EvCapture c _ :: t' => (if Z.eqb c cid then 1 else 0) + count_captures cid t'
  | _ :: t' => count_captures cid t'
  end.

(** ** Running a method *)

Definition result_of {St A} (x : Result A * St * Trace) : Result A := fst (fst x).
Definition state_of {St A} (x : Result A * St * Trace) : St := snd (fst x).
Definition trace_of {St A} (x : Result A * St * Trace) : Trace := snd x.

(** The rows a pull hands to the registry ([load_camera_configs] turns a
    failing pull into the empty list). *)
Definition pulled (pull : DbResult) : list CameraConfig :=
  match pull with
  | DbRows rows => rows
  | DbFails => []
  end.

(** Events a capture thread can issue. *)
Definition is_worker_event (e : Event) : bool :=
  match e with
  | EvCapture _ _ | EvDeviceRelease _ | EvLog _
  | EvAcquire (frame_lock _) | EvRelease (frame_lock _) => true
  | _ => false
  end.

(** The states a worker object can be in: built by [__init__], then moved
    by its capture threads and by [start] and [stop]. *)
Inductive reachable : CameraStream -> Prop :=
| reach_init : forall c, reachable (CameraStream_init c)
| reach_tick : forall tk s, reachable s -> reachable (state_of (_stream_worker tk s))
| reach_start : forall sched s, reachable s -> reachable (state_of (start sched s))
| reach_stop : forall sched s, reachable s -> reachable (state_of (stop sched s)).

(** A thread that has left [_stream_worker]. *)
Definition is_finished (st : ThreadState) : bool :=
  match st with Finished => true | _ => false end.

(** A thread inside the [while] loop. *)
Definition in_loop (st : ThreadState) : bool :=
  match st with Looping _ | Reading _ _ => true | _ => false end.

(** No thread of the object is alive. *)
Definition quiescent (s : CameraStream) : bool := forallb is_finished (threads s).

(** The newest thread captures, nothing has asked it to stop, and the
    older threads have finished. *)
Definition capturing (s : CameraStream) : bool :=
  is_running s && negb (shutdown_event s) &&
  match threads s with
  | st :: older => in_loop st && forallb is_finished older
  | [] => false
  end.

(** What the newest thread of a worker reports by the end of the grace
    period of [start]: whether it got to open the device, the device
    opened, and the frame interval [1.0 / fps] could be computed. *)
Definition opened_within (sched : Schedule) (fps : Z) : bool :=
  match find (fun tk => Nat.eqb (tk_thread tk) 0) sched with
  | Some tk => tk_open tk && negb (Z.eqb fps 0)
  | None => false
  end.

(** ** Sample configurations and runs *)

Module Sample.

Definition front : CameraConfig :=
  {| cfg_id := 1; cfg_camera_name := "front"; cfg_stream_url := "0";
     cfg_fps := Some 30%Z |}.

Definition back : CameraConfig :=
  {| cfg_id := 2; cfg_camera_name := "back";
     cfg_stream_url := "rtsp://10.0.0.2/live"; cfg_fps := None |}.

Definition tick (i : nat) (now : Time) (opened : bool) (r : ReadResult) : Tick :=
  {| tk_thread := i; tk_now := now; tk_open := opened; tk_read := r |}.

(** A registry that knows camera 1 and has not started it. *)
Definition idle : CameraManager :=
  {| streams := [(1%Z, CameraStream_init front)] |}.

(** The device opens, the first pass reads frame [[7]], the second pass
    is inside [cap.read()] when the grace period ends. *)
Definition opens_and_reads : Schedule :=
  [tick 0 (1000 # 1)%Q true ReadFail;
   tick 0 (1001 # 1)%Q true ReadFail;
   tick 0 (1001 # 1)%Q true (ReadOk [7%Z]);
   tick 0 (1002 # 1)%Q true ReadFail].

(** The device does not open. *)
Definition does_not_open : Schedule :=
  [tick 0 (1000 # 1)%Q false ReadFail].

(** The device opens and the first read fails. *)
Definition opens_then_read_fails : Schedule :=
  [tick 0 (1000 # 1)%Q true ReadFail].

(** One pass through the loop: the rate limiter lets it through, the read
    fails. *)
Definition one_failed_pass : Schedule :=
  [tick 0 (1001 # 1)%Q true ReadFail;
   tick 0 (1001 # 1)%Q true ReadFail].

(** The pending read delivers frame [[8]], then the thread sees the
    shutdown signal and calls [release], which comes back. *)
Definition finishes_read_then_exits : Schedule :=
  [tick 0 (1003 # 1)%Q true (ReadOk [8%Z]);
   tick 0 (1004 # 1)%Q true ReadFail;
   tick 0 (1004 # 1)%Q true ReadFail].

(** The same, but the join ends while the thread is inside [release]. *)
Definition finishes_read_then_releases : Schedule :=
  [tick 0 (1003 # 1)%Q true (ReadOk [8%Z]);
   tick 0 (1004 # 1)%Q true ReadFail].

(** The new thread opens the device, then the [release] of the previous
    thread comes back. *)
Definition opens_then_old_release_returns : Schedule :=
  [tick 0 (1005 # 1)%Q true ReadFail;
   tick 1 (1006 # 1)%Q true ReadFail].

(** A registry that knows cameras 2 and 1, in that order: the thread of
    camera 2 was launched and has not opened its device yet, camera 1
    captures. *)
Definition one_opening_one_capturing : CameraManager :=
  state_of (start_camera (DbRows [front; back]) opens_and_reads 1
    (state_of (start_camera (DbRows [front; back]) [] 2 CameraManager_init))).

(** By the time [stop_all_cameras] leaves camera 1, the thread of camera 2
    has opened its device. *)
Definition opens_during_join (left camera : Z) : Schedule :=
  if Z.eqb left 1 && Z.eqb camera 2 then [tick 0 (1005 # 1)%Q true ReadFail] else [].

(** Camera 1 started and capturing. *)
Definition running : CameraManager :=
  state_of (start_camera (DbRows [front]) opens_and_reads 1 idle).

(** The worker object of camera 1 in [running]. *)
Definition running_stream : CameraStream :=
  Eval vm_compute in
    match dict_get 1 (streams running) with
    | Some s => s
    | None => CameraStream_init front
    end.

(** The worker of camera 1 in [running], stopped while its thread was
    inside [release] and started again, the old [release] coming back
    during the grace period. *)
Definition lost_handle : CameraStream :=
  Eval vm_compute in
    state_of (start opens_then_old_release_returns
      (state_of (stop finishes_read_then_releases running_stream))).

End Sample.

(** ** Summaries of a run *)

Unset Implicit Arguments.

(** What one transition of a capture thread can and cannot do to the
    object it shares with the callers. *)
Record worker_step_spec (s s' : CameraStream) (t : Trace) : Prop := {
  wk_config : config s' = config s;
  wk_camera_id : camera_id s' = camera_id s;
  wk_camera_name : camera_name s' = camera_name s;
  wk_fps : fps s' = fps s;
  wk_shutdown : shutdown_event s' = shutdown_event s;
  wk_threads : List.length (threads s') = List.length (threads s);
  wk_frames : frames_captured s' = frames_captured s + count_captures (camera_id s) t;
  wk_latest : latest_frame s' = last_capture (camera_id s) t (latest_frame s);
  wk_last_time : count_captures (camera_id s) t = 0 ->
                 last_frame_time s' = last_frame_time s;
  wk_trace : forallb is_worker_event t = true
}.

(** Neither method raises, and what they change of the counters and of the
    stored frame is what the capture threads did meanwhile. *)
Record method_spec (s s' : CameraStream) (t : Trace) : Prop := {
  mt_config : config s' = config s;
  mt_camera_id : camera_id s' = camera_id s;
  mt_frames : frames_captured s' = frames_captured s + count_captures (camera_id s) t;
  mt_latest : latest_frame s' = last_capture (camera_id s) t (latest_frame s);
  mt_last_time : count_captures (camera_id s) t = 0 ->
                 last_frame_time s' = last_frame_time s;
  mt_no_manager_lock : existsb is_manager_lock_event t = false
}.

(** ** The rest of [CameraManager] *)

(** [time.sleep(seconds)] in a method of the registry: the capture threads
    of every camera may run meanwhile, [scheds] says how. *)
Definition sleep_all (scheds : Z -> Schedule) : M CameraManager unit :=
  emit EvSleep ;;
  m <- get ;;
  for_each (dict_keys (streams m)) (fun camera_id =>
    on_stream camera_id (run_threads (scheds camera_id))) ;;
  ret tt.

(** [start_all_cameras]: lines 237-249. [scheds] gives the grace period of
    each camera's [start], [staggers camera_id] what all the capture
    threads do during the sleep that follows the start of [camera_id]. *)
Definition start_all_cameras (pull : DbResult) (scheds : Z -> Schedule)
           (staggers : Z -> Z -> Schedule) : M CameraManager (Dict bool) :=
  with_lock manager_lock
    (m <- get ;;
     match streams m with
     | [] => initialize_cameras pull ;; ret tt
     | _ :: _ => ret tt
     end ;;
     m' <- get ;;
     results <- for_each (dict_keys (streams m')) (fun camera_id =>
                  r <- on_stream camera_id (start (scheds camera_id)) ;;
                  sleep_all (staggers camera_id) ;;
                  ret (camera_id, r)) ;;
     log INFO ;;
     ret results).

(** [get_all_camera_status]: lines 275-281. [nows camera_id] are the two
    clock readings of that camera's [get_stream_info]. *)
Definition get_all_camera_status (nows : Z -> Time * Time)
  : M CameraManager (Dict StatusSnapshot) :=
  with_lock manager_lock
    (m <- get ;;
     for_each (dict_keys (streams m)) (fun camera_id =>
       info <- on_stream camera_id
                 (get_stream_info (fst (nows camera_id)) (snd (nows camera_id))) ;;
       ret (camera_id, info))).

(** [get_running_cameras]: lines 290-296. *)
Definition get_running_cameras : M CameraManager (list Z) :=
  with_lock manager_lock
    (m <- get ;;
     ret (map fst (filter (fun item => is_running (snd item)) (streams m)))).

(** [shutdown]: lines 315-328. [joins camera_id] is what the capture
    threads of a camera do while its thread is joined a second time,
    [later camera_id] what the threads of every camera have done by the
    time the second loop leaves that camera. *)
Definition shutdown (scheds joins : Z -> Schedule) (meanwhile later : Z -> Z -> Schedule)
  : M CameraManager unit :=
  log INFO ;;
  with_lock manager_lock
    (stop_all_cameras scheds meanwhile ;;
     m <- get ;;
     for_each (dict_keys (streams m)) (fun camera_id =>
       on_stream camera_id
         (s <- get ;;
          if thread_is_alive s then join (joins camera_id) else ret tt) ;;
       run_all (later camera_id)) ;;
     modify (fun _ => {| streams := [] |})) ;;
  log INFO.

(** [sum(results.values())]: how many entries are true. *)
Definition count_true (results : Dict bool) : nat :=
  List.length (filter (fun item => snd item) results).

(** The newest thread is inside the loop, the shutdown signal is set, and
    the older threads have finished. *)
Definition draining (s : CameraStream) : bool :=
  shutdown_event s &&
  match threads s with
  | st :: older => in_loop st && forallb is_finished older
  | [] => false
  end.

(** How many ticks of a schedule are addressed to thread [i]. *)
Definition ticks_for (i : nat) (sched : Schedule) : nat :=
  List.length (filter (fun tk => Nat.eqb (tk_thread tk) i) sched).

(** Whether every [Thread.join] of the trace is issued with the registry
    lock held, wherever the trace is placed under that lock: the trace
    gives back the lock as often as it takes it, and never more. *)
Definition joins_locked (t : Trace) : Prop :=
  forall depth rest,
    joins_inside_manager_lock (S depth) (t ++ rest) =
    joins_inside_manager_lock (S depth) rest.

(** ** What the threads of a worker can still do *)

(** A thread that has been launched and has not opened its device yet. *)
Definition is_starting (st : ThreadState) : bool :=
  match st with Starting => true | _ => false end.

(** No thread of the object is still to open its device: none of them can
    set the running flag. *)
Definition no_thread_opening (s : CameraStream) : bool :=
  forallb (fun st => negb (is_starting st)) (threads s).

(** The worker is not running and none of its threads can set the flag. *)
Definition stays_off (s : CameraStream) : bool :=
  negb (is_running s) && no_thread_opening s.

(** The running flag is out of reach of the object's own threads: the
    worker captures, or it is not running and no thread is still opening
    the device. *)
Definition flag_settled (s : CameraStream) : bool :=
  capturing s || stays_off s.

(** The older threads have finished and the newest one is on its way out:
    in the loop with the shutdown signal set, or inside [release] with the
    flag cleared, or finished with the flag and the handle cleared. *)
Definition leaving (s : CameraStream) : bool :=
  match threads s with
  | st :: older =>
      forallb is_finished older &&
      match st with
      | Starting => false
      | Looping _ | Reading _ _ => shutdown_event s
      | Releasing => negb (is_running s)
      | Finished =>
          negb (is_running s) && match cap s with None => true | Some _ => false end
      end
  | [] => false
  end.

(** How many transitions the newest thread needs at most to end, once it
    is leaving: the pending read, the loop test and the call of [release],
    the return of [release]. *)
Definition steps_to_end (s : CameraStream) : nat :=
  match threads s with
  | Reading _ _ :: _ => 3
  | Looping _ :: _ => 2
  | Releasing :: _ => 1
  | _ => 0
  end.

(** [s'] is what the capture threads of a worker make of [s] in some run. *)
Definition ticked (s s' : CameraStream) : Prop :=
  exists sched, s' = state_of (run_threads sched s).

(** ** The callers: [backend/api/video.py] *)

Module Video.

(** [api.auth.TokenData]. *)
Record TokenData : Type := {
  username : option string;
  role : option string
}.

(** [user.role in roles]. *)
Definition role_in (user : TokenData) (roles : list string) : bool :=
  match role user with
  | Some r => existsb (String.eqb r) roles
  | None => false
  end.

(** What a handler answers: the value it returns, or the [HTTPException]
    it raises, which the framework sends as the response. *)
Inductive Response (A : Type) : Type :=
| Returns (body : A)
| HTTPException (status_code : nat) (detail : string).
Arguments Returns {A} body.
Arguments HTTPException {A} status_code detail.

Definition HTTP_403_FORBIDDEN : nat := 403.
Definition HTTP_404_NOT_FOUND : nat := 404.

(** The JSON bodies of the lifecycle endpoints. *)
Inductive Message : Type :=
| CameraStarted (camera_id : Z)
| CameraStopped (camera_id : Z)
| StartedAll (started total : nat) (results : Dict bool)
| StoppedAll (stopped total : nat) (results : Dict bool).


(** [GET /cameras/{camera_id}/status]: lines 217-231. *)
Definition get_camera_status (now1 now2 : Time) (camera_id : Z) (user : TokenData)
  : M CameraManager (Response StatusSnapshot) :=
  if negb (role_in user ["admin"%string; "super_admin"%string]) then
    ret (HTTPException HTTP_403_FORBIDDEN "Insufficient permissions")
  else
    status_info <- get_camera_status now1 now2 camera_id ;;
    match status_info with
    | None => ret (HTTPException HTTP_404_NOT_FOUND "Camera not found")
    | Some info => ret (Returns info)
    end.



(** [POST /cameras/start_all]: lines 265-278. *)
Definition start_all_cameras (pull : DbResult) (scheds : Z -> Schedule)
           (staggers : Z -> Z -> Schedule) (user : TokenData)
  : M CameraManager (Response Message) :=
  if negb (role_in user ["super_admin"%string]) then
    ret (HTTPException HTTP_403_FORBIDDEN "Super admin access required")
  else
    results <- start_all_cameras pull scheds staggers ;;
    ret (Returns (StartedAll (count_true results) (List.length results) results)).

(** [POST /cameras/stop_all]: lines 280-293. *)
Definition stop_all_cameras (scheds : Z -> Schedule) (meanwhile : Z -> Z -> Schedule)
           (user : TokenData) : M CameraManager (Response Message) :=
  if negb (role_in user ["super_admin"%string]) then
    ret (HTTPException HTTP_403_FORBIDDEN "Super admin access required")
  else
    results <- stop_all_cameras scheds meanwhile ;;
    ret (Returns (StoppedAll (count_true results) (List.length results) results)).

(** A [WebSocket] object, by identity. *)
Definition WebSocket : Type := nat.

(** [class ConnectionManager]: lines 66-77. *)
Record ConnectionManager : Type := { active_connections : list WebSocket }.

Definition ConnectionManager_init : ConnectionManager :=
  {| active_connections := [] |}.

(** [connect], once the socket is accepted. *)
Definition connect (websocket : WebSocket) (cm : ConnectionManager) : ConnectionManager :=
  {| active_connections := active_connections cm ++ [websocket] |}.

(** [list.remove(x)]: drops the first occurrence. *)
Fixpoint list_remove (x : WebSocket) (l : list WebSocket) : list WebSocket :=
  match l with
  | [] => []
  | y :: l' => if Nat.eqb x y then l' else y :: list_remove x l'
  end.

(** [disconnect]. *)
Definition disconnect (websocket : WebSocket) (cm : ConnectionManager)
  : ConnectionManager :=
  if existsb (Nat.eqb websocket) (active_connections cm) then
    {| active_connections := list_remove websocket (active_connections cm) |}
  else cm.

End Video.



(** * Properties *)

Ltac unfold_method :=
  cbv beta iota delta
    [bind ret get modify emit raise try_except with_lock log
     result_of state_of trace_of fst snd] in *.

Ltac break_match :=
  match goal with
  | |- context [match ?x with _ => _ end] =>
      lazymatch x with
      | context [match _ with _ => _ end] => fail
      | _ => destruct x eqn:?
      end
  | |- context [if ?x then _ else _] =>
      lazymatch x with
      | context [if _ then _ else _] => fail
      | _ => destruct x eqn:?
      end
  end.

(** ** Traces *)

Section TraceFacts.

Variable cid : Z.

Lemma last_capture_app (t1 t2 : Trace) (d : option Frame) :
  last_capture cid (t1 ++ t2) d = last_capture cid t2 (last_capture cid t1 d).
Proof.
  revert d; induction t1 as [|e t1 IH]; intros d; [reflexivity|].
  destruct e; simpl; apply IH.
Qed.

Lemma count_captures_app (t1 t2 : Trace) :
  count_captures cid (t1 ++ t2) = count_captures cid t1 + count_captures cid t2.
Proof.
  induction t1 as [|e t1 IH]; [reflexivity|].
  destruct e; simpl; rewrite IH; lia.
Qed.

Lemma last_capture_none (t : Trace) (d : option Frame) :
  count_captures cid t = 0 -> last_capture cid t d = d.
Proof.
  revert d; induction t as [|e t IH]; intros d H; [reflexivity|].
  destruct e as [| | | | |c f| |]; simpl in *; try (apply IH; assumption).
  destruct (Z.eqb c cid); [discriminate | apply IH; assumption].
Qed.

Lemma last_capture_some (t : Trace) (f : Frame) :
  exists f', last_capture cid t (Some f) = Some f'.
Proof.
  revert f; induction t as [|e t IH]; intros f; [eexists; reflexivity|].
  destruct e as [| | | | |c f'| |]; simpl; try apply IH.
  destruct (Z.eqb c cid); apply IH.
Qed.

Lemma last_capture_pos (t : Trace) (d : option Frame) :
  0 < count_captures cid t -> exists f, last_capture cid t d = Some f.
Proof.
  revert d; induction t as [|e t IH]; intros d H; [inversion H|].
  destruct e as [| | | | |c f| |]; simpl in *; try (apply IH; assumption).
  destruct (Z.eqb c cid); [apply last_capture_some | apply IH; assumption].
Qed.

End TraceFacts.

Lemma worker_trace_app (t1 t2 : Trace) :
  forallb is_worker_event t1 = true -> forallb is_worker_event t2 = true ->
  forallb is_worker_event (t1 ++ t2) = true.
Proof. intros H1 H2; rewrite forallb_app, H1, H2; reflexivity. Qed.

Lemma worker_trace_inside (t rest : Trace) (depth : nat) :
  forallb is_worker_event t = true ->
  joins_inside_manager_lock depth (t ++ rest) = joins_inside_manager_lock depth rest.
Proof.
  induction t as [|e t IH]; intros H; [reflexivity|].
  simpl in H; apply andb_true_iff in H; destruct H as [He Ht].
  destruct e as [[|]|[|]| | | | | |]; simpl in *; try discriminate; auto.
Qed.

Lemma worker_trace_no_manager_lock (t : Trace) :
  forallb is_worker_event t = true -> existsb is_manager_lock_event t = false.
Proof.
  induction t as [|e t IH]; intros H; [reflexivity|].
  simpl in H; apply andb_true_iff in H; destruct H as [He Ht].
  simpl; rewrite (IH Ht); destruct e as [[|]|[|]| | | | | |]; simpl in *; congruence.
Qed.

(** ** The capture thread *)

Lemma set_nth_length {A} (i : nat) (v : A) (l : list A) :
  List.length (set_nth i v l) = List.length l.
Proof.
  revert i; induction l as [|x l IH]; intros [|i]; simpl; auto.
Qed.

Lemma _stream_worker_spec (tk : Tick) (s : CameraStream) :
  exists s' t, _stream_worker tk s = (Ok tt, s', t) /\ worker_step_spec s s' t.
Proof.
  unfold _stream_worker, worker_open, worker_loop_head, worker_loop_read,
    worker_loop_except, _cleanup, _cleanup_released, py_truediv.
  unfold_method.
  repeat break_match; simpl;
    (do 2 eexists; split; [reflexivity|]);
    constructor; simpl; rewrite ?set_nth_length, ?Z.eqb_refl; simpl; auto; try lia; try discriminate.
Qed.

Lemma worker_step_spec_refl (s : CameraStream) : worker_step_spec s s [].
Proof. constructor; simpl; auto. Qed.

Lemma worker_step_spec_trans (s s1 s2 : CameraStream) (t1 t2 : Trace) :
  worker_step_spec s s1 t1 -> worker_step_spec s1 s2 t2 ->
  worker_step_spec s s2 (t1 ++ t2).
Proof.
  intros [] []; constructor; try congruence.
  - rewrite count_captures_app, wk_frames1, wk_frames0, wk_camera_id0; lia.
  - rewrite last_capture_app; congruence.
  - rewrite count_captures_app; intros H.
    assert (count_captures (camera_id s) t1 = 0) by lia.
    assert (count_captures (camera_id s1) t2 = 0) by (rewrite wk_camera_id0; lia).
    rewrite wk_last_time1, wk_last_time0; auto.
  - apply worker_trace_app; assumption.
Qed.

Lemma run_threads_spec (sched : Schedule) (s : CameraStream) :
  exists s' t, run_threads sched s = (Ok tt, s', t) /\ worker_step_spec s s' t.
Proof.
  revert s; induction sched as [|tk sched IH]; intros s.
  - exists s, []; split; [reflexivity | apply worker_step_spec_refl].
  - destruct (_stream_worker_spec tk s) as (s1 & t1 & E1 & W1).
    destruct (IH s1) as (s2 & t2 & E2 & W2).
    exists s2, (t1 ++ t2); split.
    + simpl; unfold bind; rewrite E1, E2; reflexivity.
    + eapply worker_step_spec_trans; eassumption.
Qed.

(** ** [start] and [stop] of a worker, case by case *)

Lemma start_running (sched : Schedule) (s : CameraStream) :
  is_running s = true -> start sched s = (Ok false, s, [EvLog WARNING]).
Proof. intros H; unfold start; unfold_method; rewrite H; reflexivity. Qed.

Lemma start_not_running (sched : Schedule) (s : CameraStream) :
  is_running s = false ->
  let s0 := set_threads (Starting :: threads s) (set_shutdown_event false s) in
  exists s' t,
    run_threads sched s0 = (Ok tt, s', t) /\ worker_step_spec s0 s' t /\
    start sched s =
      (Ok (is_running s'), s', EvLog INFO :: EvSpawn (camera_id s) :: EvSleep :: t).
Proof.
  intros H s0.
  destruct (run_threads_spec sched s0) as (s' & t & E & W).
  exists s', t; split; [exact E | split; [exact W|]].
  unfold start, sleep; unfold_method; rewrite H.
  unfold s0 in E; simpl in E |- *; rewrite E; simpl.
  rewrite ?app_nil_r; reflexivity.
Qed.

Lemma stop_not_running (sched : Schedule) (s : CameraStream) :
  is_running s = false -> stop sched s = (Ok false, s, [EvLog WARNING]).
Proof. intros H; unfold stop; unfold_method; rewrite H; reflexivity. Qed.

Lemma stop_running_alive (sched : Schedule) (s : CameraStream) :
  is_running s = true -> thread_is_alive s = true ->
  let s0 := set_shutdown_event true s in
  exists s1 t,
    run_threads sched s0 = (Ok tt, s1, t) /\ worker_step_spec s0 s1 t /\
    stop sched s =
      (Ok true, set_is_running false s1, EvLog INFO :: EvJoin (camera_id s) :: t).
Proof.
  intros H A s0.
  destruct (run_threads_spec sched s0) as (s1 & t & E & W).
  exists s1, t; split; [exact E | split; [exact W|]].
  unfold stop, join; unfold_method; rewrite H, A.
  unfold s0 in E; simpl in E |- *; rewrite E; simpl.
  rewrite ?app_nil_r; reflexivity.
Qed.

Lemma stop_running_dead (sched : Schedule) (s : CameraStream) :
  is_running s = true -> thread_is_alive s = false ->
  stop sched s =
    (Ok true, set_is_running false (set_shutdown_event true s), [EvLog INFO]).
Proof. intros H A; unfold stop; unfold_method; rewrite H, A; reflexivity. Qed.

Lemma method_spec_of_worker (s0 s s' : CameraStream) (t pre : Trace) :
  worker_step_spec s0 s' t ->
  config s0 = config s -> camera_id s0 = camera_id s ->
  frames_captured s0 = frames_captured s -> latest_frame s0 = latest_frame s ->
  last_frame_time s0 = last_frame_time s ->
  count_captures (camera_id s) pre = 0 ->
  (forall d, last_capture (camera_id s) pre d = d) ->
  existsb is_manager_lock_event pre = false ->
  method_spec s s' (pre ++ t).
Proof.
  intros [] Hc Hi Hf Hl Ht Hp1 Hp2 Hp3; constructor; try congruence.
  - rewrite count_captures_app, Hp1; simpl; congruence.
  - rewrite last_capture_app, Hp2; congruence.
  - rewrite count_captures_app, Hp1; simpl; rewrite <- Hi, <- Ht; assumption.
  - rewrite existsb_app, Hp3; simpl; apply worker_trace_no_manager_lock; assumption.
Qed.

Lemma start_spec (sched : Schedule) (s : CameraStream) :
  exists b s' t, start sched s = (Ok b, s', t) /\ method_spec s s' t.
Proof.
  destruct (is_running s) eqn:R.
  - exists false, s, [EvLog WARNING]; split; [apply start_running; assumption|].
    constructor; simpl; auto.
  - destruct (start_not_running sched s R) as (s' & t & _ & W & E).
    do 3 eexists; split; [exact E|].
    apply (@method_spec_of_worker _ s s' t [EvLog INFO; EvSpawn (camera_id s); EvSleep] W);
      simpl; auto.
Qed.

Lemma stop_spec (sched : Schedule) (s : CameraStream) :
  exists s' t, stop sched s = (Ok (is_running s), s', t) /\ method_spec s s' t /\
               is_running s' = false.
Proof.
  destruct (is_running s) eqn:R.
  - destruct (thread_is_alive s) eqn:A.
    + destruct (stop_running_alive sched s R A) as (s1 & t & _ & W & E).
      do 2 eexists; split; [exact E|]; split; [|reflexivity].
      assert (method_spec s s1 ([EvLog INFO; EvJoin (camera_id s)] ++ t)) as []
        by (apply (@method_spec_of_worker _ s s1 t _ W); simpl; auto).
      constructor; simpl in *; auto.
    + do 2 eexists; split; [apply stop_running_dead; assumption|]; split; [|reflexivity].
      constructor; simpl; auto.
  - do 2 eexists; split; [apply stop_not_running; assumption|]; split; [|assumption].
    constructor; simpl; auto.
Qed.

(** ** Reachable workers *)

(** A worker that has captured no frame has no frame stored and its
    last-frame time is the zero [__init__] gave it. *)
Lemma never_captured (s : CameraStream) :
  reachable s -> frames_captured s = 0 ->
  last_frame_time s = 0%Q /\ latest_frame s = None.
Proof.
  induction 1 as [c | tk s _ IH | sched s _ IH | sched s _ IH]; intros Z0.
  - split; reflexivity.
  - destruct (_stream_worker_spec tk s) as (s' & t & E & W).
    rewrite E in *; unfold state_of in *; cbn [fst snd] in *.
    rewrite (wk_frames _ _ _ W) in Z0.
    assert (C : count_captures (camera_id s) t = 0) by lia.
    destruct IH as [IH1 IH2]; [lia|].
    rewrite (wk_last_time _ _ _ W C), (wk_latest _ _ _ W), last_capture_none; auto.
  - destruct (start_spec sched s) as (b & s' & t & E & W).
    rewrite E in *; unfold state_of in *; cbn [fst snd] in *.
    rewrite (mt_frames _ _ _ W) in Z0.
    assert (C : count_captures (camera_id s) t = 0) by lia.
    destruct IH as [IH1 IH2]; [lia|].
    rewrite (mt_last_time _ _ _ W C), (mt_latest _ _ _ W), last_capture_none; auto.
  - destruct (stop_spec sched s) as (s' & t & E & W & _).
    rewrite E in *; unfold state_of in *; cbn [fst snd] in *.
    rewrite (mt_frames _ _ _ W) in Z0.
    assert (C : count_captures (camera_id s) t = 0) by lia.
    destruct IH as [IH1 IH2]; [lia|].
    rewrite (mt_last_time _ _ _ W C), (mt_latest _ _ _ W), last_capture_none; auto.
Qed.

(** A worker whose counter is positive holds a frame. *)
Lemma captured_has_frame (s : CameraStream) :
  reachable s -> 0 < frames_captured s -> exists f, latest_frame s = Some f.
Proof.
  assert (Step : forall s s' t,
    frames_captured s' = frames_captured s + count_captures (camera_id s) t ->
    latest_frame s' = last_capture (camera_id s) t (latest_frame s) ->
    (0 < frames_captured s -> exists f, latest_frame s = Some f) ->
    0 < frames_captured s' -> exists f, latest_frame s' = Some f).
  { intros s0 s' t Hf Hl IH P; rewrite Hl.
    destruct (count_captures (camera_id s0) t) as [|n] eqn:C.
    - rewrite last_capture_none by assumption; apply IH; lia.
    - apply last_capture_pos; lia. }
  induction 1 as [c | tk s _ IH | sched s _ IH | sched s _ IH]; intros P.
  - inversion P.
  - destruct (_stream_worker_spec tk s) as (s' & t & E & W).
    rewrite E in *; unfold state_of in *; cbn [fst snd] in *.
    exact (Step s s' t (wk_frames _ _ _ W) (wk_latest _ _ _ W) IH P).
  - destruct (start_spec sched s) as (b & s' & t & E & W).
    rewrite E in *; unfold state_of in *; cbn [fst snd] in *.
    exact (Step s s' t (mt_frames _ _ _ W) (mt_latest _ _ _ W) IH P).
  - destruct (stop_spec sched s) as (s' & t & E & W & _).
    rewrite E in *; unfold state_of in *; cbn [fst snd] in *.
    exact (Step s s' t (mt_frames _ _ _ W) (mt_latest _ _ _ W) IH P).
Qed.

(** ** Dictionaries *)

Section DictFacts.

Context {V : Type}.
Implicit Types (d : Dict V) (k : Z) (v : V).

Lemma dict_get_set_same d k v : dict_get k (dict_set k v d) = Some v.
Proof.
  induction d as [|[k' v'] d IH]; simpl.
  - rewrite Z.eqb_refl; reflexivity.
  - destruct (Z.eqb k k') eqn:E; simpl; rewrite E; auto.
Qed.

Lemma dict_get_set_other d k k' v :
  k <> k' -> dict_get k (dict_set k' v d) = dict_get k d.
Proof.
  intros N; induction d as [|[k0 v0] d IH]; simpl.
  - apply Z.eqb_neq in N; rewrite N; reflexivity.
  - destruct (Z.eqb k' k0) eqn:E; simpl.
    + apply Z.eqb_eq in E; subst k0.
      apply Z.eqb_neq in N; rewrite N; reflexivity.
    + rewrite IH; reflexivity.
Qed.

Lemma dict_set_get_id d k v : dict_get k d = Some v -> dict_set k v d = d.
Proof.
  induction d as [|[k' v'] d IH]; simpl; [discriminate|].
  destruct (Z.eqb k k') eqn:E; intros H.
  - congruence.
  - rewrite IH; auto.
Qed.

Lemma dict_keys_set_present d k v v0 :
  dict_get k d = Some v0 -> dict_keys (dict_set k v d) = dict_keys d.
Proof.
  induction d as [|[k' v'] d IH]; simpl; [discriminate|].
  destruct (Z.eqb k k') eqn:E; intros H; simpl; [reflexivity|].
  f_equal; apply IH; assumption.
Qed.

Lemma dict_keys_set_absent d k v :
  dict_get k d = None -> dict_keys (dict_set k v d) = dict_keys d ++ [k].
Proof.
  induction d as [|[k' v'] d IH]; simpl; [reflexivity|].
  destruct (Z.eqb k k') eqn:E; intros H; simpl; [discriminate|].
  f_equal; apply IH; assumption.
Qed.

Lemma dict_get_none_iff d k : dict_get k d = None <-> ~ In k (dict_keys d).
Proof.
  induction d as [|[k' v'] d IH]; simpl; [tauto|].
  destruct (Z.eqb k k') eqn:E.
  - apply Z.eqb_eq in E; subst; split; [discriminate | tauto].
  - apply Z.eqb_neq in E; rewrite IH; split; [intros H [?|?]; auto | tauto].
Qed.

Lemma dict_contains_get d k v : dict_get k d = Some v -> dict_contains k d = true.
Proof. unfold dict_contains; intros ->; reflexivity. Qed.

Lemma dict_contains_none d k : dict_get k d = None -> dict_contains k d = false.
Proof. unfold dict_contains; intros ->; reflexivity. Qed.

End DictFacts.

Lemma find_config_none_iff (camera_id : Z) (rows : list CameraConfig) :
  find_config camera_id rows = None <-> ~ In camera_id (map cfg_id rows).
Proof.
  unfold find_config; induction rows as [|c rows IH]; simpl; [tauto|].
  destruct (Z.eqb (cfg_id c) camera_id) eqn:E.
  - apply Z.eqb_eq in E; split; [discriminate | tauto].
  - apply Z.eqb_neq in E; rewrite IH; tauto.
Qed.

Lemma find_config_some (camera_id : Z) (rows : list CameraConfig) (c : CameraConfig) :
  find_config camera_id rows = Some c -> In c rows /\ cfg_id c = camera_id.
Proof.
  unfold find_config; intros H; apply find_some in H.
  destruct H as [H1 H2]; apply Z.eqb_eq in H2; auto.
Qed.

(** ** Registry operations, case by case *)

Lemma load_camera_configs_run (pull : DbResult) (m : CameraManager) :
  exists t, load_camera_configs pull m = (Ok (pulled pull), m, t) /\
            existsb is_join t = false /\ existsb is_spawn t = false.
Proof.
  destruct pull; unfold load_camera_configs, get_camera_configs; unfold_method;
    simpl; eexists; split; reflexivity || (split; reflexivity).
Qed.

Lemma on_stream_known {A} (cid : Z) (method : M CameraStream A)
      (m : CameraManager) (s s' : CameraStream) (r : Result A) (t : Trace) :
  dict_get cid (streams m) = Some s -> method s = (r, s', t) ->
  on_stream cid method m =
    (r, {| streams := dict_set cid s' (streams m) |}, t).
Proof. intros G E; unfold on_stream; rewrite G, E; reflexivity. Qed.

Lemma manager_eta (m : CameraManager) : {| streams := streams m |} = m.
Proof. destruct m; reflexivity. Qed.

Lemma stop_camera_unknown (sched : Schedule) (cid : Z) (m : CameraManager) :
  dict_get cid (streams m) = None ->
  stop_camera sched cid m =
    (Ok false, m, [EvAcquire manager_lock; EvLog WARNING; EvRelease manager_lock]).
Proof.
  intros G; unfold stop_camera; unfold_method.
  rewrite (dict_contains_none _ _ G); reflexivity.
Qed.

Lemma stop_camera_known (sched : Schedule) (cid : Z) (m : CameraManager)
      (s s' : CameraStream) (r : Result bool) (t : Trace) :
  dict_get cid (streams m) = Some s -> stop sched s = (r, s', t) ->
  stop_camera sched cid m =
    (r, {| streams := dict_set cid s' (streams m) |},
     EvAcquire manager_lock :: t ++ [EvRelease manager_lock]).
Proof.
  intros G E; unfold stop_camera; unfold_method.
  rewrite (dict_contains_get _ _ _ G); simpl.
  rewrite (on_stream_known _ _ _ _ _ _ _ G E); destruct r; reflexivity.
Qed.

Lemma is_camera_running_known (cid : Z) (m : CameraManager) (s : CameraStream) :
  dict_get cid (streams m) = Some s ->
  is_camera_running cid m =
    (Ok (is_running s), m, [EvAcquire manager_lock; EvRelease manager_lock]).
Proof.
  intros G; unfold is_camera_running, on_stream; unfold_method.
  rewrite (dict_contains_get _ _ _ G); simpl; rewrite G; simpl.
  rewrite (dict_set_get_id _ _ _ G), manager_eta; reflexivity.
Qed.

Lemma get_camera_frame_known (cid : Z) (m : CameraManager) (s : CameraStream) :
  dict_get cid (streams m) = Some s ->
  get_camera_frame cid m =
    (Ok (latest_frame s), m,
     [EvAcquire manager_lock; EvAcquire (frame_lock (camera_id s));
      EvRelease (frame_lock (camera_id s)); EvRelease manager_lock]).
Proof.
  intros G; unfold get_camera_frame, on_stream, get_latest_frame; unfold_method.
  rewrite (dict_contains_get _ _ _ G); simpl; rewrite G; simpl.
  destruct (latest_frame s); simpl;
    rewrite (dict_set_get_id _ _ _ G), manager_eta; reflexivity.
Qed.

Lemma last_capture_locked (cid : Z) (t : Trace) (d : option Frame) :
  last_capture cid (EvAcquire manager_lock :: t ++ [EvRelease manager_lock]) d =
  last_capture cid t d.
Proof. simpl; rewrite last_capture_app; reflexivity. Qed.

(** What [stop_camera] does to a known camera, in terms of what the
    worker's [stop] does. *)
Lemma stop_camera_known_spec (sched : Schedule) (cid : Z) (m : CameraManager)
      (s : CameraStream) :
  dict_get cid (streams m) = Some s ->
  exists s' t,
    stop sched s = (Ok (is_running s), s', t) /\
    method_spec s s' t /\ is_running s' = false /\
    stop_camera sched cid m =
      (Ok (is_running s), {| streams := dict_set cid s' (streams m) |},
       EvAcquire manager_lock :: t ++ [EvRelease manager_lock]).
Proof.
  intros G; destruct (stop_spec sched s) as (s' & t & E & Sp & R).
  exists s', t; repeat (split; [assumption|]).
  apply (stop_camera_known _ _ _ _ _ _ _ G E).
Qed.

(** ** Stopping a camera *)

(** C6. [stop_camera] answers with the running flag the worker had when it
    was called, and with false for an id the registry does not know: false
    for an unknown id and for a worker that is not running, true only for a
    running one.  In particular a second stop in a row answers false, and
    so does stopping a worker that was only constructed. *)
Theorem stop_camera_result :
  (forall sched cid m,
     result_of (stop_camera sched cid m) =
       Ok (match dict_get cid (streams m) with
           | Some s => is_running s
           | None => false
           end)) /\
  (forall sched1 sched2 cid m,
     result_of (stop_camera sched2 cid (state_of (stop_camera sched1 cid m))) = Ok false) /\
  (forall sched c d,
     result_of (stop_camera sched (cfg_id c)
       {| streams := dict_set (cfg_id c) (CameraStream_init c) d |}) = Ok false).
Proof.
  assert (R : forall sched cid m,
     result_of (stop_camera sched cid m) =
       Ok (match dict_get cid (streams m) with
           | Some s => is_running s
           | None => false
           end)).
  { intros sched cid m; destruct (dict_get cid (streams m)) as [s|] eqn:G.
    - destruct (stop_camera_known_spec sched _ _ _ G) as (s' & t & _ & _ & _ & E).
      rewrite E; reflexivity.
    - rewrite (stop_camera_unknown _ _ _ G); reflexivity. }
  split; [exact R|]; split.
  - intros sched1 sched2 cid m; rewrite R.
    destruct (dict_get cid (streams m)) as [s|] eqn:G.
    + destruct (stop_camera_known_spec sched1 _ _ _ G) as (s' & t & _ & _ & F & E).
      rewrite E; unfold state_of; simpl.
      rewrite dict_get_set_same, F; reflexivity.
    + rewrite (stop_camera_unknown _ _ _ G); unfold state_of; simpl.
      rewrite G; reflexivity.
  - intros sched c d; rewrite R; simpl.
    rewrite dict_get_set_same; reflexivity.
Qed.

(** Stopping never clears the stored frame. *)
Lemma stop_camera_keeps_held_frame (sched : Schedule) (cid : Z) (m : CameraManager)
      (s : CameraStream) (f : Frame) :
  dict_get cid (streams m) = Some s ->
  latest_frame s = Some f ->
  let after := stop_camera sched cid m in
  result_of after = Ok (is_running s) /\
  result_of (is_camera_running cid (state_of after)) = Ok false /\
  result_of (get_camera_frame cid (state_of after)) =
    Ok (last_capture (camera_id s) (trace_of after) (Some f)).
Proof.
  intros G L after.
  destruct (stop_camera_known_spec sched _ _ _ G) as (s' & t & _ & Sp & R & E).
  assert (G' : dict_get cid (streams (state_of after)) = Some s').
  { unfold after; rewrite E; unfold state_of; simpl; apply dict_get_set_same. }
  split; [unfold after; rewrite E; reflexivity|].
  split; [rewrite (is_camera_running_known _ _ _ G'); unfold result_of; simpl; congruence|].
  rewrite (get_camera_frame_known _ _ _ G'); unfold result_of; simpl.
  unfold after; rewrite E; unfold trace_of; cbn [snd].
  rewrite last_capture_locked, (mt_latest _ _ _ Sp), L; reflexivity.
Qed.

(** ** The registry lock and the join *)

Lemma stop_trace_shape (sched : Schedule) (s : CameraStream) :
  exists t,
    trace_of (stop sched s) = t /\
    existsb is_manager_lock_event t = false /\
    existsb is_join t = is_running s && thread_is_alive s /\
    (forall rest, joins_inside_manager_lock 1 (t ++ rest) =
                  joins_inside_manager_lock 1 rest) /\
    (forall rest, joins_outside_manager_lock 1 (t ++ rest) =
                  negb (is_running s && thread_is_alive s) &&
                  joins_outside_manager_lock 1 rest).
Proof.
  eexists; split; [reflexivity|].
  destruct (is_running s) eqn:R.
  - destruct (thread_is_alive s) eqn:A.
    + destruct (stop_running_alive sched s R A) as (s1 & t & _ & W & E).
      rewrite E; unfold trace_of; cbn [snd]; simpl.
      rewrite (worker_trace_no_manager_lock _ (wk_trace _ _ _ W)).
      repeat split; auto.
      intros rest; apply worker_trace_inside, (wk_trace _ _ _ W).
    + rewrite (stop_running_dead sched s R A); repeat split; auto.
  - rewrite (stop_not_running sched s R); repeat split; auto.
Qed.

(** C1, as the code has it. [stop_camera] takes the registry lock first and
    gives it back last, with no other traffic on that lock in between, so
    every [Thread.join] made by the worker's [stop] is made while the
    registry lock is held.  A join is made exactly when the camera is
    known, its worker is running and its thread is alive; only a call that
    joins nothing has all its joins outside the lock. *)
Theorem stop_camera_joins_under_lock (sched : Schedule) (cid : Z) (m : CameraManager) :
  let t := trace_of (stop_camera sched cid m) in
  joins_inside_manager_lock 0 t = true /\
  (exists body,
     t = EvAcquire manager_lock :: body ++ [EvRelease manager_lock] /\
     existsb is_manager_lock_event body = false) /\
  existsb is_join t =
    match dict_get cid (streams m) with
    | Some s => is_running s && thread_is_alive s
    | None => false
    end /\
  joins_outside_manager_lock 0 t = negb (existsb is_join t).
Proof.
  destruct (dict_get cid (streams m)) as [s|] eqn:G.
  - destruct (stop_trace_shape sched s) as (t & Et & L & J & I & O).
    destruct (stop sched s) as [[r s'] t'] eqn:E.
    unfold trace_of in Et; cbn [snd] in Et; subst t'.
    rewrite (stop_camera_known _ _ _ _ _ _ _ G E); unfold trace_of; cbn [snd].
    assert (J' : existsb is_join (EvAcquire manager_lock :: t ++ [EvRelease manager_lock])
                 = is_running s && thread_is_alive s)
      by (simpl; rewrite existsb_app, J; simpl; apply orb_false_r).
    split; [|split; [|split]].
    + simpl; rewrite I; reflexivity.
    + exists t; split; [reflexivity | exact L].
    + exact J'.
    + rewrite J'; simpl; rewrite O; simpl; apply andb_true_r.
  - rewrite (stop_camera_unknown _ _ _ G); unfold trace_of; cbn [snd].
    split; [reflexivity|]; split; [|split; reflexivity].
    exists [EvLog WARNING]; split; reflexivity.
Qed.

(** C1, as the specification words it, fails: stopping the running camera
    of [Sample.running] joins its capture thread between the acquisition
    and the release of the registry lock. *)
Lemma stop_camera_join_outside_lock_fails :
  existsb is_join
    (trace_of (stop_camera Sample.finishes_read_then_exits 1 Sample.running)) = true /\
  joins_outside_manager_lock 0
    (trace_of (stop_camera Sample.finishes_read_then_exits 1 Sample.running)) = false /\
  trace_of (stop_camera Sample.finishes_read_then_exits 1 Sample.running) =
    [EvAcquire manager_lock; EvLog INFO; EvJoin 1; EvCapture 1 [8%Z];
     EvAcquire (frame_lock 1); EvRelease (frame_lock 1);
     EvDeviceRelease 1; EvLog INFO; EvRelease manager_lock].
Proof. repeat split; vm_compute; reflexivity. Qed.

(** ** Starting a camera, case by case *)

Lemma start_camera_known (pull : DbResult) (sched : Schedule) (cid : Z)
      (m : CameraManager) (s s' : CameraStream) (r : Result bool) (t : Trace) :
  dict_get cid (streams m) = Some s -> start sched s = (r, s', t) ->
  start_camera pull sched cid m =
    (r, {| streams := dict_set cid s' (streams m) |},
     EvAcquire manager_lock :: t ++ [EvRelease manager_lock]).
Proof.
  intros G E; unfold start_camera; unfold_method.
  rewrite (dict_contains_get _ _ _ G); simpl.
  rewrite (on_stream_known _ _ _ _ _ _ _ G E); destruct r; reflexivity.
Qed.

Lemma start_camera_absent (pull : DbResult) (sched : Schedule) (cid : Z)
      (m : CameraManager) :
  dict_get cid (streams m) = None -> find_config cid (pulled pull) = None ->
  exists t,
    start_camera pull sched cid m = (Ok false, m, t) /\
    existsb is_spawn t = false.
Proof.
  intros G F; unfold start_camera; unfold_method.
  rewrite (dict_contains_none _ _ G); simpl.
  destruct (load_camera_configs_run pull m) as (t & E & _ & Sp).
  rewrite E, F; simpl.
  eexists; split; [reflexivity|].
  simpl; rewrite !existsb_app, Sp; reflexivity.
Qed.

Lemma start_camera_lazy (pull : DbResult) (sched : Schedule) (cid : Z)
      (m : CameraManager) (c : CameraConfig) (s' : CameraStream)
      (r : Result bool) (t : Trace) :
  dict_get cid (streams m) = None -> find_config cid (pulled pull) = Some c ->
  start sched (CameraStream_init c) = (r, s', t) ->
  exists t0,
    start_camera pull sched cid m =
      (r, {| streams := dict_set cid s' (dict_set cid (CameraStream_init c) (streams m)) |},
       EvAcquire manager_lock :: t0 ++ t ++ [EvRelease manager_lock]).
Proof.
  intros G F E; unfold start_camera; unfold_method.
  rewrite (dict_contains_none _ _ G); simpl.
  destruct (load_camera_configs_run pull m) as (t0 & E0 & _).
  rewrite E0, F; simpl.
  unfold on_stream; simpl; rewrite dict_get_set_same, E.
  exists t0; destruct r; simpl; rewrite ?app_nil_r, <- ?app_assoc; reflexivity.
Qed.

(** ** Bulk stop, initialisation and refresh *)

Lemma run_threads_app (a b : Schedule) (s : CameraStream) :
  state_of (run_threads (a ++ b) s) =
  state_of (run_threads b (state_of (run_threads a s))).
Proof.
  revert s; induction a as [|tk a IH]; intros s; [reflexivity|].
  destruct (_stream_worker_spec tk s) as (s1 & t1 & E1 & _).
  specialize (IH s1).
  destruct (run_threads_spec (a ++ b) s1) as (s2 & t2 & E2 & _).
  destruct (run_threads_spec a s1) as (s3 & t3 & E3 & _).
  rewrite E2, E3 in IH.
  simpl; unfold bind; rewrite E1, E2, E3; exact IH.
Qed.

Lemma ticked_refl (s : CameraStream) : ticked s s.
Proof. exists []; reflexivity. Qed.

Lemma ticked_trans (s1 s2 s3 : CameraStream) :
  ticked s1 s2 -> ticked s2 s3 -> ticked s1 s3.
Proof.
  intros (a & ->) (b & ->); exists (a ++ b); symmetry; apply run_threads_app.
Qed.

Lemma ticked_run (sched : Schedule) (s : CameraStream) :
  ticked s (state_of (run_threads sched s)).
Proof. exists sched; reflexivity. Qed.

(** What a run of the capture threads of every camera does to the
    registry: each worker is moved by its own threads only. *)
Lemma for_each_run_spec (scheds : Z -> Schedule) (keys : list Z) (m : CameraManager) :
  (forall k, In k keys -> In k (dict_keys (streams m))) ->
  exists res m' t,
    for_each keys (fun cid => on_stream cid (run_threads (scheds cid))) m
    = (Ok res, m', t) /\
    dict_keys (streams m') = dict_keys (streams m) /\
    forallb is_worker_event t = true /\
    (forall k s, dict_get k (streams m) = Some s ->
       exists s', dict_get k (streams m') = Some s' /\ ticked s s').
Proof.
  revert m; induction keys as [|k keys IH]; intros m Hk.
  - exists [], m, []; repeat split; auto.
    intros k s G; exists s; split; [exact G | apply ticked_refl].
  - destruct (dict_get k (streams m)) as [s|] eqn:G.
    2:{ apply dict_get_none_iff in G; exfalso; apply G, Hk; left; reflexivity. }
    destruct (run_threads_spec (scheds k) s) as (s1 & t1 & E1 & W1).
    pose (m1 := {| streams := dict_set k s1 (streams m) |}).
    assert (K1 : dict_keys (streams m1) = dict_keys (streams m))
      by (apply (dict_keys_set_present _ _ _ _ G)).
    destruct (IH m1) as (res & m' & t' & E' & K' & W' & T').
    { intros k' Hk'; rewrite K1; apply Hk; right; assumption. }
    exists (tt :: res), m', (t1 ++ t' ++ []).
    split; [|split; [congruence|split]].
    + simpl; unfold bind at 1.
      rewrite (on_stream_known _ _ _ _ _ _ _ G E1); fold m1.
      unfold bind at 1; rewrite E'; reflexivity.
    + rewrite app_nil_r; apply worker_trace_app; [exact (wk_trace _ _ _ W1) | exact W'].
    + intros k' s' G'; destruct (Z.eq_dec k' k) as [->|N].
      * destruct (T' k s1) as (s2 & G2 & T2); [simpl; apply dict_get_set_same|].
        exists s2; split; [exact G2|].
        assert (s' = s) by congruence; subst s'.
        apply ticked_trans with s1; [|exact T2].
        pose proof (ticked_run (scheds k) s) as T1; rewrite E1 in T1; exact T1.
      * apply T'; simpl; rewrite dict_get_set_other by exact N; exact G'.
Qed.

Lemma run_all_spec (scheds : Z -> Schedule) (m : CameraManager) :
  exists m' t,
    run_all scheds m = (Ok tt, m', t) /\
    dict_keys (streams m') = dict_keys (streams m) /\
    forallb is_worker_event t = true /\
    (forall k s, dict_get k (streams m) = Some s ->
       exists s', dict_get k (streams m') = Some s' /\ ticked s s').
Proof.
  destruct (for_each_run_spec scheds (dict_keys (streams m)) m)
    as (res & m' & t & E & K & W & T); [auto|].
  exists m', t; split; [|split; [exact K|split; [exact W | exact T]]].
  unfold run_all; unfold_method; rewrite E; simpl; rewrite app_nil_r; reflexivity.
Qed.

Lemma for_each_stop_run (scheds : Z -> Schedule) (meanwhile : Z -> Z -> Schedule)
      (keys : list Z) (m : CameraManager) :
  (forall k, In k keys -> In k (dict_keys (streams m))) ->
  exists res m' t,
    for_each keys
      (fun cid =>
         r <- on_stream cid (stop (scheds cid)) ;;
         run_all (meanwhile cid) ;;
         ret (cid, r)) m
    = (Ok res, m', t) /\
    dict_keys (streams m') = dict_keys (streams m).
Proof.
  revert m; induction keys as [|k keys IH]; intros m Hk.
  - exists [], m, []; split; reflexivity.
  - destruct (dict_get k (streams m)) as [s|] eqn:G.
    2:{ apply dict_get_none_iff in G; exfalso; apply G, Hk; left; reflexivity. }
    destruct (stop_spec (scheds k) s) as (s' & t & E & _).
    pose (m1 := {| streams := dict_set k s' (streams m) |}).
    assert (K1 : dict_keys (streams m1) = dict_keys (streams m))
      by (apply (dict_keys_set_present _ _ _ _ G)).
    destruct (run_all_spec (meanwhile k) m1) as (m2 & t2 & E2 & K2 & _).
    destruct (IH m2) as (res & m' & t' & E' & K').
    { intros k' Hk'; rewrite K2, K1; apply Hk; right; assumption. }
    exists ((k, is_running s) :: res), m'; eexists; split; [|congruence].
    simpl; unfold bind at 1 2.
    rewrite (on_stream_known _ _ _ _ _ _ _ G E); fold m1.
    unfold bind at 1; rewrite E2.
    unfold ret at 1; unfold bind at 1; rewrite E'; reflexivity.
Qed.

Lemma stop_all_cameras_run (scheds : Z -> Schedule) (meanwhile : Z -> Z -> Schedule)
      (m : CameraManager) :
  exists res m' t,
    stop_all_cameras scheds meanwhile m = (Ok res, m', t) /\
    dict_keys (streams m') = dict_keys (streams m).
Proof.
  destruct (for_each_stop_run scheds meanwhile (dict_keys (streams m)) m)
    as (res & m' & t & E & K); [auto|].
  unfold stop_all_cameras; unfold_method; rewrite E; simpl.
  do 3 eexists; split; [reflexivity | exact K].
Qed.

Lemma for_each_initialize_run (rows : list CameraConfig) (m : CameraManager) :
  exists res m' t,
    for_each rows initialize_one m = (Ok res, m', t) /\
    (forall k,
       dict_get k (streams m') =
         match dict_get k (streams m) with
         | Some s => Some s
         | None => option_map CameraStream_init (find_config k rows)
         end) /\
    (NoDup (dict_keys (streams m)) -> NoDup (dict_keys (streams m'))).
Proof.
  revert m; induction rows as [|c rows IH]; intros m.
  - exists [], m, []; repeat split; auto.
    intros k; destruct (dict_get k (streams m)); reflexivity.
  - destruct (dict_get (cfg_id c) (streams m)) as [s|] eqn:G.
    + destruct (IH m) as (res & m' & t & E & D & N).
      exists (tt :: res), m', ([] ++ t ++ []); split; [|split; [|exact N]].
      * simpl; unfold initialize_one at 1; unfold_method.
        rewrite (dict_contains_get _ _ _ G); simpl; rewrite E; reflexivity.
      * intros k; rewrite D; unfold find_config; simpl.
        destruct (Z.eqb (cfg_id c) k) eqn:Ek; [|reflexivity].
        apply Z.eqb_eq in Ek; subst k; rewrite G; reflexivity.
    + pose (m1 := {| streams := dict_set (cfg_id c) (CameraStream_init c) (streams m) |}).
      destruct (IH m1) as (res & m' & t & E & D & N).
      exists (tt :: res), m', ([EvLog INFO] ++ t ++ []); split; [|split].
      * simpl; unfold initialize_one at 1; unfold_method.
        rewrite (dict_contains_none _ _ G); simpl; fold m1; rewrite E; reflexivity.
      * intros k; rewrite D; unfold find_config; simpl.
        destruct (Z.eqb (cfg_id c) k) eqn:Ek.
        -- apply Z.eqb_eq in Ek; subst k.
           rewrite dict_get_set_same, G; reflexivity.
        -- apply Z.eqb_neq in Ek.
           rewrite dict_get_set_other by congruence; reflexivity.
      * intros ND; apply N; simpl.
        rewrite (dict_keys_set_absent _ _ _ G).
        apply NoDup_app; [assumption | repeat constructor; simpl; tauto |].
        intros k Hk [<-|[]]; apply dict_get_none_iff in G; contradiction.
Qed.

Lemma initialize_cameras_empty (pull : DbResult) (m : CameraManager) :
  pulled pull = [] ->
  exists t, initialize_cameras pull m = (Ok false, m, t).
Proof.
  intros P; unfold initialize_cameras; unfold_method.
  destruct (load_camera_configs_run pull m) as (t & E & _).
  rewrite E, P; simpl; eexists; reflexivity.
Qed.

Lemma initialize_cameras_rows (pull : DbResult) (m : CameraManager) :
  pulled pull <> [] ->
  exists m' t,
    initialize_cameras pull m = (Ok true, m', t) /\
    (forall k,
       dict_get k (streams m') =
         match dict_get k (streams m) with
         | Some s => Some s
         | None => option_map CameraStream_init (find_config k (pulled pull))
         end) /\
    (NoDup (dict_keys (streams m)) -> NoDup (dict_keys (streams m'))).
Proof.
  intros P.
  destruct (load_camera_configs_run pull m) as (t0 & E0 & _).
  destruct (for_each_initialize_run (pulled pull) m) as (res & m' & t & E & D & N).
  exists m'; eexists; split; [|split; [exact D | exact N]].
  unfold initialize_cameras; unfold_method; rewrite E0.
  destruct (pulled pull) as [|c rows] eqn:Rows; [congruence|].
  unfold_method; rewrite E; reflexivity.
Qed.

Lemma refresh_camera_configs_run (pull : DbResult) (scheds : Z -> Schedule)
      (meanwhile : Z -> Z -> Schedule) (m : CameraManager) :
  exists t1 t2,
    refresh_camera_configs pull scheds meanwhile m =
      (result_of (initialize_cameras pull CameraManager_init),
       state_of (initialize_cameras pull CameraManager_init),
       EvAcquire manager_lock ::
         (t1 ++ trace_of (initialize_cameras pull CameraManager_init) ++ t2) ++
         [EvRelease manager_lock]) /\
    t1 = trace_of (stop_all_cameras scheds meanwhile m) /\
    exists b, result_of (initialize_cameras pull CameraManager_init) = Ok b.
Proof.
  destruct (stop_all_cameras_run scheds meanwhile m) as (res & m1 & t1 & E1 & _).
  assert (I : exists b m' t, initialize_cameras pull CameraManager_init = (Ok b, m', t)).
  { destruct (pulled pull) as [|c rows] eqn:P.
    - destruct (initialize_cameras_empty pull CameraManager_init P) as (t & E).
      do 3 eexists; exact E.
    - destruct (initialize_cameras_rows pull CameraManager_init) as (m' & t & E & _);
        [congruence|].
      do 3 eexists; exact E. }
  destruct I as (b & m' & t & E).
  exists t1, []; split; [|split; [rewrite E1; reflexivity | exists b; rewrite E; reflexivity]].
  unfold refresh_camera_configs.
  unfold with_lock at 1, try_except at 1, bind at 1; rewrite E1.
  unfold bind at 1, modify at 1.
  change {| streams := [] |} with CameraManager_init; rewrite E.
  unfold result_of, state_of, trace_of; simpl.
  rewrite ?app_nil_r; reflexivity.
Qed.

Lemma known_ids_iff (m : CameraManager) (k : Z) :
  In k (known_ids m) <-> dict_get k (streams m) <> None.
Proof.
  unfold known_ids; split.
  - intros H N; apply dict_get_none_iff in N; contradiction.
  - intros H; destruct (in_dec Z.eq_dec k (dict_keys (streams m))) as [I|I]; [exact I|].
    apply dict_get_none_iff in I; contradiction.
Qed.

(** ** Unknown ids *)

(** C5. When [camera_id] is neither in the registry nor in the freshly
    pulled configuration, [start_camera] answers false, launches no
    thread, and leaves the registry as it was: no worker is constructed or
    inserted, the known ids are the same. *)
Theorem start_camera_absent_id (pull : DbResult) (sched : Schedule) (cid : Z)
        (m : CameraManager) :
  ~ In cid (known_ids m) ->
  ~ In cid (map cfg_id (pulled pull)) ->
  result_of (start_camera pull sched cid m) = Ok false /\
  state_of (start_camera pull sched cid m) = m /\
  known_ids (state_of (start_camera pull sched cid m)) = known_ids m /\
  existsb is_spawn (trace_of (start_camera pull sched cid m)) = false.
Proof.
  intros K P.
  apply dict_get_none_iff in K; apply find_config_none_iff in P.
  destruct (start_camera_absent pull sched cid m K P) as (t & E & Sp).
  rewrite E; repeat split; assumption.
Qed.

Lemma start_camera_absent_id_witness :
  ~ In 99%Z (known_ids Sample.idle) /\
  ~ In 99%Z (map cfg_id (pulled (DbRows [Sample.front; Sample.back]))) /\
  result_of (start_camera (DbRows [Sample.front; Sample.back])
               Sample.opens_and_reads 99 Sample.idle) = Ok false /\
  known_ids (state_of (start_camera (DbRows [Sample.front; Sample.back])
               Sample.opens_and_reads 99 Sample.idle)) = [1%Z].
Proof.
  assert (K : ~ In 99%Z (known_ids Sample.idle))
    by (simpl; intros [H|[]]; discriminate H).
  assert (P : ~ In 99%Z (map cfg_id (pulled (DbRows [Sample.front; Sample.back]))))
    by (simpl; intros [H|[H|[]]]; discriminate H).
  destruct (start_camera_absent_id (DbRows [Sample.front; Sample.back])
              Sample.opens_and_reads 99 Sample.idle K P) as (H1 & _ & H3 & _).
  split; [exact K|]; split; [exact P|]; split; [exact H1 | exact H3].
Defined.

Lemma get_camera_status_unknown (now1 now2 : Time) (cid : Z) (m : CameraManager) :
  dict_get cid (streams m) = None ->
  get_camera_status now1 now2 cid m =
    (Ok None, m, [EvAcquire manager_lock; EvRelease manager_lock]).
Proof.
  intros G; unfold get_camera_status; unfold_method.
  rewrite (dict_contains_none _ _ G); reflexivity.
Qed.

Lemma get_camera_frame_unknown (cid : Z) (m : CameraManager) :
  dict_get cid (streams m) = None ->
  get_camera_frame cid m =
    (Ok None, m, [EvAcquire manager_lock; EvRelease manager_lock]).
Proof.
  intros G; unfold get_camera_frame; unfold_method.
  rewrite (dict_contains_none _ _ G); reflexivity.
Qed.

Lemma is_camera_running_unknown (cid : Z) (m : CameraManager) :
  dict_get cid (streams m) = None ->
  is_camera_running cid m =
    (Ok false, m, [EvAcquire manager_lock; EvRelease manager_lock]).
Proof.
  intros G; unfold is_camera_running; unfold_method.
  rewrite (dict_contains_none _ _ G); reflexivity.
Qed.

(** C8, as the code has it. For an id the registry does not know, no
    operation raises; [get_camera_frame] and [get_camera_status] answer
    absent, [is_camera_running] and [stop_camera] answer false, and none of
    the four changes the registry.  [start_camera] answers false when the
    id is also missing from the freshly pulled configuration; when the pull
    has the id, it constructs the worker and answers what the new worker's
    [start] answers. *)
Theorem unknown_id_operations (pull : DbResult) (sched : Schedule)
        (now1 now2 : Time) (cid : Z) (m : CameraManager) :
  ~ In cid (known_ids m) ->
  (result_of (get_camera_frame cid m) = Ok None /\
   state_of (get_camera_frame cid m) = m) /\
  (result_of (get_camera_status now1 now2 cid m) = Ok None /\
   state_of (get_camera_status now1 now2 cid m) = m) /\
  (result_of (is_camera_running cid m) = Ok false /\
   state_of (is_camera_running cid m) = m) /\
  (result_of (stop_camera sched cid m) = Ok false /\
   state_of (stop_camera sched cid m) = m) /\
  (exists b, result_of (start_camera pull sched cid m) = Ok b) /\
  (~ In cid (map cfg_id (pulled pull)) ->
   result_of (start_camera pull sched cid m) = Ok false) /\
  (forall c, find_config cid (pulled pull) = Some c ->
   result_of (start_camera pull sched cid m) =
     result_of (start sched (CameraStream_init c))).
Proof.
  intros K; apply dict_get_none_iff in K.
  rewrite (get_camera_frame_unknown _ _ K), (get_camera_status_unknown _ _ _ _ K),
    (is_camera_running_unknown _ _ K), (stop_camera_unknown _ _ _ K).
  do 4 (split; [split; reflexivity|]).
  assert (L : forall c, find_config cid (pulled pull) = Some c ->
     result_of (start_camera pull sched cid m) =
       result_of (start sched (CameraStream_init c))).
  { intros c F.
    destruct (start sched (CameraStream_init c)) as [[r s'] t] eqn:E.
    destruct (start_camera_lazy pull sched cid m c s' r t K F E) as (t0 & E').
    rewrite E'; reflexivity. }
  split; [|split; [|exact L]].
  - destruct (find_config cid (pulled pull)) as [c|] eqn:F.
    + destruct (start_spec sched (CameraStream_init c)) as (b & s' & t & E & _).
      exists b; rewrite (L c eq_refl), E; reflexivity.
    + destruct (start_camera_absent pull sched cid m K F) as (t & E & _).
      exists false; rewrite E; reflexivity.
  - intros P; apply find_config_none_iff in P.
    destruct (start_camera_absent pull sched cid m K P) as (t & E & _).
    rewrite E; reflexivity.
Qed.

Lemma unknown_id_operations_witness :
  ~ In 2%Z (known_ids Sample.idle) /\
  result_of (get_camera_frame 2 Sample.idle) = Ok None /\
  result_of (get_camera_status (5 # 1)%Q (6 # 1)%Q 2 Sample.idle) = Ok None /\
  result_of (is_camera_running 2 Sample.idle) = Ok false /\
  result_of (stop_camera [] 2 Sample.idle) = Ok false /\
  result_of (start_camera (DbRows [Sample.front]) Sample.opens_and_reads 2 Sample.idle)
    = Ok false.
Proof.
  assert (K : ~ In 2%Z (known_ids Sample.idle))
    by (simpl; intros [H|[]]; discriminate H).
  destruct (unknown_id_operations (DbRows [Sample.front]) Sample.opens_and_reads
              (5 # 1)%Q (6 # 1)%Q 2 Sample.idle K)
    as ((H1 & _) & (H2 & _) & (H3 & _) & (H4 & _) & _ & H6 & _).
  split; [exact K|]; repeat (split; [assumption|]).
  apply H6; simpl; intros [H|[]]; discriminate H.
Defined.

(** C8, as the specification words it, fails for [start_camera]: camera 1
    is unknown to a new registry, the pulled configuration has it, the
    device opens, and the call answers true and registers the camera. *)
Lemma start_camera_unknown_id_succeeds :
  ~ In 1%Z (known_ids CameraManager_init) /\
  result_of (start_camera (DbRows [Sample.front]) Sample.opens_and_reads 1
               CameraManager_init) = Ok true /\
  known_ids (state_of (start_camera (DbRows [Sample.front]) Sample.opens_and_reads 1
               CameraManager_init)) = [1%Z].
Proof. split; [simpl; tauto|]; split; vm_compute; reflexivity. Qed.

(** ** The grace period of [start] *)

Lemma Qeq_bool_inject_Z_0 (z : Z) : Qeq_bool (inject_Z z) 0 = Z.eqb z 0.
Proof. unfold Qeq_bool, inject_Z; simpl; rewrite Z.mul_1_r; reflexivity. Qed.

Lemma nth_error_finished (l : list ThreadState) (i : nat) :
  forallb is_finished l = true ->
  nth_error l i = None \/ nth_error l i = Some Finished.
Proof.
  revert i; induction l as [|st l IH]; intros [|i] H; simpl in *; auto.
  - apply andb_true_iff in H; destruct H as [H _].
    destruct st; try discriminate; auto.
  - apply andb_true_iff in H; destruct H as [_ H]; auto.
Qed.

Lemma capturing_tick (tk : Tick) (s : CameraStream) :
  capturing s = true -> capturing (state_of (_stream_worker tk s)) = true.
Proof.
  unfold capturing; intros C.
  destruct (is_running s) eqn:R; [|discriminate].
  destruct (shutdown_event s) eqn:Sh; [discriminate|].
  destruct (threads s) as [|st older] eqn:T; [discriminate|]; simpl in C.
  apply andb_true_iff in C; destruct C as [L F].
  unfold _stream_worker, worker_loop_head, worker_loop_read, worker_loop_except;
    unfold_method; rewrite T.
  destruct (tk_thread tk) as [|i]; simpl.
  - destruct st; try discriminate; rewrite ?Sh; unfold set_thread;
      repeat (simpl; rewrite ?R, ?Sh, ?T, ?F; try reflexivity; try break_match).
  - destruct (nth_error_finished older i F) as [-> | ->]; simpl;
      rewrite R, Sh, T, L, F; reflexivity.
Qed.

Lemma capturing_run (sched : Schedule) (s : CameraStream) :
  capturing s = true -> capturing (state_of (run_threads sched s)) = true.
Proof.
  revert s; induction sched as [|tk sched IH]; intros s C; [exact C|].
  destruct (_stream_worker_spec tk s) as (s1 & t1 & E1 & _).
  pose proof (capturing_tick tk s C) as C1; rewrite E1 in C1.
  specialize (IH s1 C1).
  destruct (run_threads_spec sched s1) as (s2 & t2 & E2 & _); rewrite E2 in IH.
  simpl; unfold bind; rewrite E1, E2; exact IH.
Qed.

Lemma capturing_is_running (s : CameraStream) :
  capturing s = true -> is_running s = true.
Proof.
  unfold capturing; intros C.
  apply andb_true_iff in C; destruct C as [C _].
  apply andb_true_iff in C; destruct C as [C _]; exact C.
Qed.

Lemma forallb_set_nth {A} (p : A -> bool) (i : nat) (v : A) (l : list A) :
  forallb p l = true -> p v = true -> forallb p (set_nth i v l) = true.
Proof.
  revert i; induction l as [|x l IH]; intros [|i] H Hv; simpl in *; auto;
    apply andb_true_iff in H; destruct H as [Hx Hl].
  - rewrite Hv, Hl; reflexivity.
  - rewrite Hx, (IH i Hl Hv); reflexivity.
Qed.

Lemma forallb_nth_error {A} (p : A -> bool) (l : list A) (i : nat) (x : A) :
  forallb p l = true -> nth_error l i = Some x -> p x = true.
Proof.
  revert i; induction l as [|y l IH]; intros [|i] H E; simpl in *; try discriminate;
    apply andb_true_iff in H; destruct H as [Hy Hl].
  - congruence.
  - apply (IH i Hl E).
Qed.

(** A transition of a capture thread never brings a thread back to the
    opening of the device. *)
Lemma no_thread_opening_tick (tk : Tick) (s : CameraStream) :
  no_thread_opening s = true ->
  no_thread_opening (state_of (_stream_worker tk s)) = true.
Proof.
  unfold no_thread_opening; intros N.
  unfold _stream_worker, worker_open, worker_loop_head, worker_loop_read,
    worker_loop_except, _cleanup, _cleanup_released, py_truediv, set_thread;
    unfold_method.
  repeat break_match; simpl; try assumption;
    apply forallb_set_nth; solve [assumption | reflexivity].
Qed.

Lemma no_thread_opening_run (sched : Schedule) (s : CameraStream) :
  no_thread_opening s = true ->
  no_thread_opening (state_of (run_threads sched s)) = true.
Proof.
  revert s; induction sched as [|tk sched IH]; intros s N; [exact N|].
  destruct (_stream_worker_spec tk s) as (s1 & t1 & E1 & _).
  pose proof (no_thread_opening_tick tk s N) as N1; rewrite E1 in N1.
  specialize (IH s1 N1).
  destruct (run_threads_spec sched s1) as (s2 & t2 & E2 & _); rewrite E2 in IH.
  simpl; unfold bind; rewrite E1, E2; exact IH.
Qed.

(** Only a thread that opens the device sets the running flag. *)
Lemma stays_off_tick (tk : Tick) (s : CameraStream) :
  stays_off s = true -> stays_off (state_of (_stream_worker tk s)) = true.
Proof.
  unfold stays_off; intros H; apply andb_true_iff in H; destruct H as [R N].
  rewrite (no_thread_opening_tick tk s N), andb_true_r.
  apply negb_true_iff in R; apply negb_true_iff.
  unfold no_thread_opening in N.
  unfold _stream_worker, worker_open, worker_loop_head, worker_loop_read,
    worker_loop_except, _cleanup, _cleanup_released, py_truediv, set_thread;
    unfold_method.
  destruct (nth_error (threads s) (tk_thread tk)) as [st|] eqn:T; [|exact R].
  pose proof (forallb_nth_error _ _ _ _ N T) as Hs.
  destruct st; try discriminate Hs; repeat break_match; simpl; auto.
Qed.

Lemma stays_off_run (sched : Schedule) (s : CameraStream) :
  stays_off s = true -> stays_off (state_of (run_threads sched s)) = true.
Proof.
  revert s; induction sched as [|tk sched IH]; intros s N; [exact N|].
  destruct (_stream_worker_spec tk s) as (s1 & t1 & E1 & _).
  pose proof (stays_off_tick tk s N) as N1; rewrite E1 in N1.
  specialize (IH s1 N1).
  destruct (run_threads_spec sched s1) as (s2 & t2 & E2 & _); rewrite E2 in IH.
  simpl; unfold bind; rewrite E1, E2; exact IH.
Qed.

Lemma stays_off_parts (s : CameraStream) :
  stays_off s = true -> is_running s = false /\ no_thread_opening s = true.
Proof.
  unfold stays_off; intros H; apply andb_true_iff in H; destruct H as [R N].
  apply negb_true_iff in R; auto.
Qed.

Lemma finished_not_starting (l : list ThreadState) :
  forallb is_finished l = true -> forallb (fun st => negb (is_starting st)) l = true.
Proof.
  induction l as [|st l IH]; intros H; [reflexivity|].
  simpl in *; apply andb_true_iff in H; destruct H as [Hs Hl].
  rewrite (IH Hl); destruct st; try discriminate; reflexivity.
Qed.

(** The first transition of a newly launched thread. *)
Lemma opening_tick (tk : Tick) (s : CameraStream) (older : list ThreadState) :
  threads s = Starting :: older -> forallb is_finished older = true ->
  is_running s = false -> shutdown_event s = false ->
  let s' := state_of (_stream_worker tk s) in
  fps s' = fps s /\
  match tk_thread tk with
  | O =>
      if tk_open tk && negb (Z.eqb (fps s) 0)
      then capturing s' = true
      else stays_off s' = true
  | S _ => s' = s
  end.
Proof.
  intros T F R Sh.
  pose proof (finished_not_starting older F) as F'.
  unfold _stream_worker, worker_open, _cleanup, py_truediv, capturing, stays_off,
    no_thread_opening; unfold_method; rewrite T.
  destruct (tk_thread tk) as [|i]; simpl.
  - destruct (tk_open tk); simpl.
    + rewrite Qeq_bool_inject_Z_0.
      destruct (Z.eqb (fps s) 0); simpl; rewrite ?T, ?Sh, ?F, ?F'; simpl; auto.
    + rewrite T; simpl; rewrite F'; auto.
  - destruct (nth_error_finished older i F) as [-> | ->]; simpl; auto.
Qed.

Lemma opening_run (sched : Schedule) (s : CameraStream) (older : list ThreadState) :
  threads s = Starting :: older -> forallb is_finished older = true ->
  is_running s = false -> shutdown_event s = false ->
  is_running (state_of (run_threads sched s)) = opened_within sched (fps s).
Proof.
  revert s; induction sched as [|tk sched IH]; intros s T F R Sh; [exact R|].
  destruct (_stream_worker_spec tk s) as (s1 & t1 & E1 & _).
  destruct (run_threads_spec sched s1) as (s2 & t2 & E2 & _).
  pose proof (opening_tick tk s older T F R Sh) as [Hf O]; rewrite E1 in Hf, O.
  unfold state_of in Hf, O; cbn [fst snd] in Hf, O.
  simpl run_threads; unfold bind; rewrite E1, E2.
  unfold state_of; cbn [fst snd]; unfold opened_within; simpl find.
  destruct (tk_thread tk) as [|i]; simpl Nat.eqb; cbv iota.
  - destruct (tk_open tk && negb (Z.eqb (fps s) 0)).
    + pose proof (capturing_run sched s1 O) as C; rewrite E2 in C.
      apply capturing_is_running in C; exact C.
    + pose proof (stays_off_run sched s1 O) as C; rewrite E2 in C.
      apply stays_off_parts in C; destruct C as [C _]; exact C.
  - subst s1; specialize (IH s T F R Sh); rewrite E2 in IH; exact IH.
Qed.

(** ** Starting a camera twice *)

(** C3, as the code has it. For a known camera whose worker is not
    running, the first [start_camera] launches a capture thread and
    answers with the running flag it reads when the grace period ends; for
    a worker with no thread alive that is whether the new thread opened the
    device (and could compute its frame interval) within the grace period.
    When the first call answered true, a second call made right after it
    answers false, launches no thread and leaves the registry as it is. *)
Theorem start_camera_twice (pull1 pull2 : DbResult) (sched1 sched2 : Schedule)
        (cid : Z) (m : CameraManager) (s : CameraStream) :
  dict_get cid (streams m) = Some s ->
  is_running s = false ->
  let first := start_camera pull1 sched1 cid m in
  let second := start_camera pull2 sched2 cid (state_of first) in
  exists s1,
    dict_get cid (streams (state_of first)) = Some s1 /\
    result_of first = Ok (is_running s1) /\
    existsb is_spawn (trace_of first) = true /\
    List.length (threads s1) = S (List.length (threads s)) /\
    (quiescent s = true -> result_of first = Ok (opened_within sched1 (fps s))) /\
    (result_of first = Ok true ->
     result_of second = Ok false /\
     state_of second = state_of first /\
     existsb is_spawn (trace_of second) = false).
Proof.
  intros G R first second.
  destruct (start_not_running sched1 s R) as (s1 & t & Er & W & E).
  pose proof (start_camera_known pull1 sched1 cid m s s1 _ _ G E) as E1.
  assert (G1 : dict_get cid (streams (state_of first)) = Some s1).
  { unfold first; rewrite E1; unfold state_of; simpl; apply dict_get_set_same. }
  exists s1; split; [exact G1|].
  split; [unfold first; rewrite E1; reflexivity|].
  split; [unfold first; rewrite E1; reflexivity|].
  split; [rewrite (wk_threads _ _ _ W); reflexivity|].
  split.
  - intros Q; unfold first; rewrite E1; unfold result_of; simpl; f_equal.
    pose proof (opening_run sched1
      (set_threads (Starting :: threads s) (set_shutdown_event false s))
      (threads s) eq_refl Q R eq_refl) as O.
    rewrite Er in O; exact O.
  - intros T; unfold first in T; rewrite E1 in T; unfold result_of in T; simpl in T.
    injection T as T.
    pose proof (start_camera_known pull2 sched2 cid (state_of first) s1 s1 _ _ G1
                  (start_running sched2 s1 T)) as E2.
    rewrite (dict_set_get_id _ _ _ G1), manager_eta in E2.
    unfold second; rewrite E2.
    split; [reflexivity | split; reflexivity].
Qed.

Lemma start_camera_twice_witness :
  dict_get 1 (streams Sample.idle) = Some (CameraStream_init Sample.front) /\
  is_running (CameraStream_init Sample.front) = false /\
  result_of (start_camera (DbRows [Sample.front]) Sample.opens_and_reads 1 Sample.idle)
    = Ok true /\
  result_of (start_camera (DbRows [Sample.front]) Sample.opens_and_reads 1
    (state_of (start_camera (DbRows [Sample.front]) Sample.opens_and_reads 1
                 Sample.idle))) = Ok false.
Proof.
  destruct (start_camera_twice (DbRows [Sample.front]) (DbRows [Sample.front])
              Sample.opens_and_reads Sample.opens_and_reads 1 Sample.idle
              (CameraStream_init Sample.front) eq_refl eq_refl)
    as (s1 & _ & _ & _ & _ & H5 & H6).
  specialize (H5 eq_refl).
  assert (O : opened_within Sample.opens_and_reads (fps (CameraStream_init Sample.front))
              = true) by reflexivity.
  rewrite O in H5.
  split; [reflexivity|]; split; [reflexivity|]; split; [exact H5|].
  apply (H6 H5).
Defined.

(** C3, as the specification words it, fails: camera 1 is known and not
    running, its device does not open, and both calls answer false; the
    second one launches a capture thread again. *)
Lemma start_camera_twice_false_false :
  dict_get 1 (streams Sample.idle) = Some (CameraStream_init Sample.front) /\
  result_of (start_camera (DbRows [Sample.front]) Sample.does_not_open 1 Sample.idle)
    = Ok false /\
  result_of (start_camera (DbRows [Sample.front]) Sample.does_not_open 1
    (state_of (start_camera (DbRows [Sample.front]) Sample.does_not_open 1
                 Sample.idle))) = Ok false /\
  existsb is_spawn (trace_of (start_camera (DbRows [Sample.front]) Sample.does_not_open 1
    (state_of (start_camera (DbRows [Sample.front]) Sample.does_not_open 1
                 Sample.idle)))) = true.
Proof. repeat split; vm_compute; reflexivity. Qed.

(** ** The frame counter *)

Lemma reading_tick_captures (tk : Tick) (s : CameraStream) (fi : Q) (ct : Time)
      (f : Frame) :
  nth_error (threads s) (tk_thread tk) = Some (Reading fi ct) ->
  tk_read tk = ReadOk f ->
  _stream_worker tk s =
    (Ok tt,
     set_thread (tk_thread tk) (Looping fi)
       (set_last_frame_time ct
          (set_frames_captured (S (frames_captured s))
             (set_frame_timestamp ct (set_latest_frame (Some f) s)))),
     [EvCapture (camera_id s) f; EvAcquire (frame_lock (camera_id s));
      EvRelease (frame_lock (camera_id s))]).
Proof.
  intros T Rd; unfold _stream_worker, worker_loop_read; unfold_method.
  rewrite T, Rd; reflexivity.
Qed.

Lemma reading_tick_no_frame (tk : Tick) (s : CameraStream) (fi : Q) (ct : Time) :
  nth_error (threads s) (tk_thread tk) = Some (Reading fi ct) ->
  (forall f, tk_read tk <> ReadOk f) ->
  frames_captured (state_of (_stream_worker tk s)) = frames_captured s.
Proof.
  intros T Rd; unfold _stream_worker, worker_loop_read, worker_loop_except;
    unfold_method; rewrite T.
  destruct (tk_read tk) as [f| |]; [destruct (Rd f); reflexivity| |];
    simpl; repeat break_match; reflexivity.
Qed.

Lemma looping_tick_no_frame (tk : Tick) (s : CameraStream) (fi : Q) :
  nth_error (threads s) (tk_thread tk) = Some (Looping fi) ->
  frames_captured (state_of (_stream_worker tk s)) = frames_captured s.
Proof.
  intros T; unfold _stream_worker, worker_loop_head, worker_loop_except, _cleanup;
    unfold_method; rewrite T.
  repeat break_match; reflexivity.
Qed.

(** C2, as the code has it. The frame counter of a worker object never
    decreases: not by a transition of a capture thread, not by any run of
    them, not by [start] or [stop]; so only [__init__], which sets it to
    zero, can bring a positive counter back to zero.  A run raises it by
    the number of frames the device delivered in it: a pass of the loop
    whose read delivers a frame raises it by exactly one; a pass whose read
    fails or raises, and a pass stopped by the rate limiter or by the
    shutdown signal, leave it as it is. *)
Theorem frames_captured_monotone (tk : Tick) (sched : Schedule) (s : CameraStream) :
  frames_captured s <= frames_captured (state_of (_stream_worker tk s)) /\
  frames_captured s <= frames_captured (state_of (run_threads sched s)) /\
  frames_captured s <= frames_captured (state_of (start sched s)) /\
  frames_captured s <= frames_captured (state_of (stop sched s)) /\
  frames_captured (state_of (run_threads sched s)) =
    frames_captured s + count_captures (camera_id s) (trace_of (run_threads sched s)) /\
  (forall fi ct f,
     nth_error (threads s) (tk_thread tk) = Some (Reading fi ct) ->
     tk_read tk = ReadOk f ->
     frames_captured (state_of (_stream_worker tk s)) = S (frames_captured s)) /\
  (forall fi ct,
     nth_error (threads s) (tk_thread tk) = Some (Reading fi ct) ->
     (forall f, tk_read tk <> ReadOk f) ->
     frames_captured (state_of (_stream_worker tk s)) = frames_captured s) /\
  (forall fi,
     nth_error (threads s) (tk_thread tk) = Some (Looping fi) ->
     frames_captured (state_of (_stream_worker tk s)) = frames_captured s) /\
  (forall c, frames_captured (CameraStream_init c) = 0).
Proof.
  destruct (_stream_worker_spec tk s) as (s1 & t1 & E1 & W1).
  destruct (run_threads_spec sched s) as (s2 & t2 & E2 & W2).
  destruct (start_spec sched s) as (b & s3 & t3 & E3 & M3).
  destruct (stop_spec sched s) as (s4 & t4 & E4 & M4 & _).
  split; [rewrite E1; unfold state_of; simpl; rewrite (wk_frames _ _ _ W1); lia|].
  split; [rewrite E2; unfold state_of; simpl; rewrite (wk_frames _ _ _ W2); lia|].
  split; [rewrite E3; unfold state_of; simpl; rewrite (mt_frames _ _ _ M3); lia|].
  split; [rewrite E4; unfold state_of; simpl; rewrite (mt_frames _ _ _ M4); lia|].
  split; [rewrite E2; exact (wk_frames _ _ _ W2)|].
  split; [|split; [|split; [|reflexivity]]].
  - intros fi ct f T Rd; rewrite (reading_tick_captures tk s fi ct f T Rd); reflexivity.
  - intros fi ct T Rd; exact (reading_tick_no_frame tk s fi ct T Rd).
  - intros fi T; exact (looping_tick_no_frame tk s fi T).
Qed.

Lemma frames_captured_monotone_witness :
  nth_error (threads Sample.running_stream) 0 = Some (Reading (1 # 30) (1002 # 1)%Q) /\
  frames_captured Sample.running_stream = 1 /\
  frames_captured (state_of (_stream_worker
    (Sample.tick 0 (1003 # 1)%Q true (ReadOk [8%Z])) Sample.running_stream)) = 2 /\
  frames_captured (state_of (_stream_worker
    (Sample.tick 0 (1003 # 1)%Q true ReadFail) Sample.running_stream)) = 1.
Proof.
  destruct (frames_captured_monotone (Sample.tick 0 (1003 # 1)%Q true (ReadOk [8%Z]))
              [] Sample.running_stream) as (_ & _ & _ & _ & _ & H6 & _ & _ & _).
  destruct (frames_captured_monotone (Sample.tick 0 (1003 # 1)%Q true ReadFail)
              [] Sample.running_stream) as (_ & _ & _ & _ & _ & _ & H7 & _ & _).
  split; [reflexivity|]; split; [reflexivity|]; split.
  - exact (H6 (1 # 30)%Q (1002 # 1)%Q [8%Z] eq_refl eq_refl).
  - apply (H7 (1 # 30)%Q (1002 # 1)%Q eq_refl); intros f; discriminate.
Defined.

(** C2, as the specification words it, fails: a worker is started, its
    device opens, and the read of its first pass through the loop fails;
    the worker is still running and its counter has not increased. *)
Lemma frames_captured_not_strictly_increasing :
  let s := state_of (start Sample.opens_then_read_fails
                       (CameraStream_init Sample.front)) in
  let s' := state_of (run_threads Sample.one_failed_pass s) in
  result_of (start Sample.opens_then_read_fails (CameraStream_init Sample.front))
    = Ok true /\
  threads s = [Looping (1 # 30)] /\
  threads (state_of (run_threads [Sample.tick 0 (1001 # 1)%Q true ReadFail] s))
    = [Reading (1 # 30) (1001 # 1)%Q] /\
  threads s' = [Looping (1 # 30)] /\
  is_running s' = true /\
  ~ frames_captured s < frames_captured s'.
Proof.
  repeat split; try (vm_compute; reflexivity).
  vm_compute; intros H; inversion H.
Qed.

(** ** The status snapshot *)

Lemma Qlt_bool_pos_nonzero (u : Q) : Qlt_bool 0 u = true -> Qeq_bool u 0 = false.
Proof.
  unfold Qlt_bool; intros H; apply negb_true_iff in H.
  destruct (Qeq_bool u 0) eqn:E; [|reflexivity].
  apply Qeq_bool_iff in E.
  assert (L : Qle_bool u 0 = true) by (apply Qle_bool_iff; rewrite E; apply Qle_refl).
  congruence.
Qed.

Lemma Qlt_bool_zero (u : Q) : (u == 0)%Q -> Qlt_bool 0 u = false.
Proof.
  intros E; unfold Qlt_bool; apply negb_false_iff, Qle_bool_iff.
  rewrite E; apply Qle_refl.
Qed.

(** C9. [get_stream_info] returns a snapshot in every state of a worker
    and at every reading of the clock, without raising and without
    changing the worker.  The division is made only under a positive
    uptime: with no start time the uptime and the actual fps are 0, and a
    zero uptime gives an actual fps of 0.  A worker that has captured no
    frame has no last-frame age. *)
Theorem get_stream_info_total (now1 now2 : Time) (s : CameraStream) :
  exists info,
    get_stream_info now1 now2 s = (Ok info, s, []) /\
    st_is_running info = is_running s /\
    st_frames_captured info = frames_captured s /\
    (start_time s = None ->
     st_uptime_seconds info = 0%Q /\ (st_actual_fps info == 0)%Q) /\
    ((st_uptime_seconds info == 0)%Q -> (st_actual_fps info == 0)%Q) /\
    (last_frame_time s = 0%Q -> st_last_frame_age info = None) /\
    (reachable s -> frames_captured s = 0 -> st_last_frame_age info = None).
Proof.
  unfold get_stream_info, py_truediv; unfold_method.
  set (uptime := match start_time s with
                 | Some t0 => if Qeq_bool t0 0 then 0%Q else (now1 - t0)%Q
                 | None => 0%Q
                 end).
  set (age := if Qlt_bool 0 (last_frame_time s)
              then Some (now2 - last_frame_time s)%Q else None).
  assert (A : (last_frame_time s = 0%Q -> age = None) /\
              (reachable s -> frames_captured s = 0 -> age = None)).
  { assert (A0 : last_frame_time s = 0%Q -> age = None)
      by (intros L; unfold age; rewrite L; reflexivity).
    split; [exact A0|].
    intros R Z0; apply A0; apply (never_captured s R Z0). }
  destruct (Qlt_bool 0 uptime) eqn:P.
  - rewrite (Qlt_bool_pos_nonzero uptime P); simpl.
    eexists; split; [reflexivity|]; simpl.
    split; [reflexivity|]; split; [reflexivity|]; split; [|split].
    + intros N; unfold uptime in P; rewrite N in P; discriminate P.
    + intros U; rewrite (Qlt_bool_zero uptime U) in P; discriminate P.
    + exact A.
  - simpl; eexists; split; [reflexivity|]; simpl.
    split; [reflexivity|]; split; [reflexivity|]; split; [|split].
    + intros N; unfold uptime; rewrite N; split; reflexivity.
    + intros _; reflexivity.
    + exact A.
Qed.

Lemma get_stream_info_total_witness :
  start_time (CameraStream_init Sample.front) = None /\
  reachable (CameraStream_init Sample.front) /\
  frames_captured (CameraStream_init Sample.front) = 0 /\
  exists info,
    result_of (get_stream_info (1000 # 1)%Q (1001 # 1)%Q (CameraStream_init Sample.front))
      = Ok info /\
    st_uptime_seconds info = 0%Q /\
    (st_actual_fps info == 0)%Q /\
    st_last_frame_age info = None.
Proof.
  destruct (get_stream_info_total (1000 # 1)%Q (1001 # 1)%Q
              (CameraStream_init Sample.front))
    as (info & E & _ & _ & H1 & _ & _ & H2).
  split; [reflexivity|]; split; [apply reach_init|]; split; [reflexivity|].
  exists info; rewrite E; split; [reflexivity|].
  destruct (H1 eq_refl) as [U F].
  split; [exact U|]; split; [exact F|].
  exact (H2 (reach_init Sample.front) eq_refl).
Defined.

(** * Further properties of the worker *)

(** ** What the running flag implies *)

Lemma set_nth_in_loop (l : list ThreadState) (i : nat) (st x : ThreadState) :
  nth_error l i = Some x -> in_loop st = true ->
  existsb in_loop (set_nth i st l) = true.
Proof.
  revert i; induction l as [|y l IH]; intros [|i] H L; simpl in *; try discriminate.
  - rewrite L; reflexivity.
  - rewrite (IH i H L); apply orb_true_r.
Qed.

Lemma set_nth_keeps_in_loop (l : list ThreadState) (i : nat) (st x : ThreadState) :
  nth_error l i = Some x -> in_loop x = false ->
  existsb in_loop l = true -> existsb in_loop (set_nth i st l) = true.
Proof.
  revert i; induction l as [|y l IH]; intros [|i] H L E; simpl in *; try discriminate.
  - injection H as ->; rewrite L in E; simpl in E; rewrite E; apply orb_true_r.
  - apply orb_true_iff in E; destruct E as [E|E].
    + rewrite E; reflexivity.
    + rewrite (IH i H L E); apply orb_true_r.
Qed.

Lemma running_tick (tk : Tick) (s : CameraStream) :
  (is_running s = true ->
   start_time s <> None /\ existsb in_loop (threads s) = true) ->
  is_running (state_of (_stream_worker tk s)) = true ->
  start_time (state_of (_stream_worker tk s)) <> None /\
  existsb in_loop (threads (state_of (_stream_worker tk s))) = true.
Proof.
  intros I.
  unfold _stream_worker, worker_open, worker_loop_head, worker_loop_read,
    worker_loop_except, _cleanup, _cleanup_released, py_truediv, set_thread;
    unfold_method.
  destruct (nth_error (threads s) (tk_thread tk)) as [st|] eqn:T; [|exact I].
  destruct st as [|fi|fi ct| |]; [| | | |exact I].
  - repeat break_match; simpl; try discriminate; intros _.
    split; [discriminate|].
    apply (set_nth_in_loop _ _ _ _ T); reflexivity.
  - repeat break_match; simpl; try discriminate; intros R;
      destruct (I R) as (S0 & _); split;
      first [ congruence | apply (set_nth_in_loop _ _ _ _ T); reflexivity ].
  - repeat break_match; simpl; try discriminate; intros R;
      destruct (I R) as (S0 & _); split;
      first [ congruence | apply (set_nth_in_loop _ _ _ _ T); reflexivity ].
  - simpl; intros R; destruct (I R) as (S0 & L); split; [exact S0|].
    apply (set_nth_keeps_in_loop _ _ _ _ T); [reflexivity | exact L].
Qed.

Lemma running_run (sched : Schedule) (s : CameraStream) :
  (is_running s = true ->
   start_time s <> None /\ existsb in_loop (threads s) = true) ->
  is_running (state_of (run_threads sched s)) = true ->
  start_time (state_of (run_threads sched s)) <> None /\
  existsb in_loop (threads (state_of (run_threads sched s))) = true.
Proof.
  revert s; induction sched as [|tk sched IH]; intros s I; [exact I|].
  pose proof (running_tick tk s I) as I1.
  destruct (_stream_worker_spec tk s) as (s1 & t1 & E1 & _).
  rewrite E1 in I1; unfold state_of in I1; cbn [fst snd] in I1.
  specialize (IH s1 I1).
  destruct (run_threads_spec sched s1) as (s2 & t2 & E2 & _).
  rewrite E2 in IH.
  simpl; unfold bind; rewrite E1, E2; exact IH.
Qed.

Lemma running_stream_reachable : reachable Sample.running_stream.
Proof.
  assert (E : Sample.running_stream =
              state_of (start Sample.opens_and_reads (CameraStream_init Sample.front)))
    by (vm_compute; reflexivity).
  rewrite E; apply reach_start, reach_init.
Qed.

(** X1. In every state a worker can reach, a set running flag means that
    the object has a start time and a capture thread inside the loop.  It
    does not mean that the object holds a device handle: a thread that
    comes back late from [release] clears the handle a newer thread has
    opened, and the worker stays running without a device.  In
    [Sample.lost_handle] the worker was stopped while its thread was inside
    [release], started again, and the old [release] came back during the
    grace period: [start] answered true and the handle is gone. *)
Theorem running_worker_is_in_loop :
  (forall s, reachable s -> is_running s = true ->
     start_time s <> None /\ existsb in_loop (threads s) = true) /\
  (reachable Sample.lost_handle /\
   is_running Sample.lost_handle = true /\
   cap Sample.lost_handle = None /\
   result_of (start Sample.opens_then_old_release_returns
                (state_of (stop Sample.finishes_read_then_releases
                             Sample.running_stream))) = Ok true).
Proof.
  split.
  - induction 1 as [c | tk s _ IH | sched s _ IH | sched s _ IH].
    + discriminate.
    + apply running_tick; exact IH.
    + destruct (is_running s) eqn:R.
      * rewrite (start_running sched s R); intros _; exact (IH eq_refl).
      * destruct (start_not_running sched s R) as (s' & t & Er & _ & E).
        rewrite E; unfold state_of; cbn [fst snd].
        pose proof (running_run sched
          (set_threads (Starting :: threads s) (set_shutdown_event false s))) as I.
        rewrite Er in I; apply I; simpl; rewrite R; discriminate.
    + destruct (stop_spec sched s) as (s' & t & E & _ & F).
      rewrite E; unfold state_of; cbn [fst snd]; rewrite F; discriminate.
  - split; [|split; [reflexivity|split; [reflexivity | vm_compute; reflexivity]]].
    assert (E : Sample.lost_handle =
                state_of (start Sample.opens_then_old_release_returns
                  (state_of (stop Sample.finishes_read_then_releases
                               Sample.running_stream))))
      by (vm_compute; reflexivity).
    rewrite E; apply reach_start, reach_stop, running_stream_reachable.
Qed.

Lemma running_worker_is_in_loop_witness :
  reachable Sample.running_stream /\
  is_running Sample.running_stream = true /\
  start_time Sample.running_stream <> None /\
  existsb in_loop (threads Sample.running_stream) = true.
Proof.
  destruct running_worker_is_in_loop as (H & _).
  destruct (H Sample.running_stream running_stream_reachable eq_refl) as (C & L).
  split; [exact running_stream_reachable|]; split; [reflexivity|]; split;
    [exact C | exact L].
Defined.

(** ** A thread on its way out *)

Lemma leaving_tick_other (tk : Tick) (s : CameraStream) (i : nat) :
  leaving s = true -> tk_thread tk = S i ->
  _stream_worker tk s = (Ok tt, s, []).
Proof.
  unfold leaving; intros D I.
  destruct (threads s) as [|st older] eqn:T; [discriminate|].
  apply andb_true_iff in D; destruct D as [F _].
  unfold _stream_worker; unfold_method; rewrite T, I; simpl.
  destruct (nth_error_finished older i F) as [-> | ->]; reflexivity.
Qed.

Lemma leaving_tick_newest (tk : Tick) (s : CameraStream) :
  leaving s = true -> tk_thread tk = 0 ->
  let s' := state_of (_stream_worker tk s) in
  leaving s' = true /\ steps_to_end s' <= pred (steps_to_end s).
Proof.
  unfold leaving, steps_to_end; intros D I.
  destruct (threads s) as [|st older] eqn:T; [discriminate|].
  apply andb_true_iff in D; destruct D as [F D].
  unfold _stream_worker, worker_loop_read, worker_loop_except, _cleanup,
    _cleanup_released, set_thread; unfold_method; rewrite T, I; simpl.
  destruct st as [|fi|fi ct| |]; try discriminate.
  - rewrite D; destruct (cap s) eqn:C; simpl; rewrite ?T; simpl; rewrite ?F, ?C; auto.
  - destruct (tk_read tk); simpl; rewrite ?D; simpl; rewrite ?T; simpl;
      rewrite ?D, ?F; simpl; auto.
  - rewrite T; simpl; rewrite F, D; auto.
  - rewrite T, F, D; auto.
Qed.

Lemma leaving_run (sched : Schedule) (s : CameraStream) :
  leaving s = true ->
  let s' := state_of (run_threads sched s) in
  leaving s' = true /\ steps_to_end s' <= steps_to_end s - ticks_for 0 sched.
Proof.
  revert s; induction sched as [|tk sched IH]; intros s D.
  - change (state_of (run_threads [] s)) with s.
    split; [exact D | unfold ticks_for; simpl; lia].
  - destruct (_stream_worker_spec tk s) as (s1 & t1 & E1 & _).
    destruct (run_threads_spec sched s1) as (s2 & t2 & E2 & _).
    simpl run_threads; unfold bind; rewrite E1, E2; unfold state_of; cbn [fst snd].
    unfold ticks_for; simpl filter.
    destruct (tk_thread tk) as [|i] eqn:I; simpl Nat.eqb; cbv iota.
    + pose proof (leaving_tick_newest tk s D I) as Hn.
      rewrite E1 in Hn; unfold state_of in Hn; cbn [fst snd] in Hn.
      destruct Hn as (D1 & N1).
      specialize (IH s1 D1); rewrite E2 in IH; unfold state_of in IH; cbn [fst snd] in IH.
      destruct IH as (D2 & N2); split; [exact D2|].
      unfold ticks_for in N2; simpl List.length; lia.
    + rewrite (leaving_tick_other tk s i D I) in E1; injection E1 as <- _.
      specialize (IH s D); rewrite E2 in IH; exact IH.
Qed.

Lemma leaving_idle_run (sched : Schedule) (s : CameraStream) :
  leaving s = true -> ticks_for 0 sched = 0 ->
  run_threads sched s = (Ok tt, s, []).
Proof.
  intros D; induction sched as [|tk sched IH]; intros N; [reflexivity|].
  unfold ticks_for in N; simpl in N.
  destruct (tk_thread tk) as [|i] eqn:I; simpl in N; [discriminate|].
  simpl; unfold bind; rewrite (leaving_tick_other tk s i D I), (IH N); reflexivity.
Qed.

(** A leaving thread with no transition left has ended: no thread of the
    object is alive, the flag and the handle are cleared. *)
Lemma leaving_ended (s : CameraStream) :
  leaving s = true -> steps_to_end s = 0 ->
  quiescent s = true /\ is_running s = false /\ cap s = None.
Proof.
  unfold leaving, steps_to_end, quiescent; intros D N.
  destruct (threads s) as [|st older]; [discriminate|].
  apply andb_true_iff in D; destruct D as [F D].
  destruct st; try discriminate.
  apply andb_true_iff in D; destruct D as [R C]; apply negb_true_iff in R.
  simpl; rewrite F; destruct (cap s); [discriminate | auto].
Qed.

(** A leaving thread with at most one transition left is out of the loop:
    the flag is cleared and no thread of the object can set it. *)
Lemma leaving_left_loop (s : CameraStream) :
  leaving s = true -> steps_to_end s <= 1 ->
  existsb in_loop (threads s) = false /\ stays_off s = true.
Proof.
  unfold leaving, steps_to_end, stays_off, no_thread_opening; intros D N.
  destruct (threads s) as [|st older]; [discriminate|].
  apply andb_true_iff in D; destruct D as [F D].
  assert (L : existsb in_loop older = false).
  { clear -F; induction older as [|x l IH]; [reflexivity|].
    simpl in *; apply andb_true_iff in F; destruct F as [Fx Fl].
    rewrite (IH Fl); destruct x; try discriminate; reflexivity. }
  pose proof (finished_not_starting older F) as F'.
  destruct st; try lia; simpl; rewrite L, F'.
  - rewrite D; auto.
  - apply andb_true_iff in D; destruct D as [R _]; rewrite R; auto.
Qed.

Lemma leaving_set_is_running (s : CameraStream) :
  leaving s = true ->
  leaving (set_is_running false s) = true /\
  steps_to_end (set_is_running false s) = steps_to_end s.
Proof.
  unfold leaving, steps_to_end; simpl; intros D; split; [|reflexivity].
  destruct (threads s) as [|st older]; [discriminate|].
  apply andb_true_iff in D; destruct D as [F D]; rewrite F; simpl.
  destruct st; try discriminate; auto.
  apply andb_true_iff in D; destruct D as [_ C]; exact C.
Qed.

(** ** A device that does not open *)

Lemma opening_tick_fails (tk : Tick) (s : CameraStream) (older : list ThreadState) :
  threads s = Starting :: older -> forallb is_finished older = true ->
  tk_thread tk = 0 ->
  tk_open tk = false \/ fps s = 0%Z ->
  let s' := state_of (_stream_worker tk s) in
  leaving s' = true /\ steps_to_end s' = 1 /\
  cap s' <> None /\ thread_is_alive s' = true.
Proof.
  intros T F I0 Why.
  unfold _stream_worker, worker_open, _cleanup, py_truediv, leaving, steps_to_end,
    thread_is_alive, set_thread; unfold_method; rewrite T, I0; simpl.
  destruct (tk_open tk); simpl.
  - destruct Why as [Why|Why]; [discriminate|].
    rewrite Qeq_bool_inject_Z_0, Why; simpl; rewrite T; simpl; rewrite F.
    repeat split; discriminate.
  - rewrite T; simpl; rewrite F; repeat split; discriminate.
Qed.

(** X2. Failing to open the device is final for a capture thread. When a
    worker with no live thread is started and its new thread finds the
    device closed, or cannot compute [1.0 / fps] because the configured
    rate is 0, [start] answers false whatever happens in the rest of the
    grace period: the thread never enters the loop, the worker is not
    running, and no thread of the object can set the flag any more.  The
    thread goes through [_cleanup]: as long as it has not come back from
    [release] it is alive and the handle is held; after one more
    transition no thread is alive and the handle is cleared.  Only a new
    [start] tries again. *)
Theorem failed_open_is_terminal (tk : Tick) (rest : Schedule) (s : CameraStream) :
  quiescent s = true ->
  is_running s = false ->
  tk_thread tk = 0 ->
  tk_open tk = false \/ fps s = 0%Z ->
  let after := start (tk :: rest) s in
  result_of after = Ok false /\
  is_running (state_of after) = false /\
  existsb in_loop (threads (state_of after)) = false /\
  stays_off (state_of after) = true /\
  (ticks_for 0 rest = 0 ->
   thread_is_alive (state_of after) = true /\ cap (state_of after) <> None) /\
  (1 <= ticks_for 0 rest ->
   quiescent (state_of after) = true /\ cap (state_of after) = None) /\
  existsb is_spawn (trace_of (start rest (state_of after))) = true.
Proof.
  intros Q R I0 Why after.
  destruct (start_not_running (tk :: rest) s R) as (s' & t & Er & _ & E).
  set (s0 := set_threads (Starting :: threads s) (set_shutdown_event false s)) in *.
  destruct (opening_tick_fails tk s0 (threads s) eq_refl Q I0 Why) as (D1 & N1 & C1 & A1).
  destruct (_stream_worker_spec tk s0) as (s1 & t1 & E1 & _).
  rewrite E1 in D1, N1, C1, A1; unfold state_of in D1, N1, C1, A1;
    cbn [fst snd] in D1, N1, C1, A1.
  destruct (run_threads_spec rest s1) as (s2 & t2 & E2 & _).
  assert (Es : s' = s2).
  { simpl in Er; unfold bind in Er; rewrite E1, E2 in Er.
    injection Er as <- _; reflexivity. }
  subst s'.
  pose proof (leaving_run rest s1 D1) as Hr.
  rewrite E2 in Hr; unfold state_of in Hr; cbn [fst snd] in Hr.
  destruct Hr as (D2 & N2).
  destruct (leaving_left_loop s2 D2) as (L2 & O2); [lia|].
  destruct (stays_off_parts s2 O2) as (R2 & _).
  unfold after; rewrite E; unfold result_of, state_of; cbn [fst snd].
  rewrite R2.
  split; [reflexivity|]; split; [reflexivity|]; split; [exact L2|]; split; [exact O2|].
  split; [|split].
  - intros Z0; rewrite (leaving_idle_run rest s1 D1 Z0) in E2.
    injection E2 as <- _; auto.
  - intros P1; destruct (leaving_ended s2 D2) as (Q2 & _ & C2); [lia | auto].
  - destruct (start_not_running rest s2 R2) as (s3 & t3 & _ & _ & E3).
    rewrite E3; reflexivity.
Qed.

Lemma failed_open_is_terminal_witness :
  quiescent (CameraStream_init Sample.front) = true /\
  is_running (CameraStream_init Sample.front) = false /\
  result_of (start (Sample.tick 0 (1000 # 1)%Q false ReadFail :: Sample.opens_and_reads)
               (CameraStream_init Sample.front)) = Ok false /\
  cap (state_of (start (Sample.tick 0 (1000 # 1)%Q false ReadFail :: Sample.opens_and_reads)
               (CameraStream_init Sample.front))) = None /\
  cap (state_of (start [Sample.tick 0 (1000 # 1)%Q false ReadFail]
               (CameraStream_init Sample.front))) <> None.
Proof.
  destruct (failed_open_is_terminal (Sample.tick 0 (1000 # 1)%Q false ReadFail)
              Sample.opens_and_reads (CameraStream_init Sample.front)
              eq_refl eq_refl eq_refl (or_introl eq_refl)) as (H1 & _ & _ & _ & _ & H6 & _).
  destruct (failed_open_is_terminal (Sample.tick 0 (1000 # 1)%Q false ReadFail)
              [] (CameraStream_init Sample.front)
              eq_refl eq_refl eq_refl (or_introl eq_refl)) as (_ & _ & _ & _ & H5 & _ & _).
  split; [reflexivity|]; split; [reflexivity|]; split; [exact H1|]; split.
  - apply H6; unfold ticks_for; simpl; lia.
  - apply H5; reflexivity.
Defined.

(** ** Cooperative shutdown *)

Lemma draining_tick_other (tk : Tick) (s : CameraStream) (i : nat) :
  draining s = true -> tk_thread tk = S i ->
  _stream_worker tk s = (Ok tt, s, []).
Proof.
  unfold draining; intros D I.
  apply andb_true_iff in D; destruct D as [_ D].
  destruct (threads s) as [|st older] eqn:T; [discriminate|].
  apply andb_true_iff in D; destruct D as [_ F].
  unfold _stream_worker; unfold_method; rewrite T, I; simpl.
  destruct (nth_error_finished older i F) as [-> | ->]; reflexivity.
Qed.

Lemma draining_leaving (s : CameraStream) :
  draining s = true -> leaving s = true /\ steps_to_end s <= 3.
Proof.
  unfold draining, leaving, steps_to_end; intros D.
  apply andb_true_iff in D; destruct D as [Sh D].
  destruct (threads s) as [|st older]; [discriminate|].
  apply andb_true_iff in D; destruct D as [L F].
  rewrite F, Sh; destruct st; try discriminate; auto.
Qed.

Lemma capturing_parts (s : CameraStream) :
  capturing s = true ->
  is_running s = true /\ shutdown_event s = false /\ thread_is_alive s = true /\
  draining (set_shutdown_event true s) = true.
Proof.
  unfold capturing, draining, thread_is_alive; intros C.
  apply andb_true_iff in C; destruct C as [C L].
  apply andb_true_iff in C; destruct C as [R Sh].
  apply negb_true_iff in Sh; simpl.
  destruct (threads s) as [|st older]; [discriminate|].
  apply andb_true_iff in L; destruct L as [L F].
  rewrite L, F; destruct st; try discriminate; auto.
Qed.

Lemma draining_idle_run (sched : Schedule) (s : CameraStream) :
  draining s = true -> ticks_for 0 sched = 0 ->
  run_threads sched s = (Ok tt, s, []).
Proof.
  intros D; induction sched as [|tk sched IH]; intros N; [reflexivity|].
  unfold ticks_for in N; simpl in N.
  destruct (tk_thread tk) as [|i] eqn:I; simpl in N; [discriminate|].
  simpl; unfold bind; rewrite (draining_tick_other tk s i D I), (IH N); reflexivity.
Qed.

(** What [stop] leaves behind, case by case. *)
Lemma stop_effects (sched : Schedule) (s : CameraStream) :
  exists s' t,
    stop sched s = (Ok (is_running s), s', t) /\
    method_spec s s' t /\
    is_running s' = false /\
    (is_running s = true -> shutdown_event s' = true) /\
    (is_running s = false -> s' = s) /\
    (capturing s = true -> ticks_for 0 sched = 0 ->
     s' = set_is_running false (set_shutdown_event true s)) /\
    (capturing s = true ->
     leaving s' = true /\ steps_to_end s' <= 3 - ticks_for 0 sched).
Proof.
  destruct (stop_spec sched s) as (s' & t & E & Sp & F).
  exists s', t; split; [exact E|]; split; [exact Sp|]; split; [exact F|].
  split; [|split; [|split]].
  - intros R; destruct (thread_is_alive s) eqn:A.
    + destruct (stop_running_alive sched s R A) as (s1 & t1 & _ & W & E1).
      rewrite E1 in E; injection E as _ <- _; simpl.
      rewrite (wk_shutdown _ _ _ W); reflexivity.
    + rewrite (stop_running_dead sched s R A) in E; injection E as _ <- _; reflexivity.
  - intros R; rewrite (stop_not_running sched s R) in E; injection E as _ <- _.
    reflexivity.
  - intros C N; destruct (capturing_parts s C) as (R & _ & A & D).
    destruct (stop_running_alive sched s R A) as (s1 & t1 & Er & _ & E1).
    rewrite (draining_idle_run sched _ D N) in Er; injection Er as <- _.
    rewrite E1 in E; injection E as _ <- _; reflexivity.
  - intros C; destruct (capturing_parts s C) as (R & _ & A & D).
    destruct (stop_running_alive sched s R A) as (s1 & t1 & Er & _ & E1).
    destruct (draining_leaving _ D) as (D0 & N0).
    pose proof (leaving_run sched _ D0) as Hr.
    rewrite Er in Hr; unfold state_of in Hr; cbn [fst snd] in Hr.
    destruct Hr as (D1 & N1).
    rewrite E1 in E; injection E as _ <- _.
    destruct (leaving_set_is_running s1 D1) as (D2 & N2).
    split; [exact D2 | rewrite N2; lia].
Qed.

(** X3. Shutdown is cooperative. When a capturing worker is stopped,
    [stop] answers true, turns the running flag off and sets the shutdown
    signal.  If the capture thread gets two transitions while it is joined
    (the pending read, then the loop test), it has left the loop by the
    time [stop] returns and nothing can set the flag again; it may still be
    inside [release], alive and with the handle held.  With a third
    transition it has ended: no thread of the worker is alive and the
    device handle is cleared. *)
Theorem stop_drains_capture_thread (sched : Schedule) (s : CameraStream) :
  capturing s = true ->
  let after := stop sched s in
  result_of after = Ok true /\
  is_running (state_of after) = false /\
  shutdown_event (state_of after) = true /\
  (2 <= ticks_for 0 sched ->
   existsb in_loop (threads (state_of after)) = false /\
   stays_off (state_of after) = true) /\
  (3 <= ticks_for 0 sched ->
   quiescent (state_of after) = true /\ cap (state_of after) = None).
Proof.
  intros C after.
  destruct (capturing_parts s C) as (R & _ & _ & _).
  destruct (stop_effects sched s) as (s' & t & E & _ & F & Sh & _ & _ & L).
  destruct (L C) as (D & N).
  unfold after; rewrite E, R; unfold result_of, state_of; cbn [fst snd].
  split; [reflexivity|]; split; [exact F|]; split; [exact (Sh R)|]; split.
  - intros T2; apply leaving_left_loop; [exact D | lia].
  - intros T3; destruct (leaving_ended s' D) as (Q & _ & C0); [lia | auto].
Qed.

Lemma stop_drains_capture_thread_witness :
  capturing Sample.running_stream = true /\
  3 <= ticks_for 0 Sample.finishes_read_then_exits /\
  result_of (stop Sample.finishes_read_then_exits Sample.running_stream) = Ok true /\
  cap (state_of (stop Sample.finishes_read_then_exits Sample.running_stream)) = None /\
  existsb in_loop
    (threads (state_of (stop Sample.finishes_read_then_releases Sample.running_stream)))
  = false /\
  thread_is_alive (state_of (stop Sample.finishes_read_then_releases Sample.running_stream))
  = true.
Proof.
  assert (N : 3 <= ticks_for 0 Sample.finishes_read_then_exits)
    by (unfold ticks_for; simpl; lia).
  assert (N' : 2 <= ticks_for 0 Sample.finishes_read_then_releases)
    by (unfold ticks_for; simpl; lia).
  destruct (stop_drains_capture_thread Sample.finishes_read_then_exits
              Sample.running_stream eq_refl) as (H1 & _ & _ & _ & H5).
  destruct (stop_drains_capture_thread Sample.finishes_read_then_releases
              Sample.running_stream eq_refl) as (_ & _ & _ & H4 & _).
  split; [reflexivity|]; split; [exact N|]; split; [exact H1|].
  split; [apply (H5 N)|]; split; [apply (H4 N') | vm_compute; reflexivity].
Defined.

(** X4. A join that gives up leaves the thread behind. When a capturing
    worker is stopped and its thread makes no transition while it is
    joined, [stop] still answers true and turns the running flag off, but
    the thread is alive and the device handle is still held: nothing but
    the shutdown signal has changed. *)
Theorem stop_join_timeout_leaves_thread (sched : Schedule) (s : CameraStream) :
  capturing s = true ->
  ticks_for 0 sched = 0 ->
  let after := stop sched s in
  result_of after = Ok true /\
  state_of after = set_is_running false (set_shutdown_event true s) /\
  is_running (state_of after) = false /\
  thread_is_alive (state_of after) = true /\
  cap (state_of after) = cap s /\
  existsb is_join (trace_of after) = true.
Proof.
  intros C N after.
  destruct (capturing_parts s C) as (R & _ & A & D).
  destruct (stop_running_alive sched s R A) as (s1 & t & Er & _ & E).
  rewrite (draining_idle_run sched _ D N) in Er; injection Er as <- <-.
  unfold after; rewrite E; unfold result_of, state_of, trace_of; cbn [fst snd].
  repeat split; auto.
Qed.

Lemma stop_join_timeout_leaves_thread_witness :
  capturing Sample.running_stream = true /\
  ticks_for 0 [] = 0 /\
  result_of (stop [] Sample.running_stream) = Ok true /\
  is_running (state_of (stop [] Sample.running_stream)) = false /\
  thread_is_alive (state_of (stop [] Sample.running_stream)) = true /\
  cap (state_of (stop [] Sample.running_stream)) = Some {| isOpened := true |}.
Proof.
  destruct (stop_join_timeout_leaves_thread [] Sample.running_stream eq_refl eq_refl)
    as (H1 & _ & H3 & H4 & H5 & _).
  split; [reflexivity|]; split; [reflexivity|]; split; [exact H1|].
  split; [exact H3|]; split; [exact H4 | exact H5].
Defined.

(** ** What stopping a camera changes *)

Lemma count_captures_locked (cid : Z) (t : Trace) :
  count_captures cid (EvAcquire manager_lock :: t ++ [EvRelease manager_lock]) =
  count_captures cid t.
Proof. simpl; rewrite count_captures_app; simpl; lia. Qed.

(** C7, as the code has it. For a worker that has captured at least one
    frame, once [stop_camera] has returned the worker is not running and
    [get_camera_frame] still gives a frame: the last one the device
    delivered, which is the frame held before the call unless the capture
    thread completed a pending read while it was being joined.  Stopping
    never clears the stored frame.  It changes more than the running flag,
    though.  A worker that was not running is left as it was; for one that
    was running the shutdown signal is set, and the counter rises by the
    frames delivered during the join, the configuration staying the same.
    Whether the device is released is up to the capture thread: when the
    thread makes no transition during the join, nothing but the flag and
    the signal has changed, the thread is alive and the handle is still
    held; when it gets three transitions it has gone through [_cleanup],
    no thread is alive and the handle is cleared. *)
Theorem stop_camera_keeps_frame (sched : Schedule) (cid : Z) (m : CameraManager)
        (s : CameraStream) :
  dict_get cid (streams m) = Some s ->
  reachable s ->
  0 < frames_captured s ->
  let after := stop_camera sched cid m in
  result_of after = Ok (is_running s) /\
  result_of (is_camera_running cid (state_of after)) = Ok false /\
  (exists f f',
     latest_frame s = Some f /\
     result_of (get_camera_frame cid (state_of after)) = Ok (Some f') /\
     Some f' = last_capture (camera_id s) (trace_of after) (Some f) /\
     (count_captures (camera_id s) (trace_of after) = 0 -> f' = f)) /\
  exists s',
    dict_get cid (streams (state_of after)) = Some s' /\
    config s' = config s /\
    frames_captured s' =
      frames_captured s + count_captures (camera_id s) (trace_of after) /\
    (is_running s = false -> state_of after = m) /\
    (is_running s = true -> shutdown_event s' = true) /\
    (capturing s = true -> ticks_for 0 sched = 0 ->
     s' = set_is_running false (set_shutdown_event true s) /\
     cap s' = cap s /\ thread_is_alive s' = true) /\
    (capturing s = true -> 3 <= ticks_for 0 sched ->
     quiescent s' = true /\ cap s' = None).
Proof.
  intros G Rs P after.
  destruct (captured_has_frame s Rs P) as (f & L).
  destruct (stop_camera_keeps_held_frame sched cid m s f G L) as (H1 & H2 & H3).
  split; [exact H1|]; split; [exact H2|]; split.
  { destruct (last_capture_some (camera_id s) (trace_of (stop_camera sched cid m)) f)
      as (f' & Hf).
    exists f, f'; split; [exact L|]; split; [|split].
    - unfold after; rewrite H3, Hf; reflexivity.
    - symmetry; exact Hf.
    - intros C; rewrite last_capture_none in Hf by exact C; congruence. }
  destruct (stop_effects sched s) as (s' & t & E & Sp & _ & Sh & Same & Idle & Lv).
  pose proof (stop_camera_known _ _ _ _ _ _ _ G E) as U.
  exists s'; unfold after; rewrite U; cbn [state_of trace_of fst snd streams].
  split; [apply dict_get_set_same|].
  split; [exact (mt_config _ _ _ Sp)|].
  split; [rewrite count_captures_locked; exact (mt_frames _ _ _ Sp)|].
  split; [|split; [exact Sh|split]].
  - intros R; rewrite (Same R), (dict_set_get_id _ _ _ G); apply manager_eta.
  - intros C N; rewrite (Idle C N); split; [reflexivity|]; split; [reflexivity|].
    destruct (capturing_parts s C) as (_ & _ & A & _); exact A.
  - intros C N; destruct (Lv C) as (D & K).
    destruct (leaving_ended s' D) as (Q & _ & C0); [lia | auto].
Qed.

Lemma stop_camera_keeps_frame_witness :
  dict_get 1 (streams Sample.running) = Some Sample.running_stream /\
  reachable Sample.running_stream /\
  0 < frames_captured Sample.running_stream /\
  latest_frame Sample.running_stream = Some [7%Z] /\
  result_of (stop_camera Sample.finishes_read_then_exits 1 Sample.running) = Ok true /\
  result_of (is_camera_running 1
    (state_of (stop_camera Sample.finishes_read_then_exits 1 Sample.running))) = Ok false /\
  result_of (get_camera_frame 1
    (state_of (stop_camera Sample.finishes_read_then_exits 1 Sample.running))) =
    Ok (Some [8%Z]) /\
  exists s',
    dict_get 1 (streams (state_of
      (stop_camera Sample.finishes_read_then_exits 1 Sample.running))) = Some s' /\
    frames_captured s' = 2 /\ shutdown_event s' = true /\ cap s' = None.
Proof.
  assert (G : dict_get 1 (streams Sample.running) = Some Sample.running_stream)
    by (vm_compute; reflexivity).
  assert (P : 0 < frames_captured Sample.running_stream) by (simpl; lia).
  assert (N : 3 <= ticks_for 0 Sample.finishes_read_then_exits)
    by (unfold ticks_for; simpl; lia).
  destruct (stop_camera_keeps_frame Sample.finishes_read_then_exits 1
              Sample.running _ G running_stream_reachable P)
    as (H1 & H2 & (f & f' & L & H3 & H4 & _) & s' & G' & _ & Fr & _ & Sh & _ & Dn).
  split; [exact G|]; split; [exact running_stream_reachable|]; split; [exact P|].
  split; [reflexivity|].
  split; [rewrite H1; reflexivity|]; split; [exact H2|].
  split; [rewrite H3, H4; vm_compute; reflexivity|].
  exists s'; split; [exact G'|]; split; [|split].
  - rewrite Fr; vm_compute; reflexivity.
  - apply Sh; reflexivity.
  - apply (Dn eq_refl N).
Defined.

(** C7, as the specification words it, fails: stopping changes more than
    the running flag, and it need not release the device.  Camera 1 of
    [Sample.running] holds frame [[7]], has counted one frame and is inside
    a read.  Stopped with a join that gives up, its worker has the shutdown
    signal set and still holds the device handle, with its thread alive.
    Stopped with a join during which the read completes and the thread
    tears down, its worker holds frame [[8]], has counted two frames and
    has the shutdown signal set.  Neither is the worker before the call
    with the flag turned off, with or without its handle. *)
Lemma stop_camera_changes_more_than_flag :
  dict_get 1 (streams Sample.running) = Some Sample.running_stream /\
  latest_frame Sample.running_stream = Some [7%Z] /\
  frames_captured Sample.running_stream = 1 /\
  shutdown_event Sample.running_stream = false /\
  (exists s',
     dict_get 1 (streams (state_of (stop_camera [] 1 Sample.running))) = Some s' /\
     is_running s' = false /\
     shutdown_event s' = true /\
     cap s' = Some {| isOpened := true |} /\
     thread_is_alive s' = true /\
     s' <> set_is_running false Sample.running_stream /\
     s' <> set_cap None (set_is_running false Sample.running_stream)) /\
  (exists s',
     dict_get 1 (streams (state_of
       (stop_camera Sample.finishes_read_then_exits 1 Sample.running))) = Some s' /\
     is_running s' = false /\
     shutdown_event s' = true /\
     latest_frame s' = Some [8%Z] /\
     frames_captured s' = 2 /\
     s' <> set_is_running false Sample.running_stream /\
     s' <> set_cap None (set_is_running false Sample.running_stream)).
Proof.
  split; [vm_compute; reflexivity|].
  split; [reflexivity|]; split; [reflexivity|]; split; [reflexivity|]; split.
  - eexists; split; [vm_compute; reflexivity|].
    repeat (split; [reflexivity|]).
    split; intros H; apply (f_equal shutdown_event) in H; discriminate H.
  - eexists; split; [vm_compute; reflexivity|].
    repeat (split; [reflexivity|]).
    split; intros H; apply (f_equal shutdown_event) in H; discriminate H.
Qed.

(** * Further properties of the registry *)

(** ** Joins and the registry lock *)

Lemma joins_locked_nil : joins_locked [].
Proof. intros depth rest; reflexivity. Qed.

Lemma joins_locked_app (t1 t2 : Trace) :
  joins_locked t1 -> joins_locked t2 -> joins_locked (t1 ++ t2).
Proof.
  intros H1 H2 depth rest; rewrite <- app_assoc, H1, H2; reflexivity.
Qed.

Lemma joins_locked_worker (t : Trace) :
  forallb is_worker_event t = true -> joins_locked t.
Proof. intros W depth rest; apply worker_trace_inside; exact W. Qed.

Lemma joins_locked_event (e : Event) :
  is_manager_lock_event e = false -> joins_locked [e].
Proof.
  intros H depth rest; destruct e as [[|]|[|]| | | | | |]; simpl in *;
    try discriminate; reflexivity.
Qed.

Lemma joins_locked_cons (e : Event) (t : Trace) :
  is_manager_lock_event e = false -> joins_locked t -> joins_locked (e :: t).
Proof.
  intros H Ht; change (e :: t) with ([e] ++ t).
  apply joins_locked_app; [apply joins_locked_event; exact H | exact Ht].
Qed.

Lemma joins_locked_with_lock (t : Trace) :
  joins_locked t ->
  joins_locked (EvAcquire manager_lock :: t ++ [EvRelease manager_lock]).
Proof.
  intros H depth rest; simpl; rewrite <- app_assoc, H; reflexivity.
Qed.

Lemma joins_locked_top (t : Trace) :
  joins_locked t ->
  joins_inside_manager_lock 0 (EvAcquire manager_lock :: t ++ [EvRelease manager_lock])
  = true.
Proof. intros H; simpl; rewrite H; reflexivity. Qed.

Lemma stop_locked (sched : Schedule) (s : CameraStream) :
  joins_locked (trace_of (stop sched s)).
Proof.
  destruct (is_running s) eqn:R.
  - destruct (thread_is_alive s) eqn:A.
    + destruct (stop_running_alive sched s R A) as (s1 & t & _ & W & E).
      rewrite E; unfold trace_of; cbn [snd].
      repeat (apply joins_locked_cons; [reflexivity|]).
      apply joins_locked_worker, (wk_trace _ _ _ W).
    + rewrite (stop_running_dead sched s R A); apply joins_locked_event; reflexivity.
  - rewrite (stop_not_running sched s R); apply joins_locked_event; reflexivity.
Qed.

Lemma worker_trace_no_spawn (t : Trace) :
  forallb is_worker_event t = true -> existsb is_spawn t = false.
Proof.
  induction t as [|e t IH]; intros H; [reflexivity|].
  simpl in H; apply andb_true_iff in H; destruct H as [He Ht].
  simpl; rewrite (IH Ht); destruct e as [[|]|[|]| | | | | |]; simpl in *; congruence.
Qed.

Lemma stop_no_spawn (sched : Schedule) (s : CameraStream) :
  existsb is_spawn (trace_of (stop sched s)) = false.
Proof.
  destruct (is_running s) eqn:R.
  - destruct (thread_is_alive s) eqn:A.
    + destruct (stop_running_alive sched s R A) as (s1 & t & _ & W & E).
      rewrite E; unfold trace_of; cbn [snd]; simpl.
      apply worker_trace_no_spawn, (wk_trace _ _ _ W).
    + rewrite (stop_running_dead sched s R A); reflexivity.
  - rewrite (stop_not_running sched s R); reflexivity.
Qed.

(** ** Loops over the known cameras *)

Lemma known_ids_set_present (m : CameraManager) (k : Z) (s s' : CameraStream) :
  dict_get k (streams m) = Some s ->
  known_ids {| streams := dict_set k s' (streams m) |} = known_ids m.
Proof. intros G; unfold known_ids; simpl; apply (dict_keys_set_present _ _ _ _ G). Qed.

Lemma on_stream_run {A} (P : Trace -> Prop) (k : Z) (method : M CameraStream A)
      (m : CameraManager) :
  In k (known_ids m) ->
  (forall s, exists a s' t, method s = (Ok a, s', t) /\ P t) ->
  exists a m' t,
    on_stream k method m = (Ok a, m', t) /\ known_ids m' = known_ids m /\ P t.
Proof.
  intros K H.
  destruct (dict_get k (streams m)) as [s|] eqn:G.
  2:{ apply known_ids_iff in K; contradiction. }
  destruct (H s) as (a & s' & t & E & Pt).
  exists a, {| streams := dict_set k s' (streams m) |}, t.
  split; [apply (on_stream_known _ _ _ _ _ _ _ G E)|].
  split; [apply (known_ids_set_present _ _ _ _ G) | exact Pt].
Qed.

Lemma for_each_known_run {B} (P : Trace -> Prop) (Q : Z -> B -> Prop)
      (body : Z -> M CameraManager B) :
  P [] -> (forall t1 t2, P t1 -> P t2 -> P (t1 ++ t2)) ->
  (forall k m, In k (known_ids m) ->
     exists b m' t, body k m = (Ok b, m', t) /\ known_ids m' = known_ids m /\
                    P t /\ Q k b) ->
  forall keys m, incl keys (known_ids m) ->
  exists res m' t,
    for_each keys body m = (Ok res, m', t) /\ known_ids m' = known_ids m /\
    P t /\ Forall2 Q keys res.
Proof.
  intros P0 Papp Hb keys; induction keys as [|k keys IH]; intros m Hk.
  - exists [], m, []; repeat split; auto.
  - destruct (Hb k m) as (b & m1 & t1 & E1 & K1 & P1 & Q1); [apply Hk; left; reflexivity|].
    destruct (IH m1) as (res & m' & t' & E' & K' & P' & Q').
    { rewrite K1; intros k' Hk'; apply Hk; right; exact Hk'. }
    exists (b :: res), m', (t1 ++ t' ++ []); split; [|split; [congruence|split]].
    + simpl; unfold bind at 1; rewrite E1; unfold bind at 1; rewrite E'; reflexivity.
    + rewrite app_nil_r; apply Papp; assumption.
    + constructor; assumption.
Qed.

Lemma tagged_keys {B} (keys : list Z) (res : list (Z * B)) :
  Forall2 (fun k b => fst b = k) keys res -> dict_keys res = keys.
Proof. induction 1; simpl; [reflexivity | congruence]. Qed.

(** ** Stopping every camera *)


Lemma run_all_back (scheds : Z -> Schedule) (m : CameraManager) :
  exists m' t,
    run_all scheds m = (Ok tt, m', t) /\
    known_ids m' = known_ids m /\
    forallb is_worker_event t = true /\
    (forall k s, dict_get k (streams m) = Some s ->
       exists s', dict_get k (streams m') = Some s' /\ ticked s s') /\
    (forall k s', dict_get k (streams m') = Some s' ->
       exists s, dict_get k (streams m) = Some s /\ ticked s s').
Proof.
  destruct (run_all_spec scheds m) as (m' & t & E & K & W & T).
  exists m', t; split; [exact E|]; split; [exact K|]; split; [exact W|].
  split; [exact T|].
  intros k s' G'; destruct (dict_get k (streams m)) as [s|] eqn:G.
  - exists s; split; [reflexivity|].
    destruct (T k s G) as (s'' & G'' & T''); congruence.
  - apply dict_get_none_iff in G; rewrite <- K in G.
    apply dict_get_none_iff in G; congruence.
Qed.

Lemma ticked_no_thread_opening (s s' : CameraStream) :
  ticked s s' -> no_thread_opening s = true -> no_thread_opening s' = true.
Proof. intros (sched & ->); apply no_thread_opening_run. Qed.

Lemma ticked_stays_off (s s' : CameraStream) :
  ticked s s' -> stays_off s = true -> stays_off s' = true.
Proof. intros (sched & ->); apply stays_off_run. Qed.

Lemma capturing_no_thread_opening (s : CameraStream) :
  capturing s = true -> no_thread_opening s = true.
Proof.
  unfold capturing, no_thread_opening; intros C.
  apply andb_true_iff in C; destruct C as [_ C].
  destruct (threads s) as [|st older]; [discriminate|].
  apply andb_true_iff in C; destruct C as [L F].
  simpl; rewrite (finished_not_starting older F).
  destruct st; try discriminate; reflexivity.
Qed.

Lemma flag_settled_no_thread_opening (s : CameraStream) :
  flag_settled s = true -> no_thread_opening s = true.
Proof.
  unfold flag_settled; intros H; apply orb_true_iff in H; destruct H as [C|O].
  - apply capturing_no_thread_opening; exact C.
  - apply stays_off_parts in O; destruct O as [_ N]; exact N.
Qed.

(** The running flag of a settled worker does not move under its threads. *)
Lemma ticked_flag_settled (s s' : CameraStream) :
  ticked s s' -> flag_settled s = true ->
  flag_settled s' = true /\ is_running s' = is_running s.
Proof.
  unfold flag_settled; intros (sched & ->) H.
  apply orb_true_iff in H; destruct H as [C|O].
  - pose proof (capturing_run sched s C) as C'; rewrite C'.
    rewrite (capturing_is_running _ C'), (capturing_is_running _ C); auto.
  - pose proof (stays_off_run sched s O) as O'; rewrite O', orb_true_r.
    apply stays_off_parts in O; apply stays_off_parts in O'.
    destruct O as [R _]; destruct O' as [R' _]; rewrite R, R'; auto.
Qed.

(** Once stopped, a worker with no thread left to open the device stays
    off. *)
Lemma stop_stays_off (sched : Schedule) (s : CameraStream) :
  no_thread_opening s = true -> stays_off (state_of (stop sched s)) = true.
Proof.
  intros N; unfold stays_off.
  destruct (is_running s) eqn:R.
  - destruct (thread_is_alive s) eqn:A.
    + destruct (stop_running_alive sched s R A) as (s1 & t & Er & _ & E).
      rewrite E; unfold state_of; cbn [fst snd].
      pose proof (no_thread_opening_run sched (set_shutdown_event true s) N) as N1.
      rewrite Er in N1; exact N1.
    + rewrite (stop_running_dead sched s R A); exact N.
  - rewrite (stop_not_running sched s R); unfold state_of; cbn [fst snd].
    rewrite R; exact N.
Qed.

Section StopLoop.

(** [P] holds of every worker before the loop and is kept by the capture
    threads; [D] is what [stop] makes of [P], kept by the threads too. *)
Variables P D : CameraStream -> Prop.
Hypothesis P_ticked : forall s s', ticked s s' -> P s -> P s'.
Hypothesis D_ticked : forall s s', ticked s s' -> D s -> D s'.
Hypothesis P_stop : forall sched s, P s -> D (state_of (stop sched s)).
Hypothesis D_P : forall s, D s -> P s.

Lemma for_each_stop_spec (scheds : Z -> Schedule) (meanwhile : Z -> Z -> Schedule)
      (keys : list Z) (m : CameraManager) :
  incl keys (known_ids m) ->
  (forall k s, dict_get k (streams m) = Some s -> P s) ->
  exists res m' t,
    for_each keys
      (fun cid =>
         r <- on_stream cid (stop (scheds cid)) ;;
         run_all (meanwhile cid) ;;
         ret (cid, r)) m
    = (Ok res, m', t) /\
    known_ids m' = known_ids m /\
    dict_keys res = keys /\
    joins_locked t /\ existsb is_spawn t = false /\
    (forall k s', dict_get k (streams m') = Some s' -> P s') /\
    (forall k s', In k keys -> dict_get k (streams m') = Some s' -> D s') /\
    (forall k s s', dict_get k (streams m) = Some s -> D s ->
       dict_get k (streams m') = Some s' -> D s') /\
    ((forall s s', ticked s s' -> P s -> is_running s' = is_running s) ->
     NoDup keys ->
     res = map (fun k => (k, match dict_get k (streams m) with
                             | Some s => is_running s
                             | None => false
                             end)) keys).
Proof.
  revert m; induction keys as [|k keys IH]; intros m Hk HP.
  - exists [], m, []; repeat split; auto using joins_locked_nil.
    + intros k s' [].
    + intros k s s' G Ds G'; rewrite G in G'; injection G' as <-; exact Ds.
  - destruct (dict_get k (streams m)) as [s|] eqn:G.
    2:{ exfalso; apply (proj1 (known_ids_iff m k)); [apply Hk; left; reflexivity | exact G]. }
    destruct (stop_spec (scheds k) s) as (s1 & t1 & E1 & _ & _).
    pose proof (P_stop (scheds k) s (HP k s G)) as D1.
    rewrite E1 in D1; unfold state_of in D1; cbn [fst snd] in D1.
    pose (m1 := {| streams := dict_set k s1 (streams m) |}).
    assert (K1 : known_ids m1 = known_ids m) by (apply (known_ids_set_present _ _ _ _ G)).
    assert (G1 : forall k', k' <> k -> dict_get k' (streams m1) = dict_get k' (streams m))
      by (intros k' N; simpl; apply dict_get_set_other; exact N).
    assert (G1k : dict_get k (streams m1) = Some s1) by (simpl; apply dict_get_set_same).
    assert (P1 : forall k' x, dict_get k' (streams m1) = Some x -> P x).
    { intros k' x Gx; destruct (Z.eq_dec k' k) as [->|N].
      - rewrite G1k in Gx; injection Gx as <-; apply D_P; exact D1.
      - rewrite (G1 k' N) in Gx; apply (HP k' x Gx). }
    destruct (run_all_back (meanwhile k) m1) as (m2 & t2 & E2 & K2 & W2 & Fw & Bw).
    assert (P2 : forall k' x, dict_get k' (streams m2) = Some x -> P x).
    { intros k' x Gx; destruct (Bw k' x Gx) as (y & Gy & Ty).
      apply (P_ticked y x Ty), (P1 k' y Gy). }
    destruct (IH m2) as (res & m' & t' & E' & K' & Kr & Lk & Sp & AllP & KeysD & DD & Res).
    { rewrite K2, K1; intros k' Hk'; apply Hk; right; exact Hk'. }
    { exact P2. }
    assert (DD1 : forall k' x s', dict_get k' (streams m1) = Some x -> D x ->
                    dict_get k' (streams m') = Some s' -> D s').
    { intros k' x s' Gx Dx G'; destruct (Fw k' x Gx) as (y & Gy & Ty).
      apply (DD k' y s' Gy); [apply (D_ticked x y Ty Dx) | exact G']. }
    exists ((k, is_running s) :: res), m'; eexists.
    split; [|split; [congruence|split; [simpl; congruence|split; [|split; [|split;
      [exact AllP|split; [|split]]]]]]].
    + simpl; unfold bind at 1 2.
      rewrite (on_stream_known _ _ _ _ _ _ _ G E1); fold m1.
      unfold bind at 1; rewrite E2.
      unfold ret at 1; unfold bind at 1; rewrite E'; reflexivity.
    + rewrite !app_nil_r; repeat apply joins_locked_app; [| |exact Lk].
      * pose proof (stop_locked (scheds k) s) as L; rewrite E1 in L; exact L.
      * apply joins_locked_worker; exact W2.
    + rewrite !app_nil_r, !existsb_app, Sp, (worker_trace_no_spawn _ W2).
      pose proof (stop_no_spawn (scheds k) s) as L; rewrite E1 in L.
      unfold trace_of in L; cbn [snd] in L; rewrite L; reflexivity.
    + intros k' s' [<-|Hk'] G'; [|apply (KeysD k' s' Hk' G')].
      apply (DD1 k s1 s' G1k D1 G').
    + intros k' x s' Gx Dx G'; destruct (Z.eq_dec k' k) as [->|N].
      * apply (DD1 k s1 s' G1k D1 G').
      * apply (DD1 k' x s'); [rewrite (G1 k' N); exact Gx | exact Dx | exact G'].
    + intros Fl ND; apply NoDup_cons_iff in ND; destruct ND as [Nk ND'].
      simpl; rewrite G; f_equal; rewrite (Res Fl ND').
      apply map_ext_in; intros k' Hk'; f_equal.
      assert (N : k' <> k) by (intros ->; contradiction).
      destruct (dict_get k' (streams m)) as [x|] eqn:Gx.
      * rewrite <- (G1 k' N) in Gx; destruct (Fw k' x Gx) as (y & Gy & Ty).
        rewrite Gy; apply (Fl x y Ty), (P1 k' x Gx).
      * rewrite <- (G1 k' N) in Gx.
        destruct (dict_get k' (streams m2)) as [y|] eqn:Gy; [|reflexivity].
        destruct (Bw k' y Gy) as (x & Gx' & _); congruence.
Qed.

Lemma stop_all_cameras_spec (scheds : Z -> Schedule) (meanwhile : Z -> Z -> Schedule)
      (m : CameraManager) :
  (forall k s, dict_get k (streams m) = Some s -> P s) ->
  exists res m' t,
    stop_all_cameras scheds meanwhile m =
      (Ok res, m', EvAcquire manager_lock :: t ++ [EvRelease manager_lock]) /\
    known_ids m' = known_ids m /\
    dict_keys res = known_ids m /\
    joins_locked t /\ existsb is_spawn t = false /\
    (forall k s', dict_get k (streams m') = Some s' -> D s') /\
    ((forall s s', ticked s s' -> P s -> is_running s' = is_running s) ->
     NoDup (known_ids m) ->
     res = map (fun k => (k, match dict_get k (streams m) with
                             | Some s => is_running s
                             | None => false
                             end)) (known_ids m)).
Proof.
  intros HP.
  destruct (for_each_stop_spec scheds meanwhile (known_ids m) m (incl_refl _) HP)
    as (res & m' & t & E & K & Kr & Lk & Sp & _ & KeysD & _ & Res).
  exists res, m', (t ++ [EvLog INFO]).
  split; [|split; [exact K|split; [exact Kr|split; [|split; [|split; [|exact Res]]]]]].
  - unfold stop_all_cameras; unfold_method; unfold known_ids in E; rewrite E; simpl.
    rewrite ?app_nil_r; reflexivity.
  - apply joins_locked_app; [exact Lk | apply joins_locked_event; reflexivity].
  - rewrite existsb_app, Sp; reflexivity.
  - intros k s' G'; apply (KeysD k s'); [|exact G'].
    rewrite <- K; apply known_ids_iff; congruence.
Qed.

End StopLoop.

(** What [stop_all_cameras] does whatever the capture threads do. *)
Lemma stop_all_cameras_always (scheds : Z -> Schedule) (meanwhile : Z -> Z -> Schedule)
      (m : CameraManager) :
  exists res m' t,
    stop_all_cameras scheds meanwhile m =
      (Ok res, m', EvAcquire manager_lock :: t ++ [EvRelease manager_lock]) /\
    known_ids m' = known_ids m /\
    dict_keys res = known_ids m /\
    joins_locked t /\ existsb is_spawn t = false.
Proof.
  destruct (stop_all_cameras_spec (fun _ => True) (fun _ => True)) 
    with (scheds := scheds) (meanwhile := meanwhile) (m := m)
    as (res & m' & t & E & K & Kr & Lk & Sp & _); auto.
  exists res, m', t; auto.
Qed.

Lemma is_camera_running_result (cid : Z) (m : CameraManager) :
  result_of (is_camera_running cid m) =
    Ok (match dict_get cid (streams m) with
        | Some s => is_running s
        | None => false
        end).
Proof.
  destruct (dict_get cid (streams m)) as [s|] eqn:G.
  - rewrite (is_camera_running_known _ _ _ G); reflexivity.
  - rewrite (is_camera_running_unknown _ _ G); reflexivity.
Qed.

(** X5. [stop_all_cameras] never raises and launches no thread; it
    answers with one entry per known camera, in the registry's order, and
    keeps the known ids.  When no worker has a thread that is still
    opening its device, it leaves no camera running, whatever the capture
    threads of all the cameras do meanwhile: [is_camera_running] is false
    afterwards for every id.  A thread that is still opening its device
    escapes it: in [Sample.one_opening_one_capturing] the thread of camera
    2 opens the device while camera 1 is being joined, and camera 2 runs
    when [stop_all_cameras] returns, its entry being false. *)
Theorem stop_all_cameras_stops_every_camera (scheds : Z -> Schedule)
        (meanwhile : Z -> Z -> Schedule) (m : CameraManager) :
  (exists results,
     result_of (stop_all_cameras scheds meanwhile m) = Ok results /\
     dict_keys results = known_ids m) /\
  known_ids (state_of (stop_all_cameras scheds meanwhile m)) = known_ids m /\
  existsb is_spawn (trace_of (stop_all_cameras scheds meanwhile m)) = false /\
  ((forall k s, dict_get k (streams m) = Some s -> no_thread_opening s = true) ->
   forall cid,
     result_of (is_camera_running cid (state_of (stop_all_cameras scheds meanwhile m)))
     = Ok false) /\
  (let after := stop_all_cameras (fun _ => Sample.finishes_read_then_exits)
                  Sample.opens_during_join Sample.one_opening_one_capturing in
   result_of (get_running_cameras Sample.one_opening_one_capturing) = Ok [1%Z] /\
   result_of after = Ok [(2%Z, false); (1%Z, true)] /\
   result_of (is_camera_running 2 (state_of after)) = Ok true).
Proof.
  destruct (stop_all_cameras_always scheds meanwhile m) as (res & m' & t & E & K & Kr & _ & Sp).
  split; [exists res; rewrite E; split; [reflexivity | exact Kr]|].
  split; [rewrite E; exact K|].
  split; [rewrite E; cbn [trace_of snd]; simpl; rewrite existsb_app, Sp; reflexivity|].
  split; [|repeat split; vm_compute; reflexivity].
  intros N cid.
  destruct (stop_all_cameras_spec
              (fun s => no_thread_opening s = true) (fun s => stays_off s = true)
              ticked_no_thread_opening ticked_stays_off stop_stays_off
              (fun s O => proj2 (stays_off_parts s O)) scheds meanwhile m N)
    as (res2 & m2 & t2 & E2 & _ & _ & _ & _ & Off & _).
  rewrite E2; cbn [state_of fst snd]; rewrite is_camera_running_result.
  destruct (dict_get cid (streams m2)) as [s|] eqn:G; [|reflexivity].
  destruct (stays_off_parts s (Off cid s G)) as [R _]; rewrite R; reflexivity.
Qed.

Lemma stop_all_cameras_stops_every_camera_witness :
  (forall k s, dict_get k (streams Sample.running) = Some s ->
               no_thread_opening s = true) /\
  result_of (is_camera_running 1 Sample.running) = Ok true /\
  result_of (is_camera_running 1
    (state_of (stop_all_cameras (fun _ => []) (fun _ _ => Sample.one_failed_pass)
                 Sample.running))) = Ok false.
Proof.
  assert (N : forall k s, dict_get k (streams Sample.running) = Some s ->
                          no_thread_opening s = true).
  { intros k s G.
    assert (E : streams Sample.running = [(1%Z, Sample.running_stream)])
      by (vm_compute; reflexivity).
    rewrite E in G; simpl in G.
    destruct (Z.eqb k 1); [injection G as <-; reflexivity | discriminate G]. }
  destruct (stop_all_cameras_stops_every_camera (fun _ => [])
              (fun _ _ => Sample.one_failed_pass) Sample.running) as (_ & _ & _ & H & _).
  split; [exact N|]; split; [vm_compute; reflexivity | apply (H N)].
Defined.

(** ** Which cameras run *)

Section DictEntries.

Context {V : Type}.
Implicit Types (d : Dict V) (k : Z) (v : V).

Lemma dict_get_in d k v : dict_get k d = Some v -> In (k, v) d.
Proof.
  induction d as [|[k' v'] d IH]; simpl; [discriminate|].
  destruct (Z.eqb k k') eqn:E; intros H.
  - apply Z.eqb_eq in E; injection H as <-; left; congruence.
  - right; apply IH; exact H.
Qed.

Lemma in_dict_get d k v :
  NoDup (dict_keys d) -> In (k, v) d -> dict_get k d = Some v.
Proof.
  induction d as [|[k' v'] d IH]; simpl; intros ND H; [contradiction|].
  apply NoDup_cons_iff in ND; destruct ND as [Nk ND].
  destruct H as [H|H].
  - injection H as -> ->; rewrite Z.eqb_refl; reflexivity.
  - destruct (Z.eqb k k') eqn:E; [|apply IH; assumption].
    apply Z.eqb_eq in E; subst k'; exfalso; apply Nk.
    change k with (fst (k, v)); apply in_map; exact H.
Qed.

Lemma filter_keys_nodup d (f : Z * V -> bool) :
  NoDup (dict_keys d) -> NoDup (dict_keys (filter f d)).
Proof.
  induction d as [|[k v] d IH]; simpl; intros ND; [constructor|].
  apply NoDup_cons_iff in ND; destruct ND as [Nk ND].
  destruct (f (k, v)); simpl; [|apply IH; exact ND].
  constructor; [|apply IH; exact ND].
  intros H; apply Nk; unfold dict_keys in *.
  apply in_map_iff in H; destruct H as ((k0 & v0) & E & H); simpl in E; subst k0.
  apply filter_In in H; destruct H as [H _].
  change k with (fst (k, v0)); apply in_map; exact H.
Qed.

Lemma filter_keys d (g : Z -> bool) :
  filter g (dict_keys d) = dict_keys (filter (fun item => g (fst item)) d).
Proof.
  induction d as [|[k v] d IH]; simpl; [reflexivity|].
  destruct (g k); simpl; rewrite IH; reflexivity.
Qed.

End DictEntries.

Lemma get_running_cameras_run (m : CameraManager) :
  get_running_cameras m =
    (Ok (dict_keys (filter (fun item => is_running (snd item)) (streams m))), m,
     [EvAcquire manager_lock; EvRelease manager_lock]).
Proof. reflexivity. Qed.

(** The known ids whose worker is running, in the registry's order. *)
Lemma running_ids_in_order (d : Dict CameraStream) :
  NoDup (dict_keys d) ->
  dict_keys (filter (fun item => is_running (snd item)) d) =
  filter (fun cid => match dict_get cid d with
                     | Some s => is_running s
                     | None => false
                     end) (dict_keys d).
Proof.
  intros ND; rewrite filter_keys; f_equal.
  apply filter_ext_in; intros (k & s) H; simpl.
  rewrite (in_dict_get _ _ _ ND H); reflexivity.
Qed.

(** X6. [get_running_cameras] changes nothing and lists, each once and in
    the registry's order, exactly the ids for which [is_camera_running]
    answers true: its answer is the list of known ids with the ids of the
    workers that are not running struck out. *)
Theorem get_running_cameras_agrees (m : CameraManager) :
  NoDup (known_ids m) ->
  exists ids,
    get_running_cameras m =
      (Ok ids, m, [EvAcquire manager_lock; EvRelease manager_lock]) /\
    (forall cid, In cid ids <-> result_of (is_camera_running cid m) = Ok true) /\
    NoDup ids /\
    incl ids (known_ids m) /\
    ids = filter (fun cid => match dict_get cid (streams m) with
                             | Some s => is_running s
                             | None => false
                             end) (known_ids m).
Proof.
  intros ND; eexists; split; [apply get_running_cameras_run|].
  split; [|split; [|split]].
  - intros cid; rewrite is_camera_running_result; unfold dict_keys; split.
    + intros H; apply in_map_iff in H; destruct H as ((k & s) & E & H).
      simpl in E; subst k; apply filter_In in H; destruct H as [H R]; simpl in R.
      rewrite (in_dict_get _ _ _ ND H), R; reflexivity.
    + destruct (dict_get cid (streams m)) as [s|] eqn:G; [|discriminate].
      intros H; injection H as R.
      apply in_map_iff; exists (cid, s); split; [reflexivity|].
      apply filter_In; split; [apply dict_get_in; exact G | exact R].
  - apply filter_keys_nodup; exact ND.
  - intros k H; unfold known_ids, dict_keys in *.
    apply in_map_iff in H; destruct H as (item & E & H).
    apply filter_In in H; destruct H as [H _].
    rewrite <- E; apply in_map; exact H.
  - apply running_ids_in_order; exact ND.
Qed.

Lemma get_running_cameras_agrees_witness :
  NoDup (known_ids Sample.one_opening_one_capturing) /\
  known_ids Sample.one_opening_one_capturing = [2%Z; 1%Z] /\
  result_of (get_running_cameras Sample.one_opening_one_capturing) = Ok [1%Z] /\
  result_of (is_camera_running 1 Sample.one_opening_one_capturing) = Ok true /\
  result_of (get_running_cameras
    (state_of (start_camera DbFails Sample.opens_and_reads 2
                 Sample.one_opening_one_capturing))) = Ok [2%Z; 1%Z].
Proof.
  assert (K : known_ids Sample.one_opening_one_capturing = [2%Z; 1%Z])
    by (vm_compute; reflexivity).
  assert (ND : NoDup (known_ids Sample.one_opening_one_capturing)).
  { rewrite K; constructor; [simpl; intros [H|[]]; discriminate H|].
    constructor; [simpl; tauto | constructor]. }
  destruct (get_running_cameras_agrees Sample.one_opening_one_capturing ND)
    as (ids & E & H & _ & _ & O).
  split; [exact ND|]; split; [exact K|].
  assert (Ei : ids = [1%Z]) by (rewrite O; vm_compute; reflexivity).
  subst ids; split; [rewrite E; reflexivity|].
  split; [apply H; left; reflexivity | vm_compute; reflexivity].
Defined.

Lemma flags_of_entries (d : Dict CameraStream) :
  NoDup (dict_keys d) ->
  map (fun k => (k, match dict_get k d with
                    | Some s => is_running s
                    | None => false
                    end)) (dict_keys d)
  = map (fun item => (fst item, is_running (snd item))) d.
Proof.
  intros ND; unfold dict_keys; rewrite map_map.
  apply map_ext_in; intros (k & s) H; simpl.
  rewrite (in_dict_get _ _ _ ND H); reflexivity.
Qed.

Lemma count_true_flags (d : Dict CameraStream) :
  count_true (map (fun item => (fst item, is_running (snd item))) d)
  = List.length (dict_keys (filter (fun item => is_running (snd item)) d)).
Proof.
  unfold count_true, dict_keys; rewrite length_map.
  induction d as [|(k & s) d IH]; simpl; [reflexivity|].
  destruct (is_running s); simpl; rewrite IH; reflexivity.
Qed.

Lemma dict_get_flags (d : Dict CameraStream) (k : Z) :
  dict_get k (map (fun item => (fst item, is_running (snd item))) d)
  = option_map is_running (dict_get k d).
Proof.
  induction d as [|(k' & s) d IH]; simpl; [reflexivity|].
  destruct (Z.eqb k k'); [reflexivity | exact IH].
Qed.

Lemma none_running (d : Dict CameraStream) :
  (forall k s, In (k, s) d -> is_running s = false) ->
  filter (fun item => is_running (snd item)) d = [].
Proof.
  induction d as [|(k & s) d IH]; intros H; simpl; [reflexivity|].
  rewrite (H k s (or_introl eq_refl)); apply IH.
  intros k' s' I; apply (H k' s'); right; exact I.
Qed.

(** What [stop_all_cameras] answers and leaves when the running flag of
    every worker is settled. *)
Lemma stop_all_cameras_settled (scheds : Z -> Schedule) (meanwhile : Z -> Z -> Schedule)
      (m : CameraManager) :
  NoDup (known_ids m) ->
  (forall k s, dict_get k (streams m) = Some s -> flag_settled s = true) ->
  exists m' t,
    stop_all_cameras scheds meanwhile m =
      (Ok (map (fun item => (fst item, is_running (snd item))) (streams m)), m', t) /\
    known_ids m' = known_ids m /\
    (forall k s', dict_get k (streams m') = Some s' -> is_running s' = false).
Proof.
  intros ND St.
  destruct (stop_all_cameras_spec
              (fun s => flag_settled s = true) (fun s => stays_off s = true)
              (fun s s' T H => proj1 (ticked_flag_settled s s' T H))
              ticked_stays_off
              (fun sched s H => stop_stays_off sched s (flag_settled_no_thread_opening s H))
              (fun s (O : stays_off s = true) =>
                 eq_trans (f_equal (orb (capturing s)) O) (orb_true_r _))
              scheds meanwhile m St)
    as (res & m' & t & E & K & _ & _ & _ & Off & Res).
  specialize (Res (fun s s' T H => proj2 (ticked_flag_settled s s' T H)) ND).
  unfold known_ids in Res; rewrite (flags_of_entries _ ND) in Res; subst res.
  do 2 eexists; split; [exact E|]; split; [exact K|].
  intros k s' G; destruct (stays_off_parts s' (Off k s' G)) as [R _]; exact R.
Qed.

(** X7. When the running flag of every worker is settled (the worker
    captures, or it is not running and none of its threads is still opening
    the device), the answer of [stop_all_cameras] tells which cameras it
    stopped, whatever the capture threads of all the cameras do meanwhile:
    the entry of a camera is the running flag it had before the call, so
    the number of true entries is the number of cameras that
    [get_running_cameras] listed before, and the number of entries is the
    number of known cameras.  Afterwards [get_running_cameras] lists
    nothing. *)
Theorem stop_all_cameras_counts (scheds : Z -> Schedule) (meanwhile : Z -> Z -> Schedule)
        (m : CameraManager) :
  NoDup (known_ids m) ->
  (forall k s, dict_get k (streams m) = Some s -> flag_settled s = true) ->
  exists results running_before,
    result_of (stop_all_cameras scheds meanwhile m) = Ok results /\
    result_of (get_running_cameras m) = Ok running_before /\
    (forall cid, dict_get cid results =
                 option_map is_running (dict_get cid (streams m))) /\
    count_true results = List.length running_before /\
    List.length results = List.length (known_ids m) /\
    result_of (get_running_cameras (state_of (stop_all_cameras scheds meanwhile m)))
    = Ok [].
Proof.
  intros ND St.
  destruct (stop_all_cameras_settled scheds meanwhile m ND St) as (m' & t & E & K & Off).
  do 2 eexists; rewrite E; cbn [state_of fst snd].
  split; [reflexivity|]; split; [rewrite get_running_cameras_run; reflexivity|].
  split; [intros cid; apply dict_get_flags|].
  split; [apply count_true_flags|].
  split; [unfold known_ids, dict_keys; rewrite !length_map; reflexivity|].
  rewrite get_running_cameras_run; unfold result_of; cbn [fst].
  rewrite none_running; [reflexivity|].
  intros k s I; apply (Off k); apply in_dict_get; [|exact I].
  change (NoDup (known_ids m')); rewrite K; exact ND.
Qed.

Lemma running_settled :
  forall k s, dict_get k (streams Sample.running) = Some s -> flag_settled s = true.
Proof.
  intros k s G.
  assert (E : streams Sample.running = [(1%Z, Sample.running_stream)])
    by (vm_compute; reflexivity).
  rewrite E in G; simpl in G.
  destruct (Z.eqb k 1); [injection G as <-; reflexivity | discriminate G].
Qed.

Lemma running_nodup : NoDup (known_ids Sample.running).
Proof.
  assert (E : known_ids Sample.running = [1%Z]) by (vm_compute; reflexivity).
  rewrite E; repeat constructor; simpl; tauto.
Qed.

Lemma stop_all_cameras_counts_witness :
  NoDup (known_ids Sample.running) /\
  (forall k s, dict_get k (streams Sample.running) = Some s -> flag_settled s = true) /\
  result_of (stop_all_cameras (fun _ => Sample.finishes_read_then_exits)
               (fun _ _ => Sample.one_failed_pass) Sample.running)
    = Ok [(1%Z, true)] /\
  result_of (get_running_cameras Sample.running) = Ok [1%Z] /\
  result_of (get_running_cameras (state_of
    (stop_all_cameras (fun _ => Sample.finishes_read_then_exits)
       (fun _ _ => Sample.one_failed_pass) Sample.running)))
    = Ok [].
Proof.
  destruct (stop_all_cameras_counts (fun _ => Sample.finishes_read_then_exits)
              (fun _ _ => Sample.one_failed_pass) Sample.running
              running_nodup running_settled) as (res & before & _ & _ & _ & _ & _ & H).
  split; [exact running_nodup|]; split; [exact running_settled|].
  split; [vm_compute; reflexivity|].
  split; [vm_compute; reflexivity | exact H].
Defined.

(** ** Refresh *)









(** ** Status of every camera *)

Lemma get_stream_info_run (now1 now2 : Time) (s : CameraStream) :
  exists info, get_stream_info now1 now2 s = (Ok info, s, []).
Proof.
  unfold get_stream_info, py_truediv; unfold_method.
  match goal with
  | |- context [Qlt_bool 0 ?u] => destruct (Qlt_bool 0 u) eqn:P
  end.
  - rewrite (Qlt_bool_pos_nonzero _ P); simpl; eexists; reflexivity.
  - simpl; eexists; reflexivity.
Qed.

Lemma get_camera_status_known (now1 now2 : Time) (cid : Z) (m : CameraManager)
      (s : CameraStream) (info : StatusSnapshot) :
  dict_get cid (streams m) = Some s ->
  get_stream_info now1 now2 s = (Ok info, s, []) ->
  get_camera_status now1 now2 cid m =
    (Ok (Some info), m, [EvAcquire manager_lock; EvRelease manager_lock]).
Proof.
  intros G E; unfold get_camera_status; unfold_method.
  rewrite (dict_contains_get _ _ _ G); simpl.
  rewrite (on_stream_known _ _ _ _ _ _ _ G E), (dict_set_get_id _ _ _ G), manager_eta.
  reflexivity.
Qed.

Lemma for_each_status_spec (nows : Z -> Time * Time) (keys : list Z) (m : CameraManager) :
  incl keys (known_ids m) ->
  exists res,
    for_each keys
      (fun cid =>
         info <- on_stream cid (get_stream_info (fst (nows cid)) (snd (nows cid))) ;;
         ret (cid, info)) m
    = (Ok res, m, []) /\
    dict_keys res = keys /\
    (forall k, In k keys ->
       result_of (get_camera_status (fst (nows k)) (snd (nows k)) k m)
       = Ok (dict_get k res)) /\
    (forall k, ~ In k keys -> dict_get k res = None).
Proof.
  induction keys as [|k keys IH]; intros Hk.
  - exists []; repeat split; auto; intros k [].
  - destruct (dict_get k (streams m)) as [s|] eqn:G.
    2:{ exfalso; apply (proj1 (known_ids_iff m k)); [apply Hk; left; reflexivity | exact G]. }
    destruct (get_stream_info_run (fst (nows k)) (snd (nows k)) s) as (info & E).
    destruct IH as (res & E' & Kr & Hin & Hout).
    { intros k' Hk'; apply Hk; right; exact Hk'. }
    exists ((k, info) :: res); split; [|split; [simpl; congruence|split]].
    + simpl; unfold bind at 1 2.
      rewrite (on_stream_known _ _ _ _ _ _ _ G E), (dict_set_get_id _ _ _ G), manager_eta.
      unfold ret at 1; unfold bind at 1; rewrite E'; reflexivity.
    + intros k' Hk'; simpl.
      destruct (Z.eqb k' k) eqn:Ek.
      * apply Z.eqb_eq in Ek; subst k'.
        rewrite (get_camera_status_known _ _ _ _ _ _ G E); reflexivity.
      * apply Z.eqb_neq in Ek; destruct Hk' as [<-|Hk']; [congruence|].
        apply Hin; exact Hk'.
    + intros k' N; simpl.
      destruct (Z.eqb k' k) eqn:Ek.
      * apply Z.eqb_eq in Ek; subst k'; exfalso; apply N; left; reflexivity.
      * apply Hout; intros I; apply N; right; exact I.
Qed.

(** X8. [get_all_camera_status] never raises and changes nothing; it has
    one snapshot per known camera, in the registry's order, and for every
    id, known or not, looking the id up in its answer gives what
    [get_camera_status] answers for that id at the same clock readings. *)
Theorem get_all_camera_status_pointwise (nows : Z -> Time * Time) (m : CameraManager) :
  exists all,
    get_all_camera_status nows m =
      (Ok all, m, [EvAcquire manager_lock; EvRelease manager_lock]) /\
    dict_keys all = known_ids m /\
    (forall cid,
       result_of (get_camera_status (fst (nows cid)) (snd (nows cid)) cid m)
       = Ok (dict_get cid all)).
Proof.
  destruct (for_each_status_spec nows (known_ids m) m (incl_refl _))
    as (res & E & Kr & Hin & Hout).
  exists res; split; [|split; [exact Kr|]].
  - unfold get_all_camera_status; unfold_method.
    unfold known_ids in E; rewrite E; reflexivity.
  - intros cid; destruct (in_dec Z.eq_dec cid (known_ids m)) as [I|I].
    + apply Hin; exact I.
    + rewrite (Hout cid I).
      apply dict_get_none_iff in I.
      rewrite (get_camera_status_unknown _ _ _ _ I); reflexivity.
Qed.

(** ** Initialising twice *)

Lemma for_each_initialize_known (rows : list CameraConfig) (m : CameraManager) :
  (forall c, In c rows -> dict_get (cfg_id c) (streams m) <> None) ->
  exists res, for_each rows initialize_one m = (Ok res, m, []).
Proof.
  induction rows as [|c rows IH]; intros H; [exists []; reflexivity|].
  destruct IH as (res & E); [intros c' Hc'; apply H; right; exact Hc'|].
  exists (tt :: res); simpl; unfold initialize_one at 1; unfold_method.
  destruct (dict_get (cfg_id c) (streams m)) as [s|] eqn:G.
  - rewrite (dict_contains_get _ _ _ G); simpl; rewrite E; reflexivity.
  - exfalso; apply (H c); [left; reflexivity | exact G].
Qed.

Lemma for_each_initialize_prefix (rows : list CameraConfig) (m : CameraManager) :
  exists added,
    known_ids (state_of (for_each rows initialize_one m)) = known_ids m ++ added /\
    forallb is_worker_event (trace_of (for_each rows initialize_one m)) = true.
Proof.
  revert m; induction rows as [|c rows IH]; intros m.
  - exists []; simpl; rewrite app_nil_r; split; reflexivity.
  - destruct (for_each_initialize_run rows m) as (res0 & m0 & t0 & E0 & _).
    destruct (dict_get (cfg_id c) (streams m)) as [s|] eqn:G.
    + destruct (IH m) as (added & K & W); exists added.
      simpl; unfold initialize_one at 1 3; unfold_method.
      rewrite (dict_contains_get _ _ _ G); simpl.
      rewrite E0 in *; simpl in *; rewrite app_nil_r; split; assumption.
    + pose (m1 := {| streams := dict_set (cfg_id c) (CameraStream_init c) (streams m) |}).
      destruct (for_each_initialize_run rows m1) as (res1 & m1' & t1 & E1 & _).
      destruct (IH m1) as (added & K & W); exists (cfg_id c :: added).
      simpl; unfold initialize_one at 1 3; unfold_method.
      rewrite (dict_contains_none _ _ G); simpl; fold m1.
      rewrite E1 in *; simpl in *; rewrite app_nil_r; split; [|exact W].
      rewrite K; unfold known_ids, m1; simpl.
      rewrite (dict_keys_set_absent _ _ _ G), <- app_assoc; reflexivity.
Qed.

Lemma initialize_cameras_unfold (pull : DbResult) (m : CameraManager)
      (c : CameraConfig) (rows : list CameraConfig) :
  pulled pull = c :: rows ->
  exists t0,
    forallb is_worker_event t0 = true /\
    initialize_cameras pull m =
      (Ok true, state_of (for_each (c :: rows) initialize_one m),
       EvAcquire manager_lock ::
         (t0 ++ trace_of (for_each (c :: rows) initialize_one m) ++ [EvLog INFO]) ++
         [EvRelease manager_lock]).
Proof.
  intros P.
  destruct (for_each_initialize_run (c :: rows) m) as (res & m' & t & E & _).
  destruct pull as [rows0|]; simpl in P; [subst rows0|discriminate].
  unfold initialize_cameras, load_camera_configs, get_camera_configs; unfold_method.
  rewrite E; exists []; split; [reflexivity|].
  simpl; rewrite ?app_nil_r; reflexivity.
Qed.

(** X9. [initialize_cameras] only adds. With a pull that brings at least
    one configuration it answers true, keeps every worker the registry
    already holds exactly as it is (running or not, with its frame and
    counters), appends a new worker for each pulled id it did not know, and
    leaves the old ids in front and in order.  Calling it again with the
    same pull changes nothing. *)
Theorem initialize_cameras_keeps_workers (pull : DbResult) (m : CameraManager) :
  pulled pull <> [] ->
  let after := initialize_cameras pull m in
  result_of after = Ok true /\
  (forall k s, dict_get k (streams m) = Some s ->
               dict_get k (streams (state_of after)) = Some s) /\
  (forall k, dict_get k (streams m) = None ->
             dict_get k (streams (state_of after)) =
             option_map CameraStream_init (find_config k (pulled pull))) /\
  (exists added, known_ids (state_of after) = known_ids m ++ added) /\
  state_of (initialize_cameras pull (state_of after)) = state_of after.
Proof.
  intros P after.
  destruct (initialize_cameras_rows pull m P) as (m' & t & E & D & _).
  destruct (pulled pull) as [|c rows] eqn:Rows; [congruence|].
  destruct (initialize_cameras_unfold pull m c rows Rows) as (t0 & _ & U).
  assert (Em : m' = state_of (for_each (c :: rows) initialize_one m)) by congruence.
  unfold after; rewrite E; cbn [result_of state_of fst snd].
  split; [reflexivity|]; split; [|split; [|split]].
  - intros k s G; rewrite D, G; reflexivity.
  - intros k G; rewrite D, G; reflexivity.
  - destruct (for_each_initialize_prefix (c :: rows) m) as (added & K & _).
    exists added; rewrite Em; exact K.
  - destruct (initialize_cameras_unfold pull m' c rows Rows) as (t1 & _ & U').
    rewrite U'; cbn [fst snd].
    destruct (for_each_initialize_known (c :: rows) m') as (res & R).
    + intros c' Hc'; rewrite D.
      destruct (dict_get (cfg_id c') (streams m)); [discriminate|].
      destruct (find_config (cfg_id c') (c :: rows)) eqn:F; [discriminate|].
      apply find_config_none_iff in F; exfalso; apply F, in_map; exact Hc'.
    + rewrite R; reflexivity.
Qed.

Lemma initialize_cameras_keeps_workers_witness :
  pulled (DbRows [Sample.front; Sample.back]) <> [] /\
  known_ids (state_of (initialize_cameras (DbRows [Sample.front; Sample.back])
                         Sample.running)) = [1%Z; 2%Z] /\
  dict_get 1 (streams (state_of (initialize_cameras (DbRows [Sample.front; Sample.back])
                         Sample.running))) = Some Sample.running_stream.
Proof.
  assert (P : pulled (DbRows [Sample.front; Sample.back]) <> []) by discriminate.
  destruct (initialize_cameras_keeps_workers (DbRows [Sample.front; Sample.back])
              Sample.running P) as (_ & H2 & _ & _ & _).
  split; [exact P|]; split; [vm_compute; reflexivity|].
  apply H2; vm_compute; reflexivity.
Defined.

(** ** Starting every camera *)

Lemma sleep_all_run (scheds : Z -> Schedule) (m : CameraManager) :
  exists m' t, sleep_all scheds m = (Ok tt, m', t) /\ known_ids m' = known_ids m.
Proof.
  destruct (for_each_known_run (fun _ => True) (fun _ (_ : unit) => True)
              (fun cid => on_stream cid (run_threads (scheds cid))))
    with (keys := known_ids m) (m := m) as (res & m' & t & E & K & _); auto.
  - intros k m0 I.
    destruct (on_stream_run (fun _ => True) k (run_threads (scheds k)) m0 I)
      as (a & m1 & t1 & E1 & K1 & _).
    + intros s; destruct (run_threads_spec (scheds k) s) as (s' & t' & E' & _).
      exists tt, s', t'; auto.
    + exists a, m1, t1; auto.
  - apply incl_refl.
  - unfold sleep_all; unfold_method; unfold known_ids in E; rewrite E.
    do 2 eexists; split; [reflexivity | exact K].
Qed.

Lemma initialize_cameras_empty_trace (pull : DbResult) (m : CameraManager) :
  pulled pull = [] ->
  existsb is_spawn (trace_of (initialize_cameras pull m)) = false.
Proof.
  destruct pull as [[|c rows]|]; intros P; try discriminate P; reflexivity.
Qed.

Lemma start_all_loop_run (scheds : Z -> Schedule) (staggers : Z -> Z -> Schedule)
      (m : CameraManager) :
  exists res m' t,
    for_each (dict_keys (streams m))
      (fun cid =>
         r <- on_stream cid (start (scheds cid)) ;;
         sleep_all (staggers cid) ;;
         ret (cid, r)) m
    = (Ok res, m', t) /\
    known_ids m' = known_ids m /\ dict_keys res = known_ids m.
Proof.
  destruct (for_each_known_run (fun _ => True) (fun k (b : Z * bool) => fst b = k)
              (fun cid =>
                 r <- on_stream cid (start (scheds cid)) ;;
                 sleep_all (staggers cid) ;;
                 ret (cid, r)))
    with (keys := known_ids m) (m := m) as (res & m' & t & E & K & _ & Q); auto.
  - intros k m0 I.
    destruct (on_stream_run (fun _ => True) k (start (scheds k)) m0 I)
      as (a & m1 & t1 & E1 & K1 & _).
    + intros s; destruct (start_spec (scheds k) s) as (b & s' & t' & E' & _).
      exists b, s', t'; auto.
    + destruct (sleep_all_run (staggers k) m1) as (m2 & t2 & E2 & K2).
      exists (k, a), m2; eexists; unfold_method; rewrite E1, E2.
      split; [reflexivity|]; split; [congruence | auto].
  - apply incl_refl.
  - exists res, m', t; split; [exact E|]; split; [exact K|].
    apply tagged_keys; exact Q.
Qed.

(** X10. [start_all_cameras] never raises and answers with one entry per
    camera the registry knows when it returns, in the registry's order.  A
    registry that already knows a camera keeps its ids and does not consult
    the configuration source; an empty registry takes exactly the pulled
    ids, and with an empty pull stays empty, answers no entry and launches
    no thread. *)
Theorem start_all_cameras_entries (pull : DbResult) (scheds : Z -> Schedule)
        (staggers : Z -> Z -> Schedule) (m : CameraManager) :
  let after := start_all_cameras pull scheds staggers m in
  (exists results,
     result_of after = Ok results /\
     dict_keys results = known_ids (state_of after)) /\
  (streams m <> [] ->
   known_ids (state_of after) = known_ids m /\
   after = start_all_cameras DbFails scheds staggers m) /\
  (streams m = [] ->
   forall k, In k (known_ids (state_of after)) <-> In k (map cfg_id (pulled pull))) /\
  (streams m = [] -> pulled pull = [] ->
   result_of after = Ok [] /\ state_of after = m /\
   existsb is_spawn (trace_of after) = false).
Proof.
  intros after.
  destruct (streams m) as [|[k0 s0] d] eqn:S.
  - (* an empty registry: initialise first *)
    assert (I : exists b m1 t1,
      initialize_cameras pull m = (Ok b, m1, t1) /\
      (forall k, In k (known_ids m1) <-> In k (map cfg_id (pulled pull))) /\
      (pulled pull = [] -> m1 = m /\ existsb is_spawn t1 = false)).
    { destruct (pulled pull) as [|c rows] eqn:P.
      - destruct (initialize_cameras_empty pull m P) as (t1 & E1).
        exists false, m, t1; split; [exact E1|]; split.
        + intros k; unfold known_ids; rewrite S; simpl; tauto.
        + intros _; split; [reflexivity|].
          pose proof (initialize_cameras_empty_trace pull m P) as Sp.
          rewrite E1 in Sp; exact Sp.
      - destruct (initialize_cameras_rows pull m) as (m1 & t1 & E1 & D & _);
          [congruence|].
        exists true, m1, t1; split; [exact E1|]; split; [|intros; congruence].
        intros k; rewrite known_ids_iff, D, S, P; cbn [dict_get].
        destruct (find_config k (c :: rows)) as [c'|] eqn:F; cbn [option_map].
        + split; [intros _ | discriminate].
          apply find_config_some in F; destruct F as [F1 F2].
          rewrite <- F2; apply in_map; exact F1.
        + apply find_config_none_iff in F; split; [congruence | contradiction]. }
    destruct I as (b & m1 & t1 & E1 & Ids & Empty).
    destruct (start_all_loop_run scheds staggers m1) as (res & m' & t & E & K & Kr).
    assert (U : after = (Ok res, m',
                EvAcquire manager_lock :: ((t1 ++ []) ++ t ++ [EvLog INFO] ++ []) ++
                  [EvRelease manager_lock])).
    { unfold after, start_all_cameras; unfold_method; rewrite S, E1.
      cbv beta iota; rewrite E; reflexivity. }
    rewrite U; cbn [result_of state_of trace_of fst snd].
    split; [exists res; split; [reflexivity | congruence]|].
    split; [intros N; congruence|].
    split; [intros _ k; rewrite K; apply Ids|].
    intros _ P; destruct (Empty P) as [-> Sp].
    revert E; unfold known_ids; rewrite S; simpl; unfold ret; intros E.
    injection E as <- <- <-; simpl.
    rewrite !existsb_app, Sp; auto.
  - (* a registry with cameras: no pull *)
    destruct (start_all_loop_run scheds staggers m) as (res & m' & t & E & K & Kr).
    assert (U : forall p, start_all_cameras p scheds staggers m =
                (Ok res, m',
                 EvAcquire manager_lock :: ([] ++ t ++ [EvLog INFO] ++ []) ++
                   [EvRelease manager_lock])).
    { intros p; unfold start_all_cameras; unfold_method; rewrite S.
      cbv beta iota; rewrite E; reflexivity. }
    unfold after; rewrite (U pull); cbn [result_of state_of trace_of fst snd].
    split; [exists res; split; [reflexivity | congruence]|].
    split; [intros _; split; [exact K | rewrite (U DbFails); reflexivity]|].
    split; intros N; discriminate N.
Qed.

Lemma start_all_cameras_entries_witness :
  streams Sample.running <> [] /\
  streams CameraManager_init = [] /\
  known_ids (state_of (start_all_cameras (DbRows [Sample.back])
                         (fun _ => []) (fun _ _ => []) Sample.running)) = [1%Z] /\
  (In 2%Z (known_ids (state_of (start_all_cameras (DbRows [Sample.back])
                         (fun _ => Sample.opens_and_reads) (fun _ _ => [])
                         CameraManager_init)))) /\
  result_of (start_all_cameras DbFails (fun _ => Sample.opens_and_reads)
               (fun _ _ => []) CameraManager_init) = Ok [].
Proof.
  assert (N : streams Sample.running <> []) by (vm_compute; discriminate).
  destruct (start_all_cameras_entries (DbRows [Sample.back]) (fun _ => [])
              (fun _ _ => []) Sample.running) as (_ & H2 & _ & _).
  destruct (start_all_cameras_entries (DbRows [Sample.back])
              (fun _ => Sample.opens_and_reads) (fun _ _ => [])
              CameraManager_init) as (_ & _ & H3 & _).
  destruct (start_all_cameras_entries DbFails (fun _ => Sample.opens_and_reads)
              (fun _ _ => []) CameraManager_init) as (_ & _ & _ & H4).
  split; [exact N|]; split; [reflexivity|]; split; [|split].
  - destruct (H2 N) as [K _]; rewrite K; vm_compute; reflexivity.
  - apply (H3 eq_refl); left; reflexivity.
  - apply (H4 eq_refl eq_refl).
Defined.

(** ** Shutting the registry down *)

Lemma join_if_alive_run (sched : Schedule) (s : CameraStream) :
  exists a s' t,
    (s0 <- get ;; if thread_is_alive s0 then join sched else ret tt) s
    = (Ok a, s', t) /\ joins_locked t.
Proof.
  unfold join; unfold_method.
  destruct (thread_is_alive s).
  - destruct (run_threads_spec sched s) as (s' & t & E & W).
    rewrite E; do 3 eexists; split; [reflexivity|].
    simpl; apply joins_locked_cons; [reflexivity|].
    apply joins_locked_worker, (wk_trace _ _ _ W).
  - do 3 eexists; split; [reflexivity | apply joins_locked_nil].
Qed.

Lemma shutdown_run (scheds joins : Z -> Schedule) (meanwhile later : Z -> Z -> Schedule)
      (m : CameraManager) :
  exists t,
    shutdown scheds joins meanwhile later m =
      (Ok tt, CameraManager_init,
       EvLog INFO :: (EvAcquire manager_lock :: t ++ [EvRelease manager_lock]) ++
       [EvLog INFO]) /\
    joins_locked t.
Proof.
  destruct (stop_all_cameras_always scheds meanwhile m)
    as (res & m1 & t1 & E1 & _ & _ & L1 & _).
  destruct (for_each_known_run joins_locked (fun _ (_ : unit) => True)
              (fun cid =>
                 on_stream cid
                   (s <- get ;; if thread_is_alive s then join (joins cid) else ret tt) ;;
                 run_all (later cid)))
    with (keys := known_ids m1) (m := m1) as (res2 & m2 & t2 & E2 & _ & L2 & _).
  - apply joins_locked_nil.
  - apply joins_locked_app.
  - intros k m0 Hk.
    destruct (on_stream_run joins_locked k
                (s <- get ;; if thread_is_alive s then join (joins k) else ret tt) m0 Hk)
      as (a & m' & t & E & K & L).
    + intros s; destruct (join_if_alive_run (joins k) s) as (a & s' & t & E & L).
      exists a, s', t; auto.
    + destruct (run_all_back (later k) m') as (m'' & t' & E' & K' & W' & _).
      exists tt, m'', (t ++ t'); unfold bind at 1; rewrite E, E'.
      split; [reflexivity|]; split; [congruence|]; split; [|exact I].
      apply joins_locked_app; [exact L | apply joins_locked_worker; exact W'].
  - apply incl_refl.
  - exists ((EvAcquire manager_lock :: t1 ++ [EvRelease manager_lock]) ++ t2).
    split.
    + unfold shutdown; unfold_method; rewrite E1.
      cbv beta iota; unfold known_ids in E2; rewrite E2; simpl.
      rewrite ?app_nil_r; reflexivity.
    + apply joins_locked_app; [apply joins_locked_with_lock; exact L1 | exact L2].
Qed.

(** X11. [shutdown] never raises, whatever the capture threads do while
    they are joined, and leaves an empty registry: afterwards no id is
    known, no camera is reported running and no frame is served. *)
Theorem shutdown_empties_registry (scheds joins : Z -> Schedule)
        (meanwhile later : Z -> Z -> Schedule) (m : CameraManager) :
  result_of (shutdown scheds joins meanwhile later m) = Ok tt /\
  state_of (shutdown scheds joins meanwhile later m) = CameraManager_init /\
  known_ids (state_of (shutdown scheds joins meanwhile later m)) = [] /\
  (forall cid,
     result_of (is_camera_running cid
                  (state_of (shutdown scheds joins meanwhile later m))) = Ok false /\
     result_of (get_camera_frame cid
                  (state_of (shutdown scheds joins meanwhile later m))) = Ok None) /\
  result_of (get_running_cameras (state_of (shutdown scheds joins meanwhile later m)))
  = Ok [].
Proof.
  destruct (shutdown_run scheds joins meanwhile later m) as (t & E & _).
  rewrite E; cbn [state_of fst snd]; repeat split.
Qed.

Lemma initialize_cameras_locked (pull : DbResult) (m : CameraManager) :
  joins_locked (trace_of (initialize_cameras pull m)).
Proof.
  destruct (pulled pull) as [|c rows] eqn:P.
  - destruct pull as [[|c rows]|]; try discriminate P.
    + apply joins_locked_with_lock with (t := [EvLog WARNING]).
      apply joins_locked_event; reflexivity.
    + apply joins_locked_with_lock
        with (t := [EvLog ERROR; EvLog ERROR; EvLog ERROR; EvLog WARNING]).
      apply joins_locked_worker; reflexivity.
  - destruct (initialize_cameras_unfold pull m c rows P) as (t0 & W0 & U).
    destruct (for_each_initialize_prefix (c :: rows) m) as (added & _ & W).
    rewrite U; cbn [trace_of snd].
    apply joins_locked_with_lock, joins_locked_worker.
    rewrite !forallb_app, W0, W; reflexivity.
Qed.

Lemma refresh_camera_configs_trace (pull : DbResult) (scheds : Z -> Schedule)
      (meanwhile : Z -> Z -> Schedule) (m : CameraManager) :
  exists t, trace_of (refresh_camera_configs pull scheds meanwhile m) =
            EvAcquire manager_lock :: t ++ [EvRelease manager_lock] /\
            joins_locked t.
Proof.
  destruct (stop_all_cameras_always scheds meanwhile m)
    as (res & m1 & t1 & E1 & _ & _ & L1 & _).
  pose proof (initialize_cameras_locked pull CameraManager_init) as L2.
  destruct (initialize_cameras pull CameraManager_init) as [[r2 m2] t2] eqn:E2.
  cbn [trace_of snd] in L2.
  assert (I : exists b, r2 = Ok b).
  { destruct (refresh_camera_configs_run pull scheds meanwhile m)
      as (_ & _ & _ & _ & b & Hb).
    rewrite E2 in Hb; exists b; exact Hb. }
  destruct I as (b & ->).
  exists ((EvAcquire manager_lock :: t1 ++ [EvRelease manager_lock]) ++ [] ++ t2); split.
  - unfold refresh_camera_configs.
    unfold with_lock at 1, try_except at 1, bind at 1; rewrite E1.
    unfold bind at 1, modify at 1.
    change {| streams := [] |} with CameraManager_init; rewrite E2; reflexivity.
  - apply joins_locked_app; [apply joins_locked_with_lock; exact L1 | exact L2].
Qed.

(** X12. The bulk operations join under the registry lock as well:
    in [stop_all_cameras], in [refresh_camera_configs] and in [shutdown]
    every [Thread.join] is issued between the acquisition of the registry
    lock and its last release. *)
Theorem bulk_joins_under_lock (pull : DbResult) (scheds joins : Z -> Schedule)
        (meanwhile later : Z -> Z -> Schedule) (m : CameraManager) :
  joins_inside_manager_lock 0 (trace_of (stop_all_cameras scheds meanwhile m)) = true /\
  joins_inside_manager_lock 0
    (trace_of (refresh_camera_configs pull scheds meanwhile m)) = true /\
  joins_inside_manager_lock 0 (trace_of (shutdown scheds joins meanwhile later m)) = true.
Proof.
  split; [|split].
  - destruct (stop_all_cameras_always scheds meanwhile m) as (res & m1 & t & E & _ & _ & L & _).
    rewrite E; apply joins_locked_top; exact L.
  - destruct (refresh_camera_configs_trace pull scheds meanwhile m) as (t & E & L).
    rewrite E; apply joins_locked_top; exact L.
  - destruct (shutdown_run scheds joins meanwhile later m) as (t & E & L).
    rewrite E; cbn [trace_of snd]; simpl; rewrite <- app_assoc, L; reflexivity.
Qed.

(** ** Lazy construction *)

Lemma start_quiescent_result (sched : Schedule) (s : CameraStream) :
  quiescent s = true -> is_running s = false ->
  result_of (start sched s) = Ok (opened_within sched (fps s)).
Proof.
  intros Q R.
  destruct (start_not_running sched s R) as (s' & t & Er & _ & E).
  pose proof (opening_run sched
    (set_threads (Starting :: threads s) (set_shutdown_event false s))
    (threads s) eq_refl Q R eq_refl) as O.
  rewrite Er in O; rewrite E; unfold result_of; cbn [fst]; f_equal; exact O.
Qed.

(** X13. Starting a camera the registry does not know, but the pulled
    configuration has, registers it whether or not the start succeeds: the
    id is appended to the known ids, its worker is built from the first
    pulled record of that id, and a capture thread is launched.  The answer
    is true exactly when, within the grace period, that thread got to open
    the device, the device opened, and the configured rate (an integer, 30
    when the record has none) is not 0, so that [1.0 / fps] could be
    computed.  With a configured rate of 0 the answer is false even though
    the device opens. *)
Theorem start_camera_registers_lazily (pull : DbResult) (sched : Schedule) (cid : Z)
        (m : CameraManager) (c : CameraConfig) :
  ~ In cid (known_ids m) ->
  find_config cid (pulled pull) = Some c ->
  let after := start_camera pull sched cid m in
  result_of after = Ok (opened_within sched (fps (CameraStream_init c))) /\
  known_ids (state_of after) = known_ids m ++ [cid] /\
  (exists s, dict_get cid (streams (state_of after)) = Some s /\ config s = c) /\
  existsb is_spawn (trace_of after) = true /\
  (result_of after = Ok true <->
   exists tk, find (fun tk => Nat.eqb (tk_thread tk) 0) sched = Some tk /\
              tk_open tk = true /\
              match cfg_fps c with Some f => f <> 0%Z | None => True end) /\
  (cfg_fps c = Some 0%Z -> result_of after = Ok false).
Proof.
  intros K F after; apply dict_get_none_iff in K.
  pose proof (start_quiescent_result sched (CameraStream_init c) eq_refl eq_refl) as Rs.
  destruct (start_not_running sched (CameraStream_init c) eq_refl)
    as (s' & t & _ & W & E).
  destruct (start_camera_lazy pull sched cid m c s' _ _ K F E) as (t0 & U).
  rewrite E in Rs; unfold after; rewrite U; cbn [result_of state_of trace_of fst snd].
  unfold result_of in Rs; cbn [fst] in Rs.
  split; [exact Rs|]; split; [|split; [|split; [|split]]].
  - unfold known_ids; simpl.
    rewrite (dict_keys_set_present _ _ _ _ (dict_get_set_same _ _ _)).
    apply (dict_keys_set_absent _ _ _ K).
  - exists s'; split; [apply dict_get_set_same|].
    rewrite (wk_config _ _ _ W); reflexivity.
  - simpl; rewrite !existsb_app; simpl; rewrite orb_true_r; reflexivity.
  - rewrite Rs; unfold opened_within; simpl fps.
    destruct (find (fun tk => Nat.eqb (tk_thread tk) 0) sched) as [tk|].
    + split.
      * intros H; injection H as H; apply andb_true_iff in H; destruct H as [O Z0].
        exists tk; split; [reflexivity|]; split; [exact O|].
        destruct (cfg_fps c) as [f|]; [|exact I].
        apply negb_true_iff, Z.eqb_neq in Z0; exact Z0.
      * intros (tk' & Etk & O & Z0); injection Etk as <-; rewrite O; simpl.
        destruct (cfg_fps c) as [f|]; [|reflexivity].
        apply Z.eqb_neq in Z0; rewrite Z0; reflexivity.
    + split; [discriminate|]; intros (tk' & Etk & _); discriminate Etk.
  - intros Z0; rewrite Rs; unfold opened_within; simpl fps; rewrite Z0.
    destruct (find (fun tk => Nat.eqb (tk_thread tk) 0) sched) as [tk|];
      [rewrite andb_false_r|]; reflexivity.
Qed.

Lemma start_camera_registers_lazily_witness :
  ~ In 2%Z (known_ids Sample.idle) /\
  find_config 2 (pulled (DbRows [Sample.front; Sample.back])) = Some Sample.back /\
  result_of (start_camera (DbRows [Sample.front; Sample.back]) Sample.does_not_open 2
               Sample.idle) = Ok false /\
  known_ids (state_of (start_camera (DbRows [Sample.front; Sample.back])
               Sample.does_not_open 2 Sample.idle)) = [1%Z; 2%Z] /\
  result_of (start_camera (DbRows [Sample.front; Sample.back]) Sample.opens_and_reads 2
               Sample.idle) = Ok true.
Proof.
  assert (K : ~ In 2%Z (known_ids Sample.idle))
    by (simpl; intros [H|[]]; discriminate H).
  destruct (start_camera_registers_lazily (DbRows [Sample.front; Sample.back])
              Sample.does_not_open 2 Sample.idle Sample.back K eq_refl)
    as (H1 & H2 & _ & _ & _ & _).
  destruct (start_camera_registers_lazily (DbRows [Sample.front; Sample.back])
              Sample.opens_and_reads 2 Sample.idle Sample.back K eq_refl)
    as (_ & _ & _ & _ & H5 & _).
  split; [exact K|]; split; [reflexivity|]; split; [exact H1|]; split; [exact H2|].
  apply H5; eexists; split; [reflexivity|]; split; [reflexivity | exact I].
Defined.

(** * The endpoints of [api/video.py] *)

(** ** Who may call them *)



(** ** What the lifecycle endpoints answer *)







(** ** Connected sockets *)

Lemma list_remove_count (ws x : Video.WebSocket) (l : list Video.WebSocket) :
  count_occ Nat.eq_dec (Video.list_remove ws l) x =
  if Nat.eqb x ws then Nat.pred (count_occ Nat.eq_dec l ws)
  else count_occ Nat.eq_dec l x.
Proof.
  induction l as [|y l IH]; simpl.
  - destruct (Nat.eqb x ws); reflexivity.
  - destruct (Nat.eqb ws y) eqn:E.
    + apply Nat.eqb_eq in E; subst y.
      destruct (Nat.eq_dec ws ws) as [_|N]; [|contradiction].
      destruct (Nat.eqb x ws) eqn:Ex.
      * apply Nat.eqb_eq in Ex; subst x; reflexivity.
      * apply Nat.eqb_neq in Ex.
        destruct (Nat.eq_dec ws x) as [->|_]; [contradiction | reflexivity].
    + apply Nat.eqb_neq in E; simpl; rewrite IH.
      destruct (Nat.eq_dec y ws) as [->|_]; [contradiction|].
      destruct (Nat.eqb x ws) eqn:Ex.
      * apply Nat.eqb_eq in Ex; subst x.
        destruct (Nat.eq_dec y ws) as [->|_]; [contradiction | reflexivity].
      * reflexivity.
Qed.

Lemma list_remove_last (ws : Video.WebSocket) (l : list Video.WebSocket) :
  ~ In ws l -> Video.list_remove ws (l ++ [ws]) = l.
Proof.
  induction l as [|y l IH]; simpl; intros N.
  - rewrite Nat.eqb_refl; reflexivity.
  - destruct (Nat.eqb ws y) eqn:E.
    + apply Nat.eqb_eq in E; subst y; exfalso; apply N; left; reflexivity.
    + rewrite IH; [reflexivity | tauto].
Qed.

Lemma existsb_eqb_in (ws : Video.WebSocket) (l : list Video.WebSocket) :
  existsb (Nat.eqb ws) l = true <-> In ws l.
Proof.
  rewrite existsb_exists; split.
  - intros (y & I & E); apply Nat.eqb_eq in E; subst y; exact I.
  - intros I; exists ws; split; [exact I | apply Nat.eqb_refl].
Qed.

(** X18. [disconnect] removes one registration of the socket and nothing
    else: the socket is listed once less (not at all less when it was not
    listed, in which case nothing changes), every other socket is listed
    as often as before.  Disconnecting a socket right after connecting it
    gives back the list it was not in. *)
Theorem disconnect_removes_one (ws : Video.WebSocket) (cm : Video.ConnectionManager) :
  (forall x,
     count_occ Nat.eq_dec (Video.active_connections (Video.disconnect ws cm)) x =
     if Nat.eqb x ws
     then Nat.pred (count_occ Nat.eq_dec (Video.active_connections cm) ws)
     else count_occ Nat.eq_dec (Video.active_connections cm) x) /\
  (~ In ws (Video.active_connections cm) -> Video.disconnect ws cm = cm) /\
  (~ In ws (Video.active_connections cm) ->
   Video.disconnect ws (Video.connect ws cm) = cm).
Proof.
  split; [|split].
  - intros x; unfold Video.disconnect.
    destruct (existsb (Nat.eqb ws) (Video.active_connections cm)) eqn:E.
    + simpl; apply list_remove_count.
    + destruct (Nat.eqb x ws) eqn:Ex; [|reflexivity].
      apply Nat.eqb_eq in Ex; subst x.
      assert (N : ~ In ws (Video.active_connections cm)).
      { intros I; apply existsb_eqb_in in I; congruence. }
      rewrite (proj1 (count_occ_not_In Nat.eq_dec _ _) N); reflexivity.
  - intros N; unfold Video.disconnect.
    destruct (existsb (Nat.eqb ws) (Video.active_connections cm)) eqn:E; [|reflexivity].
    apply existsb_eqb_in in E; contradiction.
  - intros N; unfold Video.disconnect, Video.connect; simpl.
    rewrite existsb_app; simpl; rewrite Nat.eqb_refl, orb_true_r.
    rewrite (list_remove_last ws _ N); destruct cm; reflexivity.
Qed.

Lemma disconnect_removes_one_witness :
  ~ In 7 (Video.active_connections {| Video.active_connections := [3; 5] |}) /\
  Video.disconnect 7 (Video.connect 7 {| Video.active_connections := [3; 5] |}) =
    {| Video.active_connections := [3; 5] |} /\
  Video.disconnect 7 {| Video.active_connections := [3; 5] |} =
    {| Video.active_connections := [3; 5] |}.
Proof.
  assert (N : ~ In 7 (Video.active_connections {| Video.active_connections := [3; 5] |}))
    by (simpl; lia).
  destruct (disconnect_removes_one 7 {| Video.active_connections := [3; 5] |})
    as (_ & H2 & H3).
  split; [exact N|]; split; [exact (H3 N) | exact (H2 N)].
Defined.

(** ** What the bulk stop reports *)



(** * The registry as a whole *)

(** ** Reads *)

(** X20. The read operations only read: [get_camera_frame],
    [get_camera_status], [is_camera_running], [get_running_cameras] and
    [get_all_camera_status] leave the registry as it is for every id, known
    or not, and [get_camera_frame] answers the frame the worker of the
    camera stores (nothing for a worker without a frame or an unknown
    id). *)
Theorem reads_change_nothing (nows : Z -> Time * Time) (now1 now2 : Time) (cid : Z)
        (m : CameraManager) :
  state_of (get_camera_frame cid m) = m /\
  result_of (get_camera_frame cid m) =
    Ok (match dict_get cid (streams m) with
        | Some s => latest_frame s
        | None => None
        end) /\
  state_of (get_camera_status now1 now2 cid m) = m /\
  state_of (is_camera_running cid m) = m /\
  state_of (get_running_cameras m) = m /\
  state_of (get_all_camera_status nows m) = m.
Proof.
  destruct (for_each_status_spec nows (known_ids m) m (incl_refl _)) as (res & E & _).
  assert (All : state_of (get_all_camera_status nows m) = m).
  { unfold get_all_camera_status; unfold_method.
    unfold known_ids in E; rewrite E; reflexivity. }
  destruct (dict_get cid (streams m)) as [s|] eqn:G.
  - destruct (get_stream_info_run now1 now2 s) as (info & Ei).
    rewrite (get_camera_frame_known _ _ _ G), (is_camera_running_known _ _ _ G),
      (get_camera_status_known _ _ _ _ _ _ G Ei).
    repeat split; exact All.
  - rewrite (get_camera_frame_unknown _ _ G), (is_camera_running_unknown _ _ G),
      (get_camera_status_unknown _ _ _ _ G).
    repeat split; exact All.
Qed.

(** ** Distinct ids *)

Lemma start_camera_ids (pull : DbResult) (sched : Schedule) (cid : Z) (m : CameraManager) :
  known_ids (state_of (start_camera pull sched cid m)) = known_ids m \/
  (~ In cid (known_ids m) /\
   known_ids (state_of (start_camera pull sched cid m)) = known_ids m ++ [cid]).
Proof.
  destruct (dict_get cid (streams m)) as [s|] eqn:G.
  - left; destruct (start_spec sched s) as (b & s' & t & E & _).
    rewrite (start_camera_known pull sched cid m s s' _ _ G E).
    apply (known_ids_set_present _ _ _ _ G).
  - destruct (find_config cid (pulled pull)) as [c|] eqn:F.
    + right; split; [apply dict_get_none_iff; exact G|].
      destruct (start_spec sched (CameraStream_init c)) as (b & s' & t & E & _).
      destruct (start_camera_lazy pull sched cid m c s' _ _ G F E) as (t0 & U).
      rewrite U; unfold known_ids; cbn [state_of fst snd streams].
      rewrite (dict_keys_set_present _ _ _ _ (dict_get_set_same _ _ _)).
      apply (dict_keys_set_absent _ _ _ G).
    + left; destruct (start_camera_absent pull sched cid m G F) as (t & E & _).
      rewrite E; reflexivity.
Qed.

Lemma initialize_cameras_nodup (pull : DbResult) (m : CameraManager) :
  NoDup (known_ids m) -> NoDup (known_ids (state_of (initialize_cameras pull m))).
Proof.
  intros ND; destruct (pulled pull) as [|c rows] eqn:P.
  - destruct (initialize_cameras_empty pull m P) as (t & E); rewrite E; exact ND.
  - destruct (initialize_cameras_rows pull m) as (m' & t & E & _ & N); [congruence|].
    rewrite E; apply N; exact ND.
Qed.

Lemma start_all_cameras_ids (pull : DbResult) (scheds : Z -> Schedule)
      (staggers : Z -> Z -> Schedule) (m : CameraManager) :
  known_ids (state_of (start_all_cameras pull scheds staggers m)) =
  known_ids (match streams m with
             | [] => state_of (initialize_cameras pull m)
             | _ :: _ => m
             end).
Proof.
  destruct (streams m) as [|[k0 s0] d] eqn:S.
  - destruct (initialize_cameras pull m) as [[r1 m1] t1] eqn:E1.
    assert (I : exists b, r1 = Ok b).
    { destruct (pulled pull) as [|c rows] eqn:P.
      - destruct (initialize_cameras_empty pull m P) as (t & E).
        exists false; congruence.
      - destruct (initialize_cameras_rows pull m) as (m' & t & E & _); [congruence|].
        exists true; congruence. }
    destruct I as (b & ->).
    destruct (start_all_loop_run scheds staggers m1) as (res & m' & t & E & K & _).
    unfold start_all_cameras; unfold_method; rewrite S, E1.
    cbv beta iota; rewrite E; exact K.
  - destruct (start_all_loop_run scheds staggers m) as (res & m' & t & E & K & _).
    unfold start_all_cameras; unfold_method; rewrite S.
    cbv beta iota; rewrite E; exact K.
Qed.

(** X21. The registry never holds an id twice. A new registry has
    distinct ids, and [initialize_cameras], [start_camera], [stop_camera],
    [start_all_cameras], [stop_all_cameras], [refresh_camera_configs] and
    [shutdown] all keep them distinct, also when the pulled configuration
    repeats an id. *)
Theorem registry_ids_stay_distinct (pull : DbResult) (sched : Schedule)
        (scheds joins : Z -> Schedule) (staggers meanwhile later : Z -> Z -> Schedule)
        (cid : Z) (m : CameraManager) :
  NoDup (known_ids CameraManager_init) /\
  (NoDup (known_ids m) ->
   NoDup (known_ids (state_of (initialize_cameras pull m))) /\
   NoDup (known_ids (state_of (start_camera pull sched cid m))) /\
   NoDup (known_ids (state_of (stop_camera sched cid m))) /\
   NoDup (known_ids (state_of (start_all_cameras pull scheds staggers m))) /\
   NoDup (known_ids (state_of (stop_all_cameras scheds meanwhile m))) /\
   NoDup (known_ids (state_of (refresh_camera_configs pull scheds meanwhile m))) /\
   NoDup (known_ids (state_of (shutdown scheds joins meanwhile later m)))).
Proof.
  split; [constructor|]; intros ND.
  split; [apply initialize_cameras_nodup; exact ND|].
  split.
  { destruct (start_camera_ids pull sched cid m) as [-> | [N ->]]; [exact ND|].
    apply NoDup_app; [exact ND | repeat constructor; simpl; tauto |].
    intros k Hk [<-|[]]; contradiction. }
  split.
  { destruct (dict_get cid (streams m)) as [s|] eqn:G.
    - destruct (stop_camera_known_spec sched _ _ _ G) as (s' & t & _ & _ & _ & E).
      rewrite E; cbn [state_of fst snd].
      rewrite (known_ids_set_present _ _ _ _ G); exact ND.
    - rewrite (stop_camera_unknown _ _ _ G); exact ND. }
  split.
  { rewrite start_all_cameras_ids.
    destruct (streams m); [apply initialize_cameras_nodup|]; exact ND. }
  split.
  { destruct (stop_all_cameras_always scheds meanwhile m) as (res & m' & t & E & K & _).
    rewrite E; cbn [state_of fst snd]; rewrite K; exact ND. }
  split.
  { destruct (refresh_camera_configs_run pull scheds meanwhile m) as (t1 & t2 & E & _).
    rewrite E; cbn [state_of fst snd].
    apply initialize_cameras_nodup; constructor. }
  destruct (shutdown_run scheds joins meanwhile later m) as (t & E & _).
  rewrite E; constructor.
Qed.

Lemma registry_ids_stay_distinct_witness :
  NoDup (known_ids Sample.idle) /\
  NoDup (known_ids (state_of (start_camera (DbRows [Sample.back; Sample.back])
                                Sample.opens_and_reads 2 Sample.idle))) /\
  NoDup (known_ids (state_of (refresh_camera_configs
                                (DbRows [Sample.back; Sample.front; Sample.back])
                                (fun _ => []) (fun _ _ => []) Sample.idle))).
Proof.
  assert (ND : NoDup (known_ids Sample.idle))
    by (repeat constructor; simpl; tauto).
  destruct (registry_ids_stay_distinct (DbRows [Sample.back; Sample.back])
              Sample.opens_and_reads (fun _ => []) (fun _ => []) (fun _ _ => [])
              (fun _ _ => []) (fun _ _ => []) 2 Sample.idle) as (_ & H).
  destruct (registry_ids_stay_distinct (DbRows [Sample.back; Sample.front; Sample.back])
              Sample.opens_and_reads (fun _ => []) (fun _ => []) (fun _ _ => [])
              (fun _ _ => []) (fun _ _ => []) 2 Sample.idle) as (_ & H').
  destruct (H ND) as (_ & H2 & _).
  destruct (H' ND) as (_ & _ & _ & _ & _ & H6 & _).
  split; [exact ND|]; split; [exact H2 | exact H6].
Defined.
